(** * IoDispatchers: the console server's connection and object dispatcher

    A shallow embedding of [src/server/IoDispatchers.cpp].  The routines of
    that file run against process-wide state (the console information
    block, the process list, the handle objects, the console lock) and call
    collaborators that live in other translation units.  Here the state is
    an explicit [World] record threaded through every routine, every call
    that leaves the file is recorded in the world's [trace], and the answer
    each collaborator gives is read from an [Env] record, so that the
    control flow of the source can be followed branch by branch. *)

From Stdlib Require Import ZArith Bool Lia.
From stdpp Require Import base option list gmap.

Open Scope Z_scope.

(** ** Machine integers, status codes and flag helpers *)

(** [(DWORD)x]: truncation to 32 unsigned bits. *)
Definition to_DWORD (x : Z) : Z := x mod 2 ^ 32.

(** [(NTSTATUS)x]: reinterpretation of a 32-bit pattern as a signed LONG. *)
Definition to_NTSTATUS (x : Z) : Z := (x + 2 ^ 31) mod 2 ^ 32 - 2 ^ 31.

Definition STATUS_SUCCESS : Z := 0.
Definition STATUS_INVALID_PARAMETER : Z := to_NTSTATUS 0xC000000D.
Definition STATUS_OBJECT_NAME_NOT_FOUND : Z := to_NTSTATUS 0xC0000034.

(** [NT_SUCCESS(Status)] is [Status >= 0]. *)
Definition NT_SUCCESS (Status : Z) : bool := 0 <=? Status.

(** [SUCCEEDED(hr)] and [FAILED(hr)] on an HRESULT. *)
Definition SUCCEEDED (hr : Z) : bool := 0 <=? hr.
Definition FAILED (hr : Z) : bool := hr <? 0.
Definition S_OK : Z := 0.

(** Access rights and share modes of the Windows SDK. *)
Definition GENERIC_READ : Z := 0x80000000.
Definition GENERIC_WRITE : Z := 0x40000000.
Definition FILE_SHARE_READ : Z := 0x1.
Definition FILE_SHARE_WRITE : Z := 0x2.

(** [STARTUPINFO] flags and [ShowWindow] commands of the Windows SDK. *)
Definition STARTF_USESHOWWINDOW : Z := 0x1.
Definition SW_HIDE : Z := 0.
Definition SW_SHOWMINIMIZED : Z := 2.
Definition SW_MINIMIZE : Z := 6.
Definition SW_SHOWMINNOACTIVE : Z := 7.
Definition SW_FORCEMINIMIZE : Z := 11.

(** Window-station flag read by [_isInteractiveUserSession]. *)
Definition WSF_VISIBLE : Z := 0x1.

(** Object types of the console driver interface ([CD_IO_OBJECT_TYPE]). *)
Definition CD_IO_OBJECT_TYPE_CURRENT_INPUT : Z := 0.
Definition CD_IO_OBJECT_TYPE_CURRENT_OUTPUT : Z := 1.
Definition CD_IO_OBJECT_TYPE_NEW_OUTPUT : Z := 2.
Definition CD_IO_OBJECT_TYPE_GENERIC : Z := 3.

(** Bits of [gci.Flags].  The header that assigns them is not among the
    sources; the development fixes one assignment and relies on nothing
    but the two masks being distinct single bits. *)
Definition CONSOLE_HAS_FOCUS : Z := 0x4.
Definition CONSOLE_INITIALIZED : Z := 0x800000.

(** The flag helpers of the Windows Implementation Library. *)
Definition WI_IsFlagSet (val flag : Z) : bool := negb (Z.land val flag =? 0).
Definition WI_IsFlagClear (val flag : Z) : bool := Z.land val flag =? 0.
Definition WI_SetFlag (val flag : Z) : Z := Z.lor val flag.

(** [sizeof(CD_CONNECTION_INFORMATION)]: three pointer-sized fields. *)
Definition sizeof_CD_CONNECTION_INFORMATION : Z := 24.
Definition sizeof_wchar_t : Z := 2.

(** ** Data model *)

(** [ConsoleHandleData::HandleType], restricted to the two kinds this file
    allocates. *)
Inductive HandleType := Input | Output.

(** A [ConsoleHandleData] object: the kind of endpoint it is bound to and
    the access and share mode it was opened with. *)
Record ConsoleHandleData := mkHandle {
  hdType : HandleType;
  hdAccess : Z;
  hdShare : Z
}.

(** Who is responsible for destroying a live handle object: this process
    (a [std::unique_ptr] local or member holds it) or the driver, after
    [handle.release()]. *)
Inductive Owner := HostOwned | DriverOwned.

(** A [ConsoleProcessHandle].  The two handle members are
    [std::unique_ptr<ConsoleHandleData>]; [None] is the empty pointer. *)
Record ConsoleProcessHandle := mkProcess {
  dwProcessId : Z;
  dwThreadId : Z;
  ulProcessGroupId : Z;
  fRootProcess : bool;
  pInputHandle : option Z;
  pOutputHandle : option Z
}.

(** [ConsoleArguments], read through its three getters. *)
Record ConsoleArguments := mkArgs {
  GetForceNoHandoff : bool;
  ShouldCreateServerHandle : bool;
  IsHeadless : bool
}.

(** The members of [Globals] this file reads or writes. *)
Record Globals := mkGlobals {
  launchArgs : ConsoleArguments;
  handoffConsoleClsid : option Z;
  handoffTarget : bool;
  hInputEvent : option Z
}.

(** Kernel and COM resources the handoff attempt holds in scoped owners. *)
Inductive Resource :=
| ResComInit
| ResHandoffInterface
| ResSignalPipeTheirSide
| ResSignalPipeOurSide
| ResOurProcess
| ResClientProcess
| ResInputEvent.

Inductive ApiCall := AttachConsole | FreeConsole.

(** The portable attach message packed for the handoff target. *)
Record CONSOLE_PORTABLE_ATTACH_MSG := mkPortable {
  IdHighPart : Z;
  IdLowPart : Z;
  paProcess : Z;
  paObject : Z;
  paFunction : Z;
  paInputSize : Z;
  paOutputSize : Z
}.

(** What the routines do to the world outside their own locals, in program
    order. *)
Inductive Event :=
| EvLockConsole
| EvUnlockConsole
| EvLogApiCall (api : ApiCall)
| EvInitializeConnectInfo (Status : Z)
| EvShouldAttemptHandoff (decision : bool)
| EvAcquire (r : Resource)
| EvRelease (r : Resource)
| EvEstablishHandoff (msg : CONSOLE_PORTABLE_ATTACH_MSG) (hr : Z)
| EvHostSignalThreadStart (hr : Z)
| EvTraceHandoffSucceeded
| EvTraceHandoffFailed
| EvLogCaughtException
| EvWaitForSingleObject
| EvExitProcess
| EvAllocProcessData (Status : Z)
| EvFreeProcessData (p : Z)
| EvNotifyConsoleApplication (pid : Z)
| EvNotifyConsoleStartApplication (pid : Z)
| EvNotifyConsoleEndApplication (pid : Z)
| EvConsoleAllocateConsole (Status : Z)
| EvSetInitialized
| EvHistoryAllocate (p : Z)
| EvHistoryFree (p : Z)
| EvModifyConsoleProcessFocus (grantFG : bool)
| EvAllocateIoHandle (t : HandleType) (access share : Z) (Status : Z)
| EvCreateScreenBuffer (Status : Z)
| EvDeleteHandle (h : Z)
| EvPutHandle (h : Z)
| EvCompleteIo (hr : Z)
| EvTraceAttachDetach (p : Z) (attach : bool)
| EvRemoveConsole (p : Z) (hr : Z)
| EvCloseSession
| EvLogFailure (hr : Z).

(** The process-wide state. *)
Record World := mkWorld {
  globals : Globals;
  (** [gci.Flags] *)
  Flags : Z;
  (** [gci.IsInVtIoMode()] *)
  vtIoMode : bool;
  (** [gci.ProcessHandleList], keyed by the address of each record *)
  ProcessHandleList : gmap Z ConsoleProcessHandle;
  (** command-history slots, keyed by the process handle they belong to *)
  CommandHistories : gmap Z (list Z);
  (** the live [ConsoleHandleData] objects, keyed by address, each with
      its current owner *)
  HandleHeap : gmap Z (Owner * ConsoleHandleData);
  (** recursion depth of the console lock *)
  lockDepth : Z;
  trace : list Event
}.

(** ** Requests and replies *)

Record CD_CREATE_OBJECT_INFORMATION := mkCreate {
  ObjectType : Z;
  ShareMode : Z;
  DesiredAccess : Z
}.

Record CD_IO_DESCRIPTOR := mkDescriptor {
  IdentifierHighPart : Z;
  IdentifierLowPart : Z;
  Process : Z;
  Object : Z;
  Function : Z;
  InputSize : Z;
  OutputSize : Z
}.

(** The part of [CONSOLE_API_MSG] the dispatcher touches.  [objectHandle]
    and [processHandle] are what [GetObjectHandle()] and
    [GetProcessHandle()] answer; address [0] is [nullptr]. *)
Record CONSOLE_API_MSG := mkMsg {
  Descriptor : CD_IO_DESCRIPTOR;
  CreateObject : CD_CREATE_OBJECT_INFORMATION;
  objectHandle : Z;
  processHandle : Z;
  ReplyStatus : Z;
  ReplyInformation : Z;
  CompleteWriteSize : Z
}.

(** [CONSOLE_API_CONNECTINFO] as filled by [ConsoleInitializeConnectInfo]. *)
Record CONSOLE_API_CONNECTINFO := mkCac {
  ConsoleApp : bool;
  ProcessGroupId : Z;
  AppName : list Z;
  AppNameLength : Z;
  StartupFlags : Z;
  ShowWindow : Z
}.

(** How a routine hands the request back: the message itself (reply
    inline), [nullptr] (already completed through the driver), or not at
    all, because the process has exited or because the routine has run
    into undefined behaviour.  After [Undefined] the source language
    promises nothing: no reply, no state. *)
Inductive Completion := ReplyInline | ReplyDone | ProcessExited | Undefined.

#[global] Instance Completion_eq_dec : EqDecision Completion.
Proof. solve_decision. Defined.

(** ** Answers from outside this translation unit *)

(** What [_isInteractiveUserSession] learns from the operating system. *)
Record SessionProbe := mkProbe {
  ProcessIdToSessionId : bool;
  sessionId : Z;
  GetProcessWindowStation : Z;
  GetUserObjectInformationW : bool;
  dwFlags : Z
}.

(** [CommandHistory::s_Allocate] either returns (with a slot, or with
    [nullptr] when none is free) or throws. *)
Inductive HistoryOutcome := HistorySlot | HistoryNoSlot | HistoryThrows.

(** The build flag, the operating system's answers and the collaborators'
    results for one request.  A field of status type holds the value the
    source tests, that is the collaborator's result after
    [NTSTATUS_FROM_HRESULT] where the source applies it. *)
Record Env := mkEnv {
  TIL_FEATURE_ATTEMPTHANDOFF_ENABLED : bool;
  probe : SessionProbe;
  ConsoleInitializeConnectInfo : Z * CONSOLE_API_CONNECTINFO;
  ConsoleConnectionDeservesVisibleWindow : bool;
  CoInitializeEx : Z;
  CoCreateInstance : Z;
  GetServerHandle : Z;
  CreatePipe : bool;
  DuplicateHandle : bool;
  EstablishHandoff : Z;
  HostSignalThreadStart : Z;
  AllocProcessDataStatus : Z;
  LocateAccessibilityNotifier : bool;
  ConsoleAllocateConsole : Z;
  s_Allocate : HistoryOutcome;
  AllocateInputStatus : Z;
  AllocateOutputStatus : Z;
  ConsoleCreateScreenBuffer : Z;
  CompleteIo : Z;
  (** the [HRESULT] of [RemoveConsole] *)
  RemoveConsoleResult : Z
}.

(** ** Primitive steps on the world and on a message *)

Definition log (e : Event) (w : World) : World :=
  mkWorld (globals w) (Flags w) (vtIoMode w) (ProcessHandleList w)
    (CommandHistories w) (HandleHeap w) (lockDepth w)
    (trace w ++ [e]).

Definition with_lockDepth (d : Z) (w : World) : World :=
  mkWorld (globals w) (Flags w) (vtIoMode w) (ProcessHandleList w)
    (CommandHistories w) (HandleHeap w) d (trace w).

Definition with_Flags (f : Z) (w : World) : World :=
  mkWorld (globals w) f (vtIoMode w) (ProcessHandleList w)
    (CommandHistories w) (HandleHeap w) (lockDepth w)
    (trace w).

Definition with_globals (g : Globals) (w : World) : World :=
  mkWorld g (Flags w) (vtIoMode w) (ProcessHandleList w)
    (CommandHistories w) (HandleHeap w) (lockDepth w)
    (trace w).

Definition with_ProcessHandleList (l : gmap Z ConsoleProcessHandle)
    (w : World) : World :=
  mkWorld (globals w) (Flags w) (vtIoMode w) l
    (CommandHistories w) (HandleHeap w) (lockDepth w)
    (trace w).

Definition with_CommandHistories (h : gmap Z (list Z)) (w : World) : World :=
  mkWorld (globals w) (Flags w) (vtIoMode w) (ProcessHandleList w)
    h (HandleHeap w) (lockDepth w) (trace w).

Definition with_HandleHeap (h : gmap Z (Owner * ConsoleHandleData))
    (w : World) : World :=
  mkWorld (globals w) (Flags w) (vtIoMode w) (ProcessHandleList w)
    (CommandHistories w) h (lockDepth w) (trace w).

(** [LockConsole()] and [UnlockConsole()] on the recursive console lock. *)
Definition LockConsole (w : World) : World :=
  log EvLockConsole (with_lockDepth (lockDepth w + 1) w).

Definition UnlockConsole (w : World) : World :=
  log EvUnlockConsole (with_lockDepth (lockDepth w - 1) w).

Definition SetReplyStatus (Status : Z) (m : CONSOLE_API_MSG) : CONSOLE_API_MSG :=
  mkMsg (Descriptor m) (CreateObject m) (objectHandle m) (processHandle m)
    Status (ReplyInformation m) (CompleteWriteSize m).

Definition SetReplyInformation (i : Z) (m : CONSOLE_API_MSG) : CONSOLE_API_MSG :=
  mkMsg (Descriptor m) (CreateObject m) (objectHandle m) (processHandle m)
    (ReplyStatus m) i (CompleteWriteSize m).

Definition SetCompleteWriteSize (n : Z) (m : CONSOLE_API_MSG) : CONSOLE_API_MSG :=
  mkMsg (Descriptor m) (CreateObject m) (objectHandle m) (processHandle m)
    (ReplyStatus m) (ReplyInformation m) n.

Definition SetObjectType (t : Z) (m : CONSOLE_API_MSG) : CONSOLE_API_MSG :=
  mkMsg (Descriptor m)
    (mkCreate t (ShareMode (CreateObject m)) (DesiredAccess (CreateObject m)))
    (objectHandle m) (processHandle m) (ReplyStatus m) (ReplyInformation m)
    (CompleteWriteSize m).

(** An address [operator new] may return: not null and not live. *)
Definition new_address {A} (heap : gmap Z A) : Z := fresh ({[0]} ∪ dom heap).

(** [delete h] where [h] is what an owner holds (a [std::unique_ptr], a
    field of a process record): [nullptr], or the object the owner owns,
    which leaves the heap.  An owner's pointer is null or live; in a world
    in which it is neither, the model logs the [delete] and leaves the
    heap as it is. *)
Definition delete_handle (h : Z) (w : World) : World :=
  if h =? 0 then w
  else log (EvDeleteHandle h) (with_HandleHeap (delete h (HandleHeap w)) w).

(** [delete h] on a [ConsoleHandleData*] that comes from outside: nothing
    for [nullptr]; a live object leaves the heap, whoever held it; for any
    other address the behaviour is undefined ([None]). *)
Definition delete_pointer (h : Z) (w : World) : option World :=
  if h =? 0 then Some w
  else if bool_decide (is_Some (HandleHeap w !! h)) then Some (delete_handle h w)
  else None.

(** [LOG_IF_FAILED(hr)]: a failure is logged and otherwise ignored. *)
Definition LOG_IF_FAILED (hr : Z) (w : World) : World :=
  if FAILED hr then log (EvLogFailure hr) w else w.

(** [handle.release()]: the pointer gives up the object without
    destroying it; the driver, which was given the address, owns it. *)
Definition release_unique (h : option Z) (w : World) : World :=
  match h with
  | Some a =>
      with_HandleHeap (alter (λ c, (DriverOwned, c.2)) a (HandleHeap w)) w
  | None => w
  end.

(** Destructor of a [std::unique_ptr<ConsoleHandleData>]. *)
Definition destroy_unique (h : option Z) (w : World) : World :=
  match h with
  | Some a => delete_handle a w
  | None => w
  end.

(** ** Collaborators in other translation units *)

(** Modelled from the spec: [ConsoleObjectHeader::AllocateIoHandle] is not
    among the sources.  "Allocate a Handle on the target SessionObject
    honoring desired access and share mode": on a successful status a new
    handle object of the requested kind, access and share mode is live and
    returned through the out parameter; on failure nothing is created. *)
Definition AllocateIoHandle (t : HandleType) (access share : Z) (Status : Z)
    (w : World) : option Z * World :=
  let w := log (EvAllocateIoHandle t access share Status) w in
  if NT_SUCCESS Status then
    let h := new_address (HandleHeap w) in
    (Some h, with_HandleHeap (<[h := (HostOwned, mkHandle t access share)]> (HandleHeap w)) w)
  else (None, w).

(** Modelled from the spec: [ConsoleCreateScreenBuffer] is not among the
    sources.  A new-output request yields, on success, a handle on the
    fresh screen buffer opened as the request asks. *)
Definition CreateScreenBuffer (access share : Z) (Status : Z)
    (w : World) : option Z * World :=
  let w := log (EvCreateScreenBuffer Status) w in
  if NT_SUCCESS Status then
    let h := new_address (HandleHeap w) in
    (Some h, with_HandleHeap (<[h := (HostOwned, mkHandle Output access share)]> (HandleHeap w)) w)
  else (None, w).

(** Modelled from the spec: [ConsoleProcessList::AllocProcessData] is not
    among the sources.  "Allocate a ProcessRecord keyed by process id,
    thread id, group id": on success a new record, not yet root and
    without handles, joins the list. *)
Definition AllocProcessData (pid tid gid : Z) (Status : Z)
    (w : World) : option Z * World :=
  let w := log (EvAllocProcessData Status) w in
  if NT_SUCCESS Status then
    let p := new_address (ProcessHandleList w) in
    (Some p,
     with_ProcessHandleList
       (<[p := mkProcess pid tid gid false None None]> (ProcessHandleList w)) w)
  else (None, w).

(** Modelled from the spec: [ConsoleProcessList::FreeProcessData] is not
    among the sources.  The record leaves the list and is destroyed, and
    with it the two handles it owns. *)
Definition FreeProcessData (p : Z) (w : World) : World :=
  let w := log (EvFreeProcessData p) w in
  match ProcessHandleList w !! p with
  | Some r =>
      let w := destroy_unique (pInputHandle r) w in
      let w := destroy_unique (pOutputHandle r) w in
      with_ProcessHandleList (delete p (ProcessHandleList w)) w
  | None => w
  end.

(** Modelled from the spec: [CommandHistory::s_Allocate] and [s_Free] are
    not among the sources.  A slot is keyed by the process handle and
    carries the application name. *)
Definition HistoryAllocate (name : list Z) (p : Z) (slot : bool)
    (w : World) : World :=
  let w := log (EvHistoryAllocate p) w in
  if slot then with_CommandHistories (<[p := name]> (CommandHistories w)) w
  else w.

(** Modelled from the spec: [CommandHistory::s_Free], the counterpart of
    [s_Allocate], gives up the slot keyed by the process handle. *)
Definition s_Free (p : Z) (w : World) : World :=
  with_CommandHistories (delete p (CommandHistories w))
    (log (EvHistoryFree p) w).

(** Modelled from the spec: [RemoveConsole] is not among the sources.
    "Release all resources the process owned (handle closure and record
    teardown delegated to a broader teardown collaborator)"; "whether
    this was the last process and the session itself should close is
    decided by the teardown collaborator"; "a single coarse-grained lock
    serializes all mutation" of the registries, so the collaborator, whose
    caller holds no lock, takes it for the teardown.  [hr] is the result
    it reports; of a teardown that reports failure nothing is said, and
    the model lets it leave the registries as they were. *)
Definition RemoveConsole (p : Z) (hr : Z) (w : World) : World :=
  let w := LockConsole w in
  let w := log (EvRemoveConsole p hr) w in
  let w :=
    if FAILED hr then w
    else
      match ProcessHandleList w !! p with
      | Some r =>
          let heap := HandleHeap w in
          let heap := from_option (λ a, delete a heap) heap (pInputHandle r) in
          let heap := from_option (λ a, delete a heap) heap (pOutputHandle r) in
          let w := with_CommandHistories (delete p (CommandHistories w))
                     (with_ProcessHandleList (delete p (ProcessHandleList w))
                        (with_HandleHeap heap w)) in
          if (size (ProcessHandleList w) =? 0)%nat then log EvCloseSession w else w
      | None => w
      end in
  UnlockConsole w.

(** Write access to one record of the process list. *)
Definition update_process (p : Z)
    (f : ConsoleProcessHandle → ConsoleProcessHandle) (w : World) : World :=
  with_ProcessHandleList (alter f p (ProcessHandleList w)) w.

Definition set_fRootProcess (b : bool) (r : ConsoleProcessHandle) :=
  mkProcess (dwProcessId r) (dwThreadId r) (ulProcessGroupId r) b
    (pInputHandle r) (pOutputHandle r).

Definition set_pInputHandle (h : option Z) (r : ConsoleProcessHandle) :=
  mkProcess (dwProcessId r) (dwThreadId r) (ulProcessGroupId r)
    (fRootProcess r) h (pOutputHandle r).

Definition set_pOutputHandle (h : option Z) (r : ConsoleProcessHandle) :=
  mkProcess (dwProcessId r) (dwThreadId r) (ulProcessGroupId r)
    (fRootProcess r) (pInputHandle r) h.

(** ** ConsoleCreateObject (source lines 43-115) *)

(** Lines 53-63: a generic request is rewritten by its access bits; any
    other type, and a generic one with neither or both bits, stays. *)
Definition resolveObjectType (CreateInformation : CD_CREATE_OBJECT_INFORMATION) : Z :=
  if ObjectType CreateInformation =? CD_IO_OBJECT_TYPE_GENERIC then
    if Z.land (DesiredAccess CreateInformation) (Z.lor GENERIC_READ GENERIC_WRITE)
       =? GENERIC_READ
    then CD_IO_OBJECT_TYPE_CURRENT_INPUT
    else if Z.land (DesiredAccess CreateInformation) (Z.lor GENERIC_READ GENERIC_WRITE)
            =? GENERIC_WRITE
    then CD_IO_OBJECT_TYPE_CURRENT_OUTPUT
    else ObjectType CreateInformation
  else ObjectType CreateInformation.

(** Lines 65-91: the switch on the resolved type. *)
Definition allocateByType (env : Env) (CreateInformation : CD_CREATE_OBJECT_INFORMATION)
    (w : World) : Z * option Z * World :=
  let t := ObjectType CreateInformation in
  if t =? CD_IO_OBJECT_TYPE_CURRENT_INPUT then
    let '(handle, w) :=
      AllocateIoHandle Input (DesiredAccess CreateInformation)
        (ShareMode CreateInformation) (AllocateInputStatus env) w in
    (AllocateInputStatus env, handle, w)
  else if t =? CD_IO_OBJECT_TYPE_CURRENT_OUTPUT then
    let '(handle, w) :=
      AllocateIoHandle Output (DesiredAccess CreateInformation)
        (ShareMode CreateInformation) (AllocateOutputStatus env) w in
    (AllocateOutputStatus env, handle, w)
  else if t =? CD_IO_OBJECT_TYPE_NEW_OUTPUT then
    let '(handle, w) :=
      CreateScreenBuffer (DesiredAccess CreateInformation)
        (ShareMode CreateInformation) (ConsoleCreateScreenBuffer env) w in
    (ConsoleCreateScreenBuffer env, handle, w)
  else (STATUS_INVALID_PARAMETER, None, w).

Definition ConsoleCreateObject (env : Env) (pMessage : CONSOLE_API_MSG)
    (w : World) : Completion * CONSOLE_API_MSG * World :=
  let w := LockConsole w in
  let pMessage := SetObjectType (resolveObjectType (CreateObject pMessage)) pMessage in
  let '(Status, handle, w) := allocateByType env (CreateObject pMessage) w in
  if negb (NT_SUCCESS Status) then
    let w := UnlockConsole w in
    (ReplyInline, SetReplyStatus Status pMessage, w)
  else
    let pMessage := SetReplyStatus STATUS_SUCCESS pMessage in
    let w := log (EvPutHandle (default 0 handle)) w in
    let pMessage := SetReplyInformation (default 0 handle) pMessage in
    let w := log (EvCompleteIo (CompleteIo env)) w in
    if SUCCEEDED (CompleteIo env) then
      (* handle.release(): the driver owns the object from here on *)
      let w := release_unique handle w in
      let w := UnlockConsole w in
      (ReplyDone, pMessage, w)
    else
      let w := UnlockConsole w in
      (* the unique_ptr goes out of scope still owning the object *)
      let w := destroy_unique handle w in
      (ReplyDone, pMessage, w).

(** ** ConsoleCloseObject (source lines 123-132) *)

(** [delete pMessage->GetObjectHandle()] is handed the address as the
    client gave it; when that [delete] is undefined the routine gets no
    further. *)
Definition ConsoleCloseObject (pMessage : CONSOLE_API_MSG) (w : World)
    : Completion * CONSOLE_API_MSG * World :=
  let w := LockConsole w in
  match delete_pointer (objectHandle pMessage) w with
  | None => (Undefined, pMessage, w)
  | Some w =>
      let pMessage := SetReplyStatus STATUS_SUCCESS pMessage in
      let w := UnlockConsole w in
      (ReplyInline, pMessage, w)
  end.

(** ** The handoff decision (source lines 136-270) *)

Definition _isInteractiveUserSession (os : SessionProbe) : bool :=
  if ProcessIdToSessionId os && (sessionId os =? 0) then false
  else if negb (GetProcessWindowStation os =? 0) then
    if GetUserObjectInformationW os then WI_IsFlagSet (dwFlags os) WSF_VISIBLE
    else true
  else true.

(** The conditions of [_shouldAttemptHandoff], in the order the source
    tests them. *)
Inductive HandoffCheck :=
| ChkInteractiveSession
| ChkForceNoHandoff
| ChkCreateServerHandle
| ChkConsoleInitialized
| ChkConsoleApp
| ChkHeadless
| ChkHandoffClsid
| ChkHandoffTarget
| ChkDeservesVisibleWindow
| ChkShowWindow.

(** One [if (blocked) return false;] followed by the rest of the body.  The
    first component lists the conditions that were evaluated. *)
Definition guard (c : HandoffCheck) (blocked : bool)
    (rest : list HandoffCheck * bool) : list HandoffCheck * bool :=
  if blocked then ([c], false) else (c :: rest.1, rest.2).

(** The [switch] on [GetShowWindow()]: the hide and minimize actions. *)
Definition hides_or_minimizes (sw : Z) : bool :=
  (sw =? SW_HIDE) || (sw =? SW_SHOWMINIMIZED) || (sw =? SW_MINIMIZE)
  || (sw =? SW_SHOWMINNOACTIVE) || (sw =? SW_FORCEMINIMIZE).

(** [_shouldAttemptHandoff(globals, gci, cac)].  Of [gci] only [Flags] is
    read.  The answer is the second component. *)
Definition _shouldAttemptHandoff (env : Env) (g : Globals) (gciFlags : Z)
    (cac : CONSOLE_API_CONNECTINFO) : list HandoffCheck * bool :=
  if negb (TIL_FEATURE_ATTEMPTHANDOFF_ENABLED env) then ([], false)
  else
    guard ChkInteractiveSession (negb (_isInteractiveUserSession (probe env))) (
    guard ChkForceNoHandoff (GetForceNoHandoff (launchArgs g)) (
    guard ChkCreateServerHandle (ShouldCreateServerHandle (launchArgs g)) (
    guard ChkConsoleInitialized (WI_IsFlagSet gciFlags CONSOLE_INITIALIZED) (
    guard ChkConsoleApp (negb (ConsoleApp cac)) (
    guard ChkHeadless (IsHeadless (launchArgs g)) (
    guard ChkHandoffClsid (negb (bool_decide (is_Some (handoffConsoleClsid g)))) (
    guard ChkHandoffTarget (handoffTarget g) (
    guard ChkDeservesVisibleWindow (negb (ConsoleConnectionDeservesVisibleWindow env)) (
    guard ChkShowWindow
      (WI_IsFlagSet (StartupFlags cac) STARTF_USESHOWWINDOW
       && hides_or_minimizes (ShowWindow cac))
      ([], true)))))))))).

(** ** The handoff attempt (source lines 319-410) *)

(** The scoped owners declared inside the [try] block, each either holding
    its resource or empty. *)
Record HandoffLocals := mkLocals {
  coinit : bool;
  handoff : bool;
  signalPipeTheirSide : bool;
  signalPipeOurSide : bool;
  ourProcess : bool;
  clientProcess : bool;
  hostSignalThread : bool
}.

(** [owner.reset()] and the owner's destructor: release if held. *)
Definition release_if (held : bool) (r : Resource) (w : World) : World :=
  if held then log (EvRelease r) w else w.

(** Stack unwinding: the destructors run in reverse order of declaration.
    The signal thread object owns the pipe end that was moved into it. *)
Definition unwind (l : HandoffLocals) (w : World) : World :=
  let w := release_if (hostSignalThread l) ResSignalPipeOurSide w in
  let w := release_if (clientProcess l) ResClientProcess w in
  let w := release_if (ourProcess l) ResOurProcess w in
  let w := release_if (signalPipeOurSide l) ResSignalPipeOurSide w in
  let w := release_if (signalPipeTheirSide l) ResSignalPipeTheirSide w in
  let w := release_if (handoff l) ResHandoffInterface w in
  release_if (coinit l) ResComInit w.

(** The [catch (...)] block: trace the failure and log it. *)
Definition caught (l : HandoffLocals) (w : World) : World :=
  log EvLogCaughtException (log EvTraceHandoffFailed (unwind l w)).

(** [Globals.hInputEvent.reset()]. *)
Definition reset_hInputEvent (w : World) : World :=
  let g := globals w in
  let w := release_if (bool_decide (is_Some (hInputEvent g))) ResInputEvent w in
  with_globals
    (mkGlobals (launchArgs g) (handoffConsoleClsid g) (handoffTarget g) None) w.

Definition portableAttachMsg (d : CD_IO_DESCRIPTOR) : CONSOLE_PORTABLE_ATTACH_MSG :=
  mkPortable (IdentifierHighPart d) (IdentifierLowPart d) (Process d)
    (Object d) (Function d) (InputSize d) (OutputSize d).

(** How the [try] block ends: an exception was caught and control falls
    through to the local bring-up, or the process exited. *)
Inductive HandoffResult :=
| HandoffFellThrough (w : World)
| HandoffExited (w : World).

Definition attemptHandoff (env : Env) (pReceiveMsg : CONSOLE_API_MSG)
    (w : World) : HandoffResult :=
  let l := mkLocals false false false false false false false in
  (* auto coinit = wil::CoInitializeEx(COINIT_MULTITHREADED); *)
  if FAILED (CoInitializeEx env) then HandoffFellThrough (caught l w) else
  let w := log (EvAcquire ResComInit) w in
  let l := mkLocals true false false false false false false in
  (* THROW_IF_FAILED(CoCreateInstance(...)); *)
  if FAILED (CoCreateInstance env) then HandoffFellThrough (caught l w) else
  let w := log (EvAcquire ResHandoffInterface) w in
  let l := mkLocals true true false false false false false in
  let msg := portableAttachMsg (Descriptor pReceiveMsg) in
  (* THROW_IF_FAILED(Globals.pDeviceComm->GetServerHandle(&serverHandle)); *)
  if FAILED (GetServerHandle env) then HandoffFellThrough (caught l w) else
  (* THROW_IF_WIN32_BOOL_FALSE(CreatePipe(...)); *)
  if negb (CreatePipe env) then HandoffFellThrough (caught l w) else
  let w := log (EvAcquire ResSignalPipeOurSide) w in
  let w := log (EvAcquire ResSignalPipeTheirSide) w in
  let l := mkLocals true true true true false false false in
  (* THROW_IF_WIN32_BOOL_FALSE(DuplicateHandle(...)); *)
  if negb (DuplicateHandle env) then HandoffFellThrough (caught l w) else
  let w := log (EvAcquire ResOurProcess) w in
  let l := mkLocals true true true true true false false in
  (* THROW_IF_FAILED(handoff->EstablishHandoff(...)); *)
  let w := log (EvEstablishHandoff msg (EstablishHandoff env)) w in
  if FAILED (EstablishHandoff env) then HandoffFellThrough (caught l w) else
  let w := log (EvAcquire ResClientProcess) w in
  (* signalPipeTheirSide.reset(); ourProcess.reset(); Globals.hInputEvent.reset(); *)
  let w := release_if true ResSignalPipeTheirSide w in
  let w := release_if true ResOurProcess w in
  let w := reset_hInputEvent w in
  (* std::make_unique<HostSignalInputThread>(std::move(signalPipeOurSide)) *)
  let l := mkLocals true true false false false true true in
  (* THROW_IF_FAILED(hostSignalThread->Start()); *)
  let w := log (EvHostSignalThreadStart (HostSignalThreadStart env)) w in
  if FAILED (HostSignalThreadStart env) then HandoffFellThrough (caught l w) else
  let w := log EvTraceHandoffSucceeded w in
  let w := UnlockConsole w in
  let w := log EvWaitForSingleObject w in
  let w := log EvExitProcess w in
  HandoffExited w.

(** ** ConsoleHandleConnectionRequest (source lines 279-505) *)

(** The [wil::scope_exit] lambda of lines 290-303. *)
Definition cleanup (Status : Z) (ProcessData : option Z)
    (pReceiveMsg : CONSOLE_API_MSG) (w : World) : CONSOLE_API_MSG * World :=
  let '(pReceiveMsg, w) :=
    if negb (NT_SUCCESS Status) then
      let pReceiveMsg := SetReplyStatus Status pReceiveMsg in
      match ProcessData with
      | Some p => (pReceiveMsg, FreeProcessData p (s_Free p w))
      | None => (pReceiveMsg, w)
      end
    else (pReceiveMsg, w) in
  (pReceiveMsg, UnlockConsole w).

(** [return pReceiveMsg;] and [return nullptr;] with the scope guard
    running on the way out. *)
Definition leave (c : Completion) (Status : Z) (ProcessData : option Z)
    (pReceiveMsg : CONSOLE_API_MSG) (w : World)
    : Completion * CONSOLE_API_MSG * World :=
  let '(pReceiveMsg, w) := cleanup Status ProcessData pReceiveMsg w in
  (c, pReceiveMsg, w).

(** Lines 487-504: the reply is published and handed to the driver; a
    failed delivery frees the history slot and the process record. *)
Definition completeConnection (env : Env) (p : Z) (Status : Z)
    (pReceiveMsg : CONSOLE_API_MSG) (w : World)
    : Completion * CONSOLE_API_MSG * World :=
  let pReceiveMsg := SetReplyStatus STATUS_SUCCESS pReceiveMsg in
  let pReceiveMsg := SetReplyInformation sizeof_CD_CONNECTION_INFORMATION pReceiveMsg in
  let pReceiveMsg := SetCompleteWriteSize sizeof_CD_CONNECTION_INFORMATION pReceiveMsg in
  let w := log (EvCompleteIo (CompleteIo env)) w in
  let w := if FAILED (CompleteIo env) then FreeProcessData p (s_Free p w) else w in
  let w := log (EvTraceAttachDetach p true) w in
  leave ReplyDone Status (Some p) pReceiveMsg w.

(** Lines 464-485: the primary input and output handles. *)
Definition createHandles (env : Env) (p : Z)
    (pReceiveMsg : CONSOLE_API_MSG) (w : World)
    : Completion * CONSOLE_API_MSG * World :=
  let Status := AllocateInputStatus env in
  let '(h, w) :=
    AllocateIoHandle Input (Z.lor GENERIC_READ GENERIC_WRITE)
      (Z.lor FILE_SHARE_READ FILE_SHARE_WRITE) Status w in
  let w := update_process p (set_pInputHandle h) w in
  if negb (NT_SUCCESS Status) then leave ReplyInline Status (Some p) pReceiveMsg w else
  let Status := AllocateOutputStatus env in
  let '(h, w) :=
    AllocateIoHandle Output (Z.lor GENERIC_READ GENERIC_WRITE)
      (Z.lor FILE_SHARE_READ FILE_SHARE_WRITE) Status w in
  let w := update_process p (set_pOutputHandle h) w in
  if negb (NT_SUCCESS Status) then leave ReplyInline Status (Some p) pReceiveMsg w else
  completeConnection env p Status pReceiveMsg w.

(** Lines 449-462: the command-history slot and the focus of the process
    set.  [Status] is what the preceding lines left in the variable. *)
Definition associateHistory (env : Env) (Cac : CONSOLE_API_CONNECTINFO)
    (p : Z) (Status : Z) (pReceiveMsg : CONSOLE_API_MSG) (w : World)
    : Completion * CONSOLE_API_MSG * World :=
  match s_Allocate env with
  | HistoryThrows =>
      let w := log (EvHistoryAllocate p) w in
      let w := log EvLogCaughtException w in
      leave ReplyInline Status (Some p) pReceiveMsg w
  | outcome =>
      let w := HistoryAllocate
                 (take (Z.to_nat (AppNameLength Cac / sizeof_wchar_t)) (AppName Cac))
                 p (match outcome with HistorySlot => true | _ => false end) w in
      let grantFG := vtIoMode w || WI_IsFlagSet (Flags w) CONSOLE_HAS_FOCUS in
      let w := log (EvModifyConsoleProcessFocus grantFG) w in
      createHandles env p pReceiveMsg w
  end.

(** Lines 438-447: the session initializer runs only while the
    initialized flag is clear. *)
Definition initializeSession (env : Env) (Cac : CONSOLE_API_CONNECTINFO)
    (p : Z) (Status : Z) (pReceiveMsg : CONSOLE_API_MSG) (w : World)
    : Completion * CONSOLE_API_MSG * World :=
  if WI_IsFlagClear (Flags w) CONSOLE_INITIALIZED then
    let Status := ConsoleAllocateConsole env in
    let w := log (EvConsoleAllocateConsole Status) w in
    if negb (NT_SUCCESS Status) then leave ReplyInline Status (Some p) pReceiveMsg w
    else
      let w := log EvSetInitialized
                 (with_Flags (WI_SetFlag (Flags w) CONSOLE_INITIALIZED) w) in
      associateHistory env Cac p Status pReceiveMsg w
  else associateHistory env Cac p Status pReceiveMsg w.

(** Lines 413-436: the process record, its root flag and the start
    notifications.  Lines 413-504 as a whole are the local bring-up,
    entered when handoff was not attempted or its attempt failed. *)
Definition localBringUp (env : Env) (Cac : CONSOLE_API_CONNECTINFO)
    (dwProcessId dwThreadId : Z) (pReceiveMsg : CONSOLE_API_MSG) (w : World)
    : Completion * CONSOLE_API_MSG * World :=
  let Status := AllocProcessDataStatus env in
  let '(ProcessData, w) :=
    AllocProcessData dwProcessId dwThreadId (ProcessGroupId Cac) Status w in
  match ProcessData with
  | None => leave ReplyInline Status None pReceiveMsg w
  | Some p =>
      let w := update_process p
                 (set_fRootProcess (WI_IsFlagClear (Flags w) CONSOLE_INITIALIZED)) w in
      let w := if ConsoleApp Cac then log (EvNotifyConsoleApplication dwProcessId) w
               else w in
      let w := if LocateAccessibilityNotifier env
               then log (EvNotifyConsoleStartApplication dwProcessId) w else w in
      initializeSession env Cac p Status pReceiveMsg w
  end.

Definition ConsoleHandleConnectionRequest (env : Env)
    (pReceiveMsg : CONSOLE_API_MSG) (w : World)
    : Completion * CONSOLE_API_MSG * World :=
  let w := log (EvLogApiCall AttachConsole) w in
  let w := LockConsole w in
  let dwProcessId := to_DWORD (Process (Descriptor pReceiveMsg)) in
  let dwThreadId := to_DWORD (Object (Descriptor pReceiveMsg)) in
  let '(Status, Cac) := ConsoleInitializeConnectInfo env in
  let w := log (EvInitializeConnectInfo Status) w in
  if negb (NT_SUCCESS Status) then leave ReplyInline Status None pReceiveMsg w else
  let decision := (_shouldAttemptHandoff env (globals w) (Flags w) Cac).2 in
  let w := log (EvShouldAttemptHandoff decision) w in
  match (if decision then attemptHandoff env pReceiveMsg w
         else HandoffFellThrough w) with
  | HandoffExited w => (ProcessExited, pReceiveMsg, w)
  | HandoffFellThrough w =>
      localBringUp env Cac dwProcessId dwThreadId pReceiveMsg w
  end.

(** ** ConsoleClientDisconnectRoutine (source lines 513-532) *)

(** The routine reads [pProcessData->dwProcessId] without a check when a
    notifier is located: for an address that names no record that read is
    undefined behaviour.  Without a notifier the routine itself never
    reads through the pointer; it passes it on.  The result of
    [RemoveConsole] is logged when it is a failure and not looked at
    otherwise. *)
Definition ConsoleClientDisconnectRoutine (env : Env)
    (pMessage : CONSOLE_API_MSG) (w : World)
    : Completion * CONSOLE_API_MSG * World :=
  let w := log (EvLogApiCall FreeConsole) w in
  let pProcessData := processHandle pMessage in
  match (if LocateAccessibilityNotifier env then
           match ProcessHandleList w !! pProcessData with
           | Some r => Some (log (EvNotifyConsoleEndApplication (dwProcessId r)) w)
           | None => None
           end
         else Some w) with
  | None => (Undefined, pMessage, w)
  | Some w =>
      let w := log (EvTraceAttachDetach pProcessData false) w in
      let hr := RemoveConsoleResult env in
      let w := LOG_IF_FAILED hr (RemoveConsole pProcessData hr w) in
      let pMessage := SetReplyStatus STATUS_SUCCESS pMessage in
      (ReplyInline, pMessage, w)
  end.

(** ** The request router and runs of requests *)

Inductive Request :=
| CreateObjectRequest
| CloseObjectRequest
| ConnectionRequest
| ClientDisconnect.

Definition dispatch (r : Request) (env : Env) (m : CONSOLE_API_MSG) (w : World)
    : Completion * CONSOLE_API_MSG * World :=
  match r with
  | CreateObjectRequest => ConsoleCreateObject env m w
  | CloseObjectRequest => ConsoleCloseObject m w
  | ConnectionRequest => ConsoleHandleConnectionRequest env m w
  | ClientDisconnect => ConsoleClientDisconnectRoutine env m w
  end.

(** The world after serving the requests in order; nothing is served once
    the process has exited or has run into undefined behaviour. *)
Fixpoint serve (reqs : list (Request * Env * CONSOLE_API_MSG)) (w : World) : World :=
  match reqs with
  | [] => w
  | (r, env, m) :: rest =>
      match dispatch r env m w with
      | (ReplyInline, _, w') | (ReplyDone, _, w') => serve rest w'
      | (_, _, w') => w'
      end
  end.

Definition initialized (w : World) : bool :=
  WI_IsFlagSet (Flags w) CONSOLE_INITIALIZED.

(** How many requests of a run found the session not initialized and left
    it initialized. *)
Fixpoint initializations (reqs : list (Request * Env * CONSOLE_API_MSG))
    (w : World) : nat :=
  match reqs with
  | [] => 0%nat
  | (r, env, m) :: rest =>
      match dispatch r env m w with
      | (c, _, w') =>
          ((if negb (initialized w) && initialized w' then 1 else 0)
           + match c with
             | ReplyInline | ReplyDone => initializations rest w'
             | _ => 0
             end)%nat
      end
  end.

(** ** Observations on traces *)

(** The events a routine added on the way from [w] to [w']. *)
Definition events_since (w w' : World) : list Event :=
  drop (length (trace w)) (trace w').

(** Events that read or write state shared between requests: the console
    information block, the process list, the history slots, the handle
    objects and the members of [Globals].  Telemetry, tracing, the
    notifications, the reply fields of the message and the driver calls
    are not among them. *)
Definition touches_shared_state (e : Event) : bool :=
  match e with
  | EvShouldAttemptHandoff _ | EvAcquire _ | EvRelease _
  | EvEstablishHandoff _ _ | EvHostSignalThreadStart _
  | EvAllocProcessData _ | EvFreeProcessData _
  | EvConsoleAllocateConsole _ | EvSetInitialized
  | EvHistoryAllocate _ | EvHistoryFree _
  | EvModifyConsoleProcessFocus _
  | EvAllocateIoHandle _ _ _ _ | EvCreateScreenBuffer _
  | EvDeleteHandle _ | EvRemoveConsole _ _ | EvCloseSession => true
  | _ => false
  end.

Definition is_lock (e : Event) : bool :=
  match e with EvLockConsole => true | _ => false end.

Definition is_unlock (e : Event) : bool :=
  match e with EvUnlockConsole => true | _ => false end.

(** Events other than taking and releasing the lock. *)
Definition lock_free (e : Event) : bool := negb (is_lock e || is_unlock e).

(** Every event that touches shared state happens while the lock is held.
    [held] counts the acquisitions of the routine so far. *)
Fixpoint under_lock (held : Z) (evs : list Event) : bool :=
  match evs with
  | [] => true
  | e :: rest =>
      (negb (touches_shared_state e) || (0 <? held))
      && under_lock (if is_lock e then held + 1
                     else if is_unlock e then held - 1 else held) rest
  end.


(** The resources released, in order, with repetitions. *)
Definition released (evs : list Event) : list Resource :=
  omap (λ e, match e with EvRelease r => Some r | _ => None end) evs.

Definition acquired (evs : list Event) : list Resource :=
  omap (λ e, match e with EvAcquire r => Some r | _ => None end) evs.

(** The session initializer's runs in a trace. *)
Definition initializer_runs (evs : list Event) : list Z :=
  omap (λ e, match e with EvConsoleAllocateConsole s => Some s | _ => None end) evs.

(** The evaluations of the handoff predicate in a trace. *)
Definition handoff_decisions (evs : list Event) : list bool :=
  omap (λ e, match e with EvShouldAttemptHandoff b => Some b | _ => None end) evs.

(** The world without its log: what later requests can observe. *)
Definition state_of (w : World) : World :=
  mkWorld (globals w) (Flags w) (vtIoMode w) (ProcessHandleList w)
    (CommandHistories w) (HandleHeap w) (lockDepth w) [].

(** The steps of the handoff attempt that the handler can fail before it
    has confirmed the transfer. *)
Inductive HandoffStep :=
| StepCoInitialize
| StepActivation
| StepServerHandle
| StepCreatePipe
| StepDuplicateHandle
| StepEstablishHandoff.

(** The attempt fails at step [s]: every earlier step succeeded. *)
Definition fails_at (s : HandoffStep) (env : Env) : Prop :=
  match s with
  | StepCoInitialize => FAILED (CoInitializeEx env) = true
  | StepActivation =>
      FAILED (CoInitializeEx env) = false ∧ FAILED (CoCreateInstance env) = true
  | StepServerHandle =>
      FAILED (CoInitializeEx env) = false ∧ FAILED (CoCreateInstance env) = false
      ∧ FAILED (GetServerHandle env) = true
  | StepCreatePipe =>
      FAILED (CoInitializeEx env) = false ∧ FAILED (CoCreateInstance env) = false
      ∧ FAILED (GetServerHandle env) = false ∧ CreatePipe env = false
  | StepDuplicateHandle =>
      FAILED (CoInitializeEx env) = false ∧ FAILED (CoCreateInstance env) = false
      ∧ FAILED (GetServerHandle env) = false ∧ CreatePipe env = true
      ∧ DuplicateHandle env = false
  | StepEstablishHandoff =>
      FAILED (CoInitializeEx env) = false ∧ FAILED (CoCreateInstance env) = false
      ∧ FAILED (GetServerHandle env) = false ∧ CreatePipe env = true
      ∧ DuplicateHandle env = true ∧ FAILED (EstablishHandoff env) = true
  end.

(** The attempt fails after the handler accepted: every step up to and
    including [EstablishHandoff] succeeded and the relay thread did not
    start. *)
Definition fails_after_transfer (env : Env) : Prop :=
  FAILED (CoInitializeEx env) = false ∧ FAILED (CoCreateInstance env) = false
  ∧ FAILED (GetServerHandle env) = false ∧ CreatePipe env = true
  ∧ DuplicateHandle env = true ∧ FAILED (EstablishHandoff env) = false
  ∧ FAILED (HostSignalThreadStart env) = true.

(** The blocking conditions of the handoff decision, one by one. *)
Definition blocking (c : HandoffCheck) (env : Env) (g : Globals) (gciFlags : Z)
    (cac : CONSOLE_API_CONNECTINFO) : bool :=
  match c with
  | ChkInteractiveSession => negb (_isInteractiveUserSession (probe env))
  | ChkForceNoHandoff => GetForceNoHandoff (launchArgs g)
  | ChkCreateServerHandle => ShouldCreateServerHandle (launchArgs g)
  | ChkConsoleInitialized => WI_IsFlagSet gciFlags CONSOLE_INITIALIZED
  | ChkConsoleApp => negb (ConsoleApp cac)
  | ChkHeadless => IsHeadless (launchArgs g)
  | ChkHandoffClsid => negb (bool_decide (is_Some (handoffConsoleClsid g)))
  | ChkHandoffTarget => handoffTarget g
  | ChkDeservesVisibleWindow => negb (ConsoleConnectionDeservesVisibleWindow env)
  | ChkShowWindow =>
      WI_IsFlagSet (StartupFlags cac) STARTF_USESHOWWINDOW
      && hides_or_minimizes (ShowWindow cac)
  end.

(** The order in which the source tests the conditions. *)
Definition check_order : list HandoffCheck :=
  [ChkInteractiveSession; ChkForceNoHandoff; ChkCreateServerHandle;
   ChkConsoleInitialized; ChkConsoleApp; ChkHeadless; ChkHandoffClsid;
   ChkHandoffTarget; ChkDeservesVisibleWindow; ChkShowWindow].

(** ** Concrete inputs used to exercise the statements *)

Definition E_FAIL : Z := to_NTSTATUS 0x80004005.

(** An interactive session on a visible window station. *)
Definition interactiveProbe : SessionProbe := mkProbe true 1 0x40 true WSF_VISIBLE.

(** "cmd.exe" in UTF-16 code units. *)
Definition cmd_exe : list Z := [99; 109; 100; 46; 101; 120; 101].

Definition cmdCac : CONSOLE_API_CONNECTINFO := mkCac true 100 cmd_exe 14 0 0.

(** An environment in which every collaborator succeeds, but for the four
    answers given as arguments. *)
Definition exampleEnv (feature : bool) (establish start : Z)
    (history : HistoryOutcome) (completeIo : Z) : Env :=
  mkEnv feature interactiveProbe (STATUS_SUCCESS, cmdCac) true
    S_OK S_OK S_OK true true establish start
    STATUS_SUCCESS true STATUS_SUCCESS history STATUS_SUCCESS STATUS_SUCCESS
    STATUS_SUCCESS completeIo S_OK.

(** Handoff compiled out, everything else succeeds. *)
Definition localEnv : Env := exampleEnv false S_OK S_OK HistorySlot S_OK.

(** A connection request from process 100, thread 7. *)
Definition connectMsg : CONSOLE_API_MSG :=
  mkMsg (mkDescriptor 0 1 100 7 0 0 0) (mkCreate 0 0 0) 0 0 0 0 0.

(** A session that no client has connected to yet, with a registered
    handoff target. *)
Definition freshWorld : World :=
  mkWorld (mkGlobals (mkArgs false false false) (Some 0x2EACA947) false (Some 0x1A4))
    0 false ∅ ∅ ∅ 0 [].

(** A generic create request with the given access bits. *)
Definition genericCreate (access : Z) : CONSOLE_API_MSG :=
  mkMsg (mkDescriptor 0 2 100 0 0 0 0)
    (mkCreate CD_IO_OBJECT_TYPE_GENERIC (Z.lor FILE_SHARE_READ FILE_SHARE_WRITE) access)
    0 0 0 0 0.

(** A close request naming the handle at address [h]. *)
Definition closeMsg (h : Z) : CONSOLE_API_MSG :=
  mkMsg (mkDescriptor 0 3 100 0 0 0 0) (mkCreate 0 0 0) h 0 0 0 0.

(** A disconnect request for the process record at address [p]. *)
Definition disconnectMsg (p : Z) : CONSOLE_API_MSG :=
  mkMsg (mkDescriptor 0 4 100 0 0 0 0) (mkCreate 0 0 0) 0 p 0 0 0.

(** ** Vocabulary for reasoning about the routines *)

(** [w'] is [w] with more events logged, all of them in the alphabet [A]. *)
Definition extends_by (A : Event → bool) (w w' : World) : Prop :=
  ∃ evs, trace w' = trace w ++ evs ∧ forallb A evs = true.

(** A step that logs events of [A], moves the lock depth by [d] and leaves
    [Globals] and [gci.Flags] alone. *)
Definition quiet (A : Event → bool) (d : Z) (w w' : World) : Prop :=
  extends_by A w w' ∧ lockDepth w' = lockDepth w + d
  ∧ globals w' = globals w ∧ Flags w' = Flags w.

(** What one request does to the session: the initializer does not run
    and [gci.Flags] stays as it was, or the session was not initialized,
    the initializer runs once, and the initialized bit is set exactly when
    it succeeds. *)
Definition session_step (env : Env) (w w' : World) (evs : list Event) : Prop :=
  (initializer_runs evs = [] ∧ Flags w' = Flags w)
  ∨ (initialized w = false
     ∧ initializer_runs evs = [ConsoleAllocateConsole env]
     ∧ Flags w' = if NT_SUCCESS (ConsoleAllocateConsole env)
                  then WI_SetFlag (Flags w) CONSOLE_INITIALIZED
                  else Flags w).

(** The events the handoff attempt can log. *)
Definition handoff_alphabet (e : Event) : bool :=
  match e with
  | EvAcquire _ | EvRelease _ | EvEstablishHandoff _ _
  | EvHostSignalThreadStart _ | EvTraceHandoffSucceeded | EvTraceHandoffFailed
  | EvLogCaughtException | EvUnlockConsole | EvWaitForSingleObject
  | EvExitProcess => true
  | _ => false
  end.

(** The events the local bring-up can log; the session initializer's only
    when the session was not initialized on entry. *)
Definition bringup_alphabet (init : bool) (e : Event) : bool :=
  match e with
  | EvAllocProcessData _ | EvFreeProcessData _ | EvNotifyConsoleApplication _
  | EvNotifyConsoleStartApplication _ | EvHistoryAllocate _ | EvHistoryFree _
  | EvLogCaughtException | EvModifyConsoleProcessFocus _
  | EvAllocateIoHandle _ _ _ _ | EvDeleteHandle _ | EvCompleteIo _
  | EvTraceAttachDetach _ _ | EvUnlockConsole => true
  | EvConsoleAllocateConsole _ | EvSetInitialized => negb init
  | _ => false
  end.

(** The events a connection request can log after the decision: those of
    the bring-up, and those of the handoff attempt when it was decided. *)
Definition connection_alphabet (decision init : bool) (e : Event) : bool :=
  (decision && handoff_alphabet e) || bringup_alphabet init e.

(** The events the object routines and the disconnect routine can log
    after their first one. *)
Definition object_alphabet (e : Event) : bool :=
  match e with
  | EvAllocateIoHandle _ _ _ _ | EvCreateScreenBuffer _ | EvPutHandle _
  | EvCompleteIo _ | EvDeleteHandle _ | EvUnlockConsole
  | EvNotifyConsoleEndApplication _ | EvTraceAttachDetach _ _
  | EvLockConsole | EvRemoveConsole _ _ | EvCloseSession | EvLogFailure _ => true
  | _ => false
  end.

(** The conditions evaluated by a chain of early returns: all up to and
    including the first one that blocks. *)
Fixpoint until_first_blocked (blocked : HandoffCheck → bool)
    (cs : list HandoffCheck) : list HandoffCheck :=
  match cs with
  | [] => []
  | c :: rest => if blocked c then [c] else c :: until_first_blocked blocked rest
  end.



Definition is_handle_allocation (e : Event) : bool :=
  match e with EvAllocateIoHandle _ _ _ _ => true | _ => false end.

Definition is_delivery (e : Event) : bool :=
  match e with EvCompleteIo _ => true | _ => false end.

(** The events by which a handoff attempt shows in a trace. *)
Definition is_handoff_event (e : Event) : bool :=
  match e with
  | EvAcquire _ | EvRelease _ | EvEstablishHandoff _ _
  | EvHostSignalThreadStart _ | EvTraceHandoffSucceeded | EvTraceHandoffFailed
  | EvWaitForSingleObject | EvExitProcess => true
  | _ => false
  end.

(** The session after the first client of [connectMsg] has connected
    locally. *)
Definition connectedWorld : World :=
  (ConsoleHandleConnectionRequest localEnv connectMsg freshWorld).2.

(** The address of that client's process record. *)
Definition connectedProcess : Z := new_address (ProcessHandleList freshWorld).

(** The heap after the destructor of a handle pointer has run. *)
Definition heap_without (h : option Z)
    (heap : gmap Z (Owner * ConsoleHandleData)) : gmap Z (Owner * ConsoleHandleData) :=
  match h with
  | Some a => if a =? 0 then heap else delete a heap
  | None => heap
  end.

(** A connection request has completed for the process record at [p]: the
    reply carries success and the record holds a live primary input handle
    and a live primary output handle. *)
Definition completed_with_handles
    (res : Completion * CONSOLE_API_MSG * World) (p : Z) : Prop :=
  ReplyStatus res.1.2 = STATUS_SUCCESS
  ∧ ∃ r hi ho,
      ProcessHandleList res.2 !! p = Some r
      ∧ pInputHandle r = Some hi ∧ pOutputHandle r = Some ho
      ∧ is_Some (HandleHeap res.2 !! hi) ∧ is_Some (HandleHeap res.2 !! ho).

(** Handoff compiled out; the command-history allocation throws. *)
Definition historyThrowsEnv : Env := exampleEnv false S_OK S_OK HistoryThrows S_OK.

(** Handoff compiled out; no command-history slot is free. *)
Definition historyNoSlotEnv : Env := exampleEnv false S_OK S_OK HistoryNoSlot S_OK.

(** Handoff compiled out; the teardown collaborator reports a failure. *)
Definition teardownFailsEnv : Env :=
  mkEnv false interactiveProbe (STATUS_SUCCESS, cmdCac) true
    S_OK S_OK S_OK true true S_OK S_OK
    STATUS_SUCCESS true STATUS_SUCCESS HistorySlot STATUS_SUCCESS
    STATUS_SUCCESS STATUS_SUCCESS S_OK E_FAIL.


(** Handoff compiled out; the driver rejects the completion. *)
Definition deliveryFailsEnv : Env := exampleEnv false S_OK S_OK HistorySlot E_FAIL.

(** Handoff compiled in and accepted by the handler; the relay thread
    then fails to start. *)
Definition relayFailsEnv : Env := exampleEnv true S_OK E_FAIL HistorySlot S_OK.

(** Handoff compiled in; the handler refuses the handoff. *)
Definition handlerRefusesEnv : Env := exampleEnv true E_FAIL S_OK HistorySlot S_OK.

(** The world in which [ConsoleHandleConnectionRequest] evaluates the
    handoff decision for [connectMsg] on the fresh session. *)
Definition decisionWorld : World :=
  log (EvShouldAttemptHandoff true)
    (log (EvInitializeConnectInfo STATUS_SUCCESS)
       (LockConsole (log (EvLogApiCall AttachConsole) freshWorld))).

(** ** Further observations used by the properties below *)

(** [STATUS_SHARING_VIOLATION], the status of an access conflict. *)
Definition STATUS_SHARING_VIOLATION : Z := to_NTSTATUS 0xC0000043.

(** [cac] with another [ShowWindow] value. *)
Definition set_ShowWindow (sw : Z) (cac : CONSOLE_API_CONNECTINFO)
    : CONSOLE_API_CONNECTINFO :=
  mkCac (ConsoleApp cac) (ProcessGroupId cac) (AppName cac) (AppNameLength cac)
    (StartupFlags cac) sw.

(** The calls of [EstablishHandoff] in a trace, with their arguments and
    results. *)
Definition handoff_calls (evs : list Event)
    : list (CONSOLE_PORTABLE_ATTACH_MSG * Z) :=
  omap (λ e, match e with EvEstablishHandoff msg hr => Some (msg, hr) | _ => None end)
    evs.

(** The publications of a handle to the driver. *)
Definition is_put_handle (e : Event) : bool :=
  match e with EvPutHandle _ => true | _ => false end.

(** A create request of the given type, access and share mode. *)
Definition createMsg (t access share : Z) : CONSOLE_API_MSG :=
  mkMsg (mkDescriptor 0 2 100 0 0 0 0) (mkCreate t share access) 0 0 0 0 0.

(** Handoff compiled in; every step of the handoff succeeds. *)
Definition handoffSucceedsEnv : Env := exampleEnv true S_OK S_OK HistorySlot S_OK.

(** Handoff compiled out; the input buffer refuses the handle for a
    sharing violation. *)
Definition sharingViolationEnv : Env :=
  mkEnv false interactiveProbe (STATUS_SUCCESS, cmdCac) true
    S_OK S_OK S_OK true true S_OK S_OK
    STATUS_SUCCESS true STATUS_SUCCESS HistorySlot STATUS_SHARING_VIOLATION
    STATUS_SUCCESS STATUS_SUCCESS S_OK S_OK.

(** Handoff compiled out; [ConsoleInitializeConnectInfo] rejects the
    descriptor. *)
Definition badDescriptorEnv : Env :=
  mkEnv false interactiveProbe (STATUS_INVALID_PARAMETER, cmdCac) true
    S_OK S_OK S_OK true true S_OK S_OK
    STATUS_SUCCESS true STATUS_SUCCESS HistorySlot STATUS_SUCCESS
    STATUS_SUCCESS STATUS_SUCCESS S_OK S_OK.


(** The notifications that a client has started. *)
Definition is_start_notification (e : Event) : bool :=
  match e with
  | EvNotifyConsoleApplication _ | EvNotifyConsoleStartApplication _ => true
  | _ => false
  end.

(** The events of the bring-up once the start notifications are out:
    neither a lock operation nor another notification. *)
Definition after_start (e : Event) : bool :=
  lock_free e && negb (is_start_notification e).

(** [w'] is [w] after events of [A] followed by the one [UnlockConsole]
    that ends the routine. *)
Definition unlocks_last (A : Event → bool) (w w' : World) : Prop :=
  ∃ evs, trace w' = trace w ++ evs ++ [EvUnlockConsole]
         ∧ forallb A evs = true.

(** What a phase of the local bring-up that works on the record at [p]
    leaves behind when it hands the message back for an inline reply: a
    failing reply status, and neither the record, nor a history slot for
    it, nor a handle that was not there when the phase began. *)
Definition rolled_back (p : Z) (w : World)
    (res : Completion * CONSOLE_API_MSG * World) : Prop :=
  res.1.1 = ReplyInline →
  NT_SUCCESS (ReplyStatus res.1.2) = false
  ∧ ProcessHandleList res.2 = delete p (ProcessHandleList w)
  ∧ CommandHistories res.2 = delete p (CommandHistories w)
  ∧ HandleHeap res.2 = HandleHeap w.

(** The world a handoff attempt ends in, however it ends. *)
Definition handoff_world (r : HandoffResult) : World :=
  match r with HandoffFellThrough w | HandoffExited w => w end.

(** Every step of the attempt before the call of the handler succeeds. *)
Definition reaches_handler (env : Env) : bool :=
  negb (FAILED (CoInitializeEx env)) && negb (FAILED (CoCreateInstance env))
  && negb (FAILED (GetServerHandle env)) && CreatePipe env && DuplicateHandle env.

(** The attempt succeeds: the handler is reached and accepts, and the
    relay thread starts. *)
Definition handoff_succeeds (env : Env) : bool :=
  reaches_handler env && negb (FAILED (EstablishHandoff env))
  && negb (FAILED (HostSignalThreadStart env)).

(** [Globals] after [hInputEvent.reset()]. *)
Definition without_input_event (g : Globals) : Globals :=
  mkGlobals (launchArgs g) (handoffConsoleClsid g) (handoffTarget g) None.

(** * Properties of the dispatcher *)

Arguments NT_SUCCESS : simpl never.
Arguments SUCCEEDED : simpl never.
Arguments FAILED : simpl never.
Arguments new_address : simpl never.
(** ** Flag arithmetic *)

Lemma WI_IsFlagClear_negb val flag :
  WI_IsFlagClear val flag = negb (WI_IsFlagSet val flag).
Proof. unfold WI_IsFlagClear, WI_IsFlagSet. by rewrite negb_involutive. Qed.

Lemma WI_SetFlag_IsFlagSet val flag :
  flag ≠ 0 → WI_IsFlagSet (WI_SetFlag val flag) flag = true.
Proof.
  intros Hne. unfold WI_IsFlagSet, WI_SetFlag.
  rewrite Z.land_lor_distr_l, Z.land_diag.
  apply negb_true_iff, Z.eqb_neq. intros H.
  apply Z.lor_eq_0_iff in H. tauto.
Qed.

(** ** Trace extension *)

Lemma extends_by_refl A w : extends_by A w w.
Proof. exists []. by rewrite app_nil_r. Qed.

Lemma extends_by_trans A w1 w2 w3 :
  extends_by A w1 w2 → extends_by A w2 w3 → extends_by A w1 w3.
Proof.
  intros (e1 & H1 & F1) (e2 & H2 & F2). exists (e1 ++ e2).
  rewrite H2, H1, app_assoc, forallb_app, F1, F2. done.
Qed.

Lemma extends_by_mono (A B : Event → bool) w w' :
  (∀ e, A e = true → B e = true) → extends_by A w w' → extends_by B w w'.
Proof.
  intros HAB (evs & H & F). exists evs. split; [done|].
  apply forallb_forall. intros e He.
  apply HAB. eapply forallb_forall in F; eauto.
Qed.

Lemma extends_by_same_trace A w w' :
  trace w' = trace w → extends_by A w w'.
Proof. intros H. exists []. by rewrite app_nil_r. Qed.

Lemma extends_by_log A e w : A e = true → extends_by A w (log e w).
Proof. intros H. exists [e]. simpl. by rewrite H. Qed.

Lemma events_since_app w w' evs :
  trace w' = trace w ++ evs → events_since w w' = evs.
Proof. intros H. unfold events_since. by rewrite H, drop_app_length. Qed.

(** ** Quiet steps *)

Lemma quiet_refl A w : quiet A 0 w w.
Proof. split; [apply extends_by_refl|]. repeat split; lia. Qed.

Lemma quiet_trans A d1 d2 w1 w2 w3 :
  quiet A d1 w1 w2 → quiet A d2 w2 w3 → quiet A (d1 + d2) w1 w3.
Proof.
  intros (E1 & L1 & G1 & F1) (E2 & L2 & G2 & F2).
  split; [eapply extends_by_trans; eauto|].
  repeat split; [lia | congruence | congruence].
Qed.

Lemma quiet_log A e w : A e = true → quiet A 0 w (log e w).
Proof.
  intros H. split; [by apply extends_by_log|]. simpl. repeat split; lia.
Qed.

Lemma quiet_silent A w w' :
  trace w' = trace w → lockDepth w' = lockDepth w → globals w' = globals w →
  Flags w' = Flags w → quiet A 0 w w'.
Proof.
  intros Ht Hl Hg Hf. split; [by apply extends_by_same_trace|].
  repeat split; [lia | done | done].
Qed.

Lemma quiet_then A d w w1 w2 :
  quiet A 0 w w1 → quiet A d w1 w2 → quiet A d w w2.
Proof. intros H1 H2. replace d with (0 + d) by lia. eapply quiet_trans; eauto. Qed.

Lemma quiet_UnlockConsole A w :
  A EvUnlockConsole = true → quiet A (-1) w (UnlockConsole w).
Proof.
  intros H. split.
  - exists [EvUnlockConsole]. simpl. by rewrite H.
  - simpl. repeat split; lia.
Qed.

Lemma quiet_delete_handle A h w :
  (∀ a, A (EvDeleteHandle a) = true) → quiet A 0 w (delete_handle h w).
Proof.
  intros H. unfold delete_handle. destruct (h =? 0); [apply quiet_refl|].
  eapply quiet_then; [|by apply quiet_log]. by apply quiet_silent.
Qed.

Lemma quiet_destroy_unique A h w :
  (∀ a, A (EvDeleteHandle a) = true) → quiet A 0 w (destroy_unique h w).
Proof. intros H. destruct h; [by apply quiet_delete_handle | apply quiet_refl]. Qed.

Lemma quiet_FreeProcessData A p w :
  (∀ a, A (EvDeleteHandle a) = true) → A (EvFreeProcessData p) = true →
  quiet A 0 w (FreeProcessData p w).
Proof.
  intros Hd Hf. unfold FreeProcessData.
  eapply quiet_then; [by apply (quiet_log A (EvFreeProcessData p))|].
  set (w1 := log _ w). destruct (ProcessHandleList w1 !! p) as [r|]; [|apply quiet_refl].
  eapply quiet_then; [by apply quiet_destroy_unique|].
  eapply quiet_then; [by apply quiet_destroy_unique|].
  by apply quiet_silent.
Qed.

Lemma quiet_s_Free A p w :
  A (EvHistoryFree p) = true → quiet A 0 w (s_Free p w).
Proof.
  intros H. unfold s_Free.
  eapply quiet_then; [by apply (quiet_log A (EvHistoryFree p))|]. by apply quiet_silent.
Qed.

Lemma quiet_HistoryAllocate A name p slot w :
  A (EvHistoryAllocate p) = true → quiet A 0 w (HistoryAllocate name p slot w).
Proof.
  intros H. unfold HistoryAllocate.
  eapply quiet_then; [by apply (quiet_log A (EvHistoryAllocate p))|].
  destruct slot; [by apply quiet_silent | apply quiet_refl].
Qed.

Lemma quiet_AllocateIoHandle A t access share Status w :
  A (EvAllocateIoHandle t access share Status) = true →
  quiet A 0 w (AllocateIoHandle t access share Status w).2.
Proof.
  intros H. unfold AllocateIoHandle.
  destruct (NT_SUCCESS Status); simpl; [|by apply quiet_log].
  eapply quiet_then; [by apply (quiet_log A (EvAllocateIoHandle t access share Status))|].
  by apply quiet_silent.
Qed.

Lemma quiet_CreateScreenBuffer A access share Status w :
  A (EvCreateScreenBuffer Status) = true →
  quiet A 0 w (CreateScreenBuffer access share Status w).2.
Proof.
  intros H. unfold CreateScreenBuffer.
  destruct (NT_SUCCESS Status); simpl; [|by apply quiet_log].
  eapply quiet_then; [by apply (quiet_log A (EvCreateScreenBuffer Status))|].
  by apply quiet_silent.
Qed.

Lemma quiet_AllocProcessData A pid tid gid Status w :
  A (EvAllocProcessData Status) = true →
  quiet A 0 w (AllocProcessData pid tid gid Status w).2.
Proof.
  intros H. unfold AllocProcessData.
  destruct (NT_SUCCESS Status); simpl; [|by apply quiet_log].
  eapply quiet_then; [by apply (quiet_log A (EvAllocProcessData Status))|].
  by apply quiet_silent.
Qed.

Lemma quiet_update_process A p f w : quiet A 0 w (update_process p f w).
Proof. by apply quiet_silent. Qed.

(** ** The scope guard of the connection routine *)

Lemma quiet_leave A c Status ProcessData m w :
  (∀ a, A (EvDeleteHandle a) = true) → (∀ p, A (EvFreeProcessData p) = true) →
  (∀ p, A (EvHistoryFree p) = true) → A EvUnlockConsole = true →
  quiet A (-1) w (leave c Status ProcessData m w).2.
Proof.
  intros Hd Hf Hh Hu. unfold leave, cleanup.
  destruct (negb (NT_SUCCESS Status)); [destruct ProcessData as [p|]|]; simpl;
    try by apply quiet_UnlockConsole.
  eapply quiet_then; [|by apply quiet_UnlockConsole].
  eapply quiet_then; [by apply quiet_s_Free | by apply quiet_FreeProcessData].
Qed.

(** ** The local bring-up, phase by phase *)

Ltac alphabet := try (intros; reflexivity); try done.

Lemma quiet_completeConnection env p Status m w :
  quiet (bringup_alphabet true) (-1) w (completeConnection env p Status m w).2.
Proof.
  unfold completeConnection.
  eapply quiet_then; [|apply quiet_leave; alphabet].
  eapply quiet_then; [|apply quiet_log; alphabet].
  eapply quiet_then; [apply (quiet_log _ (EvCompleteIo (CompleteIo env))); alphabet|].
  destruct (FAILED (CompleteIo env)); [|apply quiet_refl].
  eapply quiet_then; [apply quiet_s_Free | apply quiet_FreeProcessData]; alphabet.
Qed.

Lemma quiet_createHandles env p m w :
  quiet (bringup_alphabet true) (-1) w (createHandles env p m w).2.
Proof.
  unfold createHandles.
  pose proof (quiet_AllocateIoHandle (bringup_alphabet true) Input
    (Z.lor GENERIC_READ GENERIC_WRITE) (Z.lor FILE_SHARE_READ FILE_SHARE_WRITE)
    (AllocateInputStatus env) w eq_refl) as H1.
  destruct (AllocateIoHandle Input _ _ _ w) as [h1 w1]. simpl in H1.
  eapply quiet_then; [exact H1|].
  eapply quiet_then; [apply (quiet_update_process _ p (set_pInputHandle h1))|].
  destruct (negb (NT_SUCCESS (AllocateInputStatus env))); [apply quiet_leave; alphabet|].
  set (w2 := update_process _ _ w1).
  pose proof (quiet_AllocateIoHandle (bringup_alphabet true) Output
    (Z.lor GENERIC_READ GENERIC_WRITE) (Z.lor FILE_SHARE_READ FILE_SHARE_WRITE)
    (AllocateOutputStatus env) w2 eq_refl) as H2.
  destruct (AllocateIoHandle Output _ _ _ w2) as [h2 w3]. simpl in H2.
  eapply quiet_then; [exact H2|].
  eapply quiet_then; [apply (quiet_update_process _ p (set_pOutputHandle h2))|].
  destruct (negb (NT_SUCCESS (AllocateOutputStatus env))); [apply quiet_leave; alphabet|].
  apply quiet_completeConnection.
Qed.

Lemma quiet_associateHistory env Cac p Status m w :
  quiet (bringup_alphabet true) (-1) w (associateHistory env Cac p Status m w).2.
Proof.
  unfold associateHistory.
  destruct (s_Allocate env).
  - cbv zeta. eapply quiet_then; [|apply quiet_createHandles].
    eapply quiet_then; [apply quiet_HistoryAllocate | apply quiet_log]; alphabet.
  - cbv zeta. eapply quiet_then; [|apply quiet_createHandles].
    eapply quiet_then; [apply quiet_HistoryAllocate | apply quiet_log]; alphabet.
  - eapply quiet_then; [apply (quiet_log _ (EvHistoryAllocate p)); alphabet|].
    eapply quiet_then; [apply (quiet_log _ EvLogCaughtException); alphabet|].
    apply quiet_leave; alphabet.
Qed.

Lemma bringup_alphabet_weaken init e :
  bringup_alphabet true e = true → bringup_alphabet init e = true.
Proof. destruct e, init; simpl; done. Qed.

Lemma forallb_mono (A B : Event → bool) evs :
  (∀ e, A e = true → B e = true) → forallb A evs = true → forallb B evs = true.
Proof.
  intros HAB F. apply forallb_forall. intros e He.
  apply HAB. eapply forallb_forall in F; eauto.
Qed.

Lemma initializer_runs_app e1 e2 :
  initializer_runs (e1 ++ e2) = initializer_runs e1 ++ initializer_runs e2.
Proof. apply omap_app. Qed.

Lemma initializer_runs_bringup evs :
  forallb (bringup_alphabet true) evs = true → initializer_runs evs = [].
Proof.
  induction evs as [|e evs IH]; [done|]. simpl. intros [He Hr]%andb_true_iff.
  unfold initializer_runs in *. simpl. destruct e; try done; by apply IH.
Qed.

Lemma initializer_runs_handoff evs :
  forallb handoff_alphabet evs = true → initializer_runs evs = [].
Proof.
  induction evs as [|e evs IH]; [done|]. simpl. intros [He Hr]%andb_true_iff.
  unfold initializer_runs in *. simpl. destruct e; try done; by apply IH.
Qed.

Lemma session_step_prefix env w w1 w' evs0 evs1 :
  Flags w1 = Flags w → initializer_runs evs0 = [] →
  session_step env w1 w' evs1 → session_step env w w' (evs0 ++ evs1).
Proof.
  intros HF H0 H. unfold session_step, initialized in *.
  rewrite initializer_runs_app, H0, HF in *. done.
Qed.

(** What the session-initializing phases do to the world. *)
Lemma initializeSession_effect env Cac p Status m w :
  let w' := (initializeSession env Cac p Status m w).2 in
  ∃ evs, trace w' = trace w ++ evs
  ∧ forallb (bringup_alphabet (initialized w)) evs = true
  ∧ lockDepth w' = lockDepth w - 1
  ∧ globals w' = globals w
  ∧ session_step env w w' evs.
Proof.
  unfold initializeSession, session_step, initialized.
  rewrite WI_IsFlagClear_negb.
  destruct (WI_IsFlagSet (Flags w) CONSOLE_INITIALIZED) eqn:Hinit; simpl.
  - destruct (quiet_associateHistory env Cac p Status m w)
      as ((evs & Ht & Ha) & L & G & F).
    exists evs. repeat split; try done.
    left. split; [by apply initializer_runs_bringup | done].
  - destruct (NT_SUCCESS (ConsoleAllocateConsole env)) eqn:Hst; simpl.
    + set (w1 := log EvSetInitialized _).
      destruct (quiet_associateHistory env Cac p (ConsoleAllocateConsole env) m w1)
        as ((evs & Ht & Ha) & L & G & F).
      exists ([EvConsoleAllocateConsole (ConsoleAllocateConsole env); EvSetInitialized]
              ++ evs).
      split; [rewrite Ht; subst w1; simpl; by rewrite <- !app_assoc|].
      split; [simpl; eapply forallb_mono; [apply bringup_alphabet_weaken | done]|].
      repeat split; try done.
      right. rewrite initializer_runs_app, (initializer_runs_bringup evs Ha). done.
    + set (w1 := log _ w).
      destruct (quiet_leave (bringup_alphabet true) ReplyInline
                  (ConsoleAllocateConsole env) (Some p) m w1)
        as ((evs & Ht & Ha) & L & G & F); alphabet.
      exists ([EvConsoleAllocateConsole (ConsoleAllocateConsole env)] ++ evs).
      split; [rewrite Ht; subst w1; simpl; by rewrite <- !app_assoc|].
      split; [simpl; eapply forallb_mono; [apply bringup_alphabet_weaken | done]|].
      repeat split; try done.
      right. rewrite initializer_runs_app, (initializer_runs_bringup evs Ha). done.
Qed.

Lemma localBringUp_effect env Cac pid tid m w :
  let w' := (localBringUp env Cac pid tid m w).2 in
  ∃ evs, trace w' = trace w ++ evs
  ∧ forallb (bringup_alphabet (initialized w)) evs = true
  ∧ lockDepth w' = lockDepth w - 1
  ∧ globals w' = globals w
  ∧ session_step env w w' evs.
Proof.
  unfold localBringUp.
  pose proof (quiet_AllocProcessData (bringup_alphabet true) pid tid
    (ProcessGroupId Cac) (AllocProcessDataStatus env) w eq_refl) as H1.
  destruct (AllocProcessData _ _ _ _ w) as [[p|] w1]; simpl in H1.
  - set (w2 := update_process p _ w1).
    set (w3 := if ConsoleApp Cac then _ else w2).
    set (w4 := if LocateAccessibilityNotifier env then _ else w3).
    assert (quiet (bringup_alphabet true) 0 w w4) as ((evs0 & Ht0 & Ha0) & L & G & F).
    { eapply quiet_then; [exact H1|].
      eapply quiet_then; [apply (quiet_update_process _ p)|]. fold w2.
      eapply (quiet_then _ _ _ w3).
      - subst w3. destruct (ConsoleApp Cac); [apply quiet_log; alphabet | apply quiet_refl].
      - subst w4. destruct (LocateAccessibilityNotifier env);
          [apply quiet_log; alphabet | apply quiet_refl]. }
    destruct (initializeSession_effect env Cac p (AllocProcessDataStatus env) m w4)
      as (evs1 & Ht1 & Ha1 & L' & G' & S').
    assert (initialized w4 = initialized w) as Hi by (unfold initialized; by rewrite F).
    rewrite Hi in Ha1.
    exists (evs0 ++ evs1).
    split; [by rewrite Ht1, Ht0, app_assoc|].
    split; [rewrite forallb_app, Ha1, andb_true_r;
            eapply forallb_mono; [apply bringup_alphabet_weaken | done]|].
    repeat split; [lia | congruence |].
    eapply session_step_prefix; eauto. by apply initializer_runs_bringup.
  - destruct (quiet_leave (bringup_alphabet true) ReplyInline
                (AllocProcessDataStatus env) None m w1)
      as ((evs1 & Ht1 & Ha1) & L & G & F); alphabet.
    destruct H1 as ((evs0 & Ht0 & Ha0) & L1 & G1 & F1).
    exists (evs0 ++ evs1).
    split; [by rewrite Ht1, Ht0, app_assoc|].
    split; [eapply forallb_mono; [apply bringup_alphabet_weaken|];
            by rewrite forallb_app, Ha0, Ha1|].
    repeat split; [lia | congruence |].
    left. rewrite initializer_runs_app, !initializer_runs_bringup by done.
    split; [done | congruence].
Qed.

(** ** The handoff attempt *)

Lemma attemptHandoff_effect env m w :
  match attemptHandoff env m w with
  | HandoffFellThrough w' =>
      extends_by handoff_alphabet w w' ∧ lockDepth w' = lockDepth w
      ∧ Flags w' = Flags w
  | HandoffExited w' =>
      extends_by handoff_alphabet w w' ∧ lockDepth w' = lockDepth w - 1
      ∧ Flags w' = Flags w
  end.
Proof.
  unfold attemptHandoff, caught, unwind, reset_hInputEvent, extends_by. cbv zeta.
  destruct (FAILED (CoInitializeEx env)); [|
  destruct (FAILED (CoCreateInstance env)); [|
  destruct (FAILED (GetServerHandle env)); [|
  destruct (CreatePipe env); [
  destruct (DuplicateHandle env); [
  destruct (FAILED (EstablishHandoff env)); [|
  destruct (FAILED (HostSignalThreadStart env))]|]|]]]];
  simpl; try destruct (bool_decide (is_Some (hInputEvent (globals w))));
  simpl; (split; [|done]);
  (eexists; split; [rewrite <- ?app_assoc; simpl; reflexivity | reflexivity]).
Qed.

(** ** The connection routine as a whole *)

Lemma connection_effect env m w :
  let w' := (ConsoleHandleConnectionRequest env m w).2 in
  let st := (ConsoleInitializeConnectInfo env).1 in
  let d := (_shouldAttemptHandoff env (globals w) (Flags w)
              (ConsoleInitializeConnectInfo env).2).2 in
  ∃ evs,
    trace w' = trace w
                 ++ [EvLogApiCall AttachConsole; EvLockConsole;
                     EvInitializeConnectInfo st]
                 ++ (if NT_SUCCESS st then [EvShouldAttemptHandoff d] else [])
                 ++ evs
    ∧ forallb (connection_alphabet (NT_SUCCESS st && d) (initialized w)) evs = true
    ∧ lockDepth w' = lockDepth w
    ∧ session_step env w w' evs.
Proof.
  unfold ConsoleHandleConnectionRequest.
  destruct (ConsoleInitializeConnectInfo env) as [st Cac]. cbn [fst snd].
  set (w2 := log (EvInitializeConnectInfo st) _).
  assert (trace w2 = trace w ++ [EvLogApiCall AttachConsole; EvLockConsole;
                                 EvInitializeConnectInfo st]) as Ht2
    by (subst w2; simpl; by rewrite <- !app_assoc).
  assert (lockDepth w2 = lockDepth w + 1) as Hl2 by done.
  assert (Flags w2 = Flags w) as Hf2 by done.
  assert (globals w2 = globals w) as Hg2 by done.
  assert (initialized w2 = initialized w) as Hi2 by done.
  destruct (NT_SUCCESS st) eqn:Hst; cbn [negb andb].
  - rewrite Hg2, Hf2.
    set (d := (_shouldAttemptHandoff env (globals w) (Flags w) Cac).2).
    set (w3 := log (EvShouldAttemptHandoff d) w2).
    assert (trace w3 = trace w2 ++ [EvShouldAttemptHandoff d]) as Ht3 by done.
    destruct d eqn:Hd.
    + pose proof (attemptHandoff_effect env m w3) as HH.
      destruct (attemptHandoff env m w3) as [w4|w4].
      * destruct HH as ((evsH & HtH & HaH) & LH & FH).
        destruct (localBringUp_effect env Cac
                    (to_DWORD (Process (Descriptor m)))
                    (to_DWORD (Object (Descriptor m))) m w4)
          as (evsB & HtB & HaB & LB & GB & SB).
        assert (initialized w4 = initialized w) as Hi4
          by (unfold initialized; rewrite FH; done).
        rewrite Hi4 in HaB.
        exists (evsH ++ evsB).
        split; [rewrite HtB, HtH, Ht3, Ht2; by rewrite <- !app_assoc|].
        split.
        { rewrite forallb_app. apply andb_true_iff. split.
          - eapply forallb_mono; [|exact HaH]. intros e He.
            unfold connection_alphabet. by rewrite He.
          - eapply forallb_mono; [|exact HaB]. intros e He.
            unfold connection_alphabet. rewrite He. apply orb_true_r. }
        split; [simpl in LH; lia|].
        apply (session_step_prefix env w w4 _ evsH evsB);
          [by rewrite FH | by apply initializer_runs_handoff | exact SB].
      * destruct HH as ((evsH & HtH & HaH) & LH & FH). cbn [snd].
        exists evsH.
        split; [rewrite HtH, Ht3, Ht2; by rewrite <- !app_assoc|].
        split.
        { eapply forallb_mono; [|exact HaH]. intros e He.
          unfold connection_alphabet. by rewrite He. }
        split; [simpl in LH; lia|].
        left. split; [by apply initializer_runs_handoff | by rewrite FH].
    + destruct (localBringUp_effect env Cac
                  (to_DWORD (Process (Descriptor m)))
                  (to_DWORD (Object (Descriptor m))) m w3)
        as (evsB & HtB & HaB & LB & GB & SB).
      exists evsB.
      split; [rewrite HtB, Ht3, Ht2; by rewrite <- !app_assoc|].
      split; [done|].
      split; [simpl in LB; lia|].
      apply (session_step_prefix env w w3 _ [] evsB); done.
  - destruct (quiet_leave (bringup_alphabet true) ReplyInline st None m w2)
      as ((evs & Ht & Ha) & L & G & F); alphabet.
    exists evs.
    split; [rewrite Ht, Ht2; by rewrite <- !app_assoc|].
    split; [eapply forallb_mono; [|exact Ha]; intros e He;
            unfold connection_alphabet; simpl; by apply bringup_alphabet_weaken|].
    split; [lia|].
    left. split; [by apply initializer_runs_bringup | congruence].
Qed.

(** ** The object routines and the disconnect routine *)

Lemma quiet_allocateByType env ci w :
  quiet object_alphabet 0 w (allocateByType env ci w).2.
Proof.
  unfold allocateByType.
  destruct (ObjectType ci =? CD_IO_OBJECT_TYPE_CURRENT_INPUT).
  { pose proof (quiet_AllocateIoHandle object_alphabet Input (DesiredAccess ci)
      (ShareMode ci) (AllocateInputStatus env) w eq_refl) as H.
    by destruct (AllocateIoHandle Input _ _ _ w). }
  destruct (ObjectType ci =? CD_IO_OBJECT_TYPE_CURRENT_OUTPUT).
  { pose proof (quiet_AllocateIoHandle object_alphabet Output (DesiredAccess ci)
      (ShareMode ci) (AllocateOutputStatus env) w eq_refl) as H.
    by destruct (AllocateIoHandle Output _ _ _ w). }
  destruct (ObjectType ci =? CD_IO_OBJECT_TYPE_NEW_OUTPUT).
  { pose proof (quiet_CreateScreenBuffer object_alphabet (DesiredAccess ci)
      (ShareMode ci) (ConsoleCreateScreenBuffer env) w eq_refl) as H.
    by destruct (CreateScreenBuffer _ _ _ w). }
  apply quiet_refl.
Qed.

Lemma quiet_release_unique A h w : quiet A 0 w (release_unique h w).
Proof. destruct h; [by apply quiet_silent | apply quiet_refl]. Qed.

Lemma ConsoleCreateObject_effect env m w :
  let w' := (ConsoleCreateObject env m w).2 in
  ∃ evs, trace w' = trace w ++ EvLockConsole :: evs
  ∧ forallb object_alphabet evs = true
  ∧ lockDepth w' = lockDepth w ∧ Flags w' = Flags w ∧ globals w' = globals w.
Proof.
  unfold ConsoleCreateObject.
  set (m1 := SetObjectType _ m).
  pose proof (quiet_allocateByType env (CreateObject m1) (LockConsole w)) as H1.
  destruct (allocateByType env (CreateObject m1) (LockConsole w)) as [[Status h] w1].
  cbn [snd] in H1.
  assert (∀ w2, quiet object_alphabet (-1) w1 w2 →
    ∃ evs, trace w2 = trace w ++ EvLockConsole :: evs
    ∧ forallb object_alphabet evs = true
    ∧ lockDepth w2 = lockDepth w ∧ Flags w2 = Flags w ∧ globals w2 = globals w) as K.
  { intros w2 H2.
    destruct (quiet_then _ _ _ _ _ H1 H2) as ((evs & Ht & Ha) & L & G & F).
    exists evs. simpl in *. rewrite Ht, <- app_assoc. repeat split; try done. lia. }
  destruct (negb (NT_SUCCESS Status)); cbn [snd].
  { apply K. by apply quiet_UnlockConsole. }
  destruct (SUCCEEDED (CompleteIo env)); cbn [snd]; apply K.
  - eapply quiet_then; [|by apply quiet_UnlockConsole].
    eapply quiet_then; [|apply quiet_release_unique].
    eapply quiet_then; by apply quiet_log.
  - replace (-1) with (-1 + 0) by lia.
    eapply quiet_trans; [|by apply quiet_destroy_unique].
    eapply quiet_then; [|by apply quiet_UnlockConsole].
    eapply quiet_then; by apply quiet_log.
Qed.

Lemma state_of_fields w1 w2 :
  state_of w1 = state_of w2 →
  globals w1 = globals w2 ∧ Flags w1 = Flags w2 ∧ vtIoMode w1 = vtIoMode w2
  ∧ ProcessHandleList w1 = ProcessHandleList w2
  ∧ CommandHistories w1 = CommandHistories w2 ∧ HandleHeap w1 = HandleHeap w2
  ∧ lockDepth w1 = lockDepth w2.
Proof. unfold state_of. intros H. by injection H. Qed.

(** [delete] on a pointer from outside is defined for the null pointer
    and for live objects, and there it is what an owner's [delete] does. *)
Lemma delete_pointer_spec h w :
  match delete_pointer h w with
  | Some w' => (h = 0 ∨ is_Some (HandleHeap w !! h)) ∧ w' = delete_handle h w
  | None => h ≠ 0 ∧ HandleHeap w !! h = None
  end.
Proof.
  unfold delete_pointer, delete_handle.
  destruct (Z.eqb_spec h 0) as [->|Hnz]; [split; [by left | done]|].
  destruct (bool_decide (is_Some (HandleHeap w !! h))) eqn:Hl.
  - apply bool_decide_eq_true in Hl. split; [by right | done].
  - apply bool_decide_eq_false in Hl. split; [done|].
    by apply eq_None_not_Some.
Qed.

(** When [ConsoleCloseObject] returns, it has deleted the object, set the
    reply status and given the lock back. *)
Lemma ConsoleCloseObject_defined m w :
  (ConsoleCloseObject m w).1.1 ≠ Undefined →
  (objectHandle m = 0 ∨ is_Some (HandleHeap w !! objectHandle m))
  ∧ ConsoleCloseObject m w
    = (ReplyInline, SetReplyStatus STATUS_SUCCESS m,
       UnlockConsole (delete_handle (objectHandle m) (LockConsole w))).
Proof.
  unfold ConsoleCloseObject.
  pose proof (delete_pointer_spec (objectHandle m) (LockConsole w)) as H.
  destruct (delete_pointer (objectHandle m) (LockConsole w)) as [w1|]; [|done].
  intros _. by destruct H as (Hl & ->).
Qed.

Lemma ConsoleCloseObject_undefined m w :
  (ConsoleCloseObject m w).1.1 = Undefined →
  objectHandle m ≠ 0 ∧ HandleHeap w !! objectHandle m = None
  ∧ ConsoleCloseObject m w = (Undefined, m, LockConsole w).
Proof.
  unfold ConsoleCloseObject.
  pose proof (delete_pointer_spec (objectHandle m) (LockConsole w)) as H.
  destruct (delete_pointer (objectHandle m) (LockConsole w)) as [w1|]; [done|].
  intros _. by destruct H.
Qed.

Lemma ConsoleCloseObject_trace m w :
  (ConsoleCloseObject m w).1.1 ≠ Undefined →
  trace (ConsoleCloseObject m w).2 =
  trace w ++ EvLockConsole
    :: (if objectHandle m =? 0 then [] else [EvDeleteHandle (objectHandle m)])
    ++ [EvUnlockConsole].
Proof.
  intros (_ & ->)%ConsoleCloseObject_defined. unfold delete_handle.
  destruct (objectHandle m =? 0); simpl; by rewrite <- !app_assoc.
Qed.

Lemma ConsoleCloseObject_effect m w :
  let w' := (ConsoleCloseObject m w).2 in
  (∃ evs, trace w' = trace w ++ EvLockConsole :: evs
          ∧ forallb object_alphabet evs = true)
  ∧ Flags w' = Flags w ∧ globals w' = globals w.
Proof.
  destruct (decide ((ConsoleCloseObject m w).1.1 = Undefined)) as [Hu|Hd].
  - apply ConsoleCloseObject_undefined in Hu as (_ & _ & ->). cbn [snd].
    split; [by exists []|done].
  - pose proof (ConsoleCloseObject_trace m w Hd) as Ht.
    apply ConsoleCloseObject_defined in Hd as (_ & Hd). rewrite Hd in *.
    cbn [snd] in *. split.
    + eexists. split; [exact Ht|]. by destruct (objectHandle m =? 0).
    + unfold delete_handle. by destruct (objectHandle m =? 0).
Qed.


(** The teardown collaborator brackets its work in the lock. *)
Lemma RemoveConsole_frame p hr w :
  let w' := RemoveConsole p hr w in
  (∃ evs, trace w' = trace w ++ EvLockConsole :: EvRemoveConsole p hr
                       :: evs ++ [EvUnlockConsole]
          ∧ (evs = [] ∨ evs = [EvCloseSession]))
  ∧ lockDepth w' = lockDepth w ∧ Flags w' = Flags w ∧ globals w' = globals w.
Proof.
  unfold RemoveConsole. cbv zeta.
  destruct (FAILED hr).
  { split; [exists []; split; [|by left]|]; simpl; [by rewrite <- !app_assoc|].
    repeat split; lia. }
  destruct (ProcessHandleList _ !! p) as [r|].
  - match goal with |- context [if ?b then _ else _] => destruct b end.
    + split; [exists [EvCloseSession]; split; [|by right]|]; simpl;
        [by rewrite <- !app_assoc|]. repeat split; lia.
    + split; [exists []; split; [|by left]|]; simpl; [by rewrite <- !app_assoc|].
      repeat split; lia.
  - split; [exists []; split; [|by left]|]; simpl; [by rewrite <- !app_assoc|].
    repeat split; lia.
Qed.

Lemma LOG_IF_FAILED_frame hr w :
  let w' := LOG_IF_FAILED hr w in
  trace w' = trace w ++ (if FAILED hr then [EvLogFailure hr] else [])
  ∧ state_of w' = state_of w.
Proof.
  unfold LOG_IF_FAILED. destruct (FAILED hr); simpl; [done|].
  by rewrite app_nil_r.
Qed.

(** The disconnect routine, when it returns: what it has logged itself,
    and the world it handed to [RemoveConsole]. *)
Lemma ConsoleClientDisconnectRoutine_defined env m w :
  (ConsoleClientDisconnectRoutine env m w).1.1 ≠ Undefined →
  ∃ own w1,
    own = (if LocateAccessibilityNotifier env
           then [EvNotifyConsoleEndApplication
                   (from_option dwProcessId 0
                      (ProcessHandleList w !! processHandle m))]
           else [])
          ++ [EvTraceAttachDetach (processHandle m) false]
    ∧ trace w1 = trace w ++ EvLogApiCall FreeConsole :: own
    ∧ state_of w1 = state_of w
    ∧ (LocateAccessibilityNotifier env = true →
       is_Some (ProcessHandleList w !! processHandle m))
    ∧ ConsoleClientDisconnectRoutine env m w
      = (ReplyInline, SetReplyStatus STATUS_SUCCESS m,
         LOG_IF_FAILED (RemoveConsoleResult env)
           (RemoveConsole (processHandle m) (RemoveConsoleResult env) w1)).
Proof.
  unfold ConsoleClientDisconnectRoutine. cbv zeta.
  destruct (LocateAccessibilityNotifier env).
  - cbn [ProcessHandleList log].
    destruct (ProcessHandleList w !! processHandle m) as [r|]; [|done].
    intros _. eexists _, _. split; [reflexivity|].
    split; [|split; [|split; [|reflexivity]]]; [|done|by eexists].
    simpl. by rewrite <- !app_assoc.
  - intros _. eexists _, _. split; [reflexivity|].
    split; [|split; [|split; [|reflexivity]]]; [|done|done].
    simpl. by rewrite <- !app_assoc.
Qed.

Lemma ConsoleClientDisconnectRoutine_undefined env m w :
  (ConsoleClientDisconnectRoutine env m w).1.1 = Undefined →
  LocateAccessibilityNotifier env = true
  ∧ ProcessHandleList w !! processHandle m = None
  ∧ ConsoleClientDisconnectRoutine env m w
    = (Undefined, m, log (EvLogApiCall FreeConsole) w).
Proof.
  unfold ConsoleClientDisconnectRoutine. cbv zeta.
  destruct (LocateAccessibilityNotifier env); [|done].
  cbn [ProcessHandleList log].
  by destruct (ProcessHandleList w !! processHandle m) as [r|].
Qed.

Lemma ConsoleClientDisconnectRoutine_effect env m w :
  let w' := (ConsoleClientDisconnectRoutine env m w).2 in
  (∃ evs, trace w' = trace w ++ EvLogApiCall FreeConsole :: evs
          ∧ forallb object_alphabet evs = true)
  ∧ lockDepth w' = lockDepth w ∧ Flags w' = Flags w ∧ globals w' = globals w.
Proof.
  destruct (decide ((ConsoleClientDisconnectRoutine env m w).1.1 = Undefined))
    as [Hu|Hd].
  - apply ConsoleClientDisconnectRoutine_undefined in Hu as (_ & _ & ->).
    cbn [snd]. split; [by exists []|done].
  - apply ConsoleClientDisconnectRoutine_defined in Hd
      as (own & w1 & Hown & Ht1 & Hs1 & _ & ->). cbn [snd].
    destruct (RemoveConsole_frame (processHandle m) (RemoveConsoleResult env) w1)
      as ((evs & Ht & Hevs) & L & F & G).
    destruct (LOG_IF_FAILED_frame (RemoveConsoleResult env)
                (RemoveConsole (processHandle m) (RemoveConsoleResult env) w1))
      as (Htl & Hsl).
    apply state_of_fields in Hs1 as (G1 & F1 & _ & _ & _ & _ & L1).
    apply state_of_fields in Hsl as (Gl & Fl & _ & _ & _ & _ & Ll).
    split.
    + eexists. rewrite Htl, Ht, Ht1, <- !app_assoc. split; [reflexivity|].
      rewrite Hown, !forallb_app.
      destruct Hevs as [->| ->], (LocateAccessibilityNotifier env),
        (FAILED (RemoveConsoleResult env)); reflexivity.
    + rewrite Ll, Fl, Gl, L, F, G. done.
Qed.

Lemma initializer_runs_object evs :
  forallb object_alphabet evs = true → initializer_runs evs = [].
Proof.
  induction evs as [|e evs IH]; [done|]. simpl. intros [He Hr]%andb_true_iff.
  unfold initializer_runs in *. simpl. destruct e; try done; by apply IH.
Qed.

(** ** Every request, as far as the session flag is concerned *)

Lemma dispatch_session_step r env m w :
  let w' := (dispatch r env m w).2 in
  session_step env w w' (events_since w w')
  ∧ (r ≠ ConnectionRequest →
     initializer_runs (events_since w w') = [] ∧ Flags w' = Flags w).
Proof.
  destruct r; cbn [dispatch].
  - destruct (ConsoleCreateObject_effect env m w) as (evs & Ht & Ha & L & F & G).
    rewrite (events_since_app _ _ _ Ht).
    assert (initializer_runs (EvLockConsole :: evs) = []) as Hr
      by (apply (initializer_runs_object evs Ha)).
    split; [left|]; done.
  - destruct (ConsoleCloseObject_effect m w) as ((evs & Ht & Ha) & F & G).
    rewrite (events_since_app _ _ _ Ht).
    assert (initializer_runs (EvLockConsole :: evs) = []) as Hr
      by (apply (initializer_runs_object evs Ha)).
    split; [left|]; done.
  - split; [|done].
    destruct (connection_effect env m w) as (evs & Ht & Ha & L & S).
    rewrite (events_since_app _ _ _ Ht).
    unfold session_step in *.
    rewrite !initializer_runs_app.
    replace (initializer_runs (if NT_SUCCESS (ConsoleInitializeConnectInfo env).1
                               then [EvShouldAttemptHandoff _] else [])) with (@nil Z)
      by (by destruct (NT_SUCCESS _)).
    exact S.
  - destruct (ConsoleClientDisconnectRoutine_effect env m w)
      as ((evs & Ht & Ha) & L & F & G).
    rewrite (events_since_app _ _ _ Ht).
    assert (initializer_runs (EvLogApiCall FreeConsole :: evs) = []) as Hr
      by (apply (initializer_runs_object evs Ha)).
    split; [left|]; done.
Qed.

Lemma dispatch_keeps_initialized r env m w :
  initialized w = true → initialized (dispatch r env m w).2 = true.
Proof.
  intros Hi. destruct (dispatch_session_step r env m w) as ([(_ & F)|(Hn & _)] & _).
  - unfold initialized. by rewrite F.
  - congruence.
Qed.

Lemma initializations_bound reqs : ∀ w,
  (initializations reqs w ≤ if initialized w then 0 else 1)%nat.
Proof.
  induction reqs as [|[[r env] m] rest IH]; intros w; simpl.
  { destruct (initialized w); lia. }
  pose proof (dispatch_keeps_initialized r env m w) as Hk.
  destruct (dispatch r env m w) as [[c m'] w'] eqn:Hd. cbn [snd] in Hk.
  specialize (IH w').
  destruct (initialized w) eqn:Hw.
  - rewrite Hk in * by done. simpl. destruct c; lia.
  - simpl. destruct (initialized w') eqn:Hw'; destruct c; lia.
Qed.

Lemma serve_keeps_initialized reqs : ∀ w,
  initialized w = true → initialized (serve reqs w) = true.
Proof.
  induction reqs as [|[[r env] m] rest IH]; intros w Hi; simpl; [done|].
  pose proof (dispatch_keeps_initialized r env m w Hi) as Hk.
  destruct (dispatch r env m w) as [[c m'] w']. cbn [snd] in Hk.
  destruct c; auto.
Qed.

(** ** CreateObject: the generic type *)

(** C6.  A create request of generic type is served as a current-input
    request when its read/write access bits are exactly [GENERIC_READ], as
    a current-output request when they are exactly [GENERIC_WRITE]; with
    neither or both bits it is answered [STATUS_INVALID_PARAMETER] and
    nothing is allocated. *)
Theorem generic_create_resolution env m w :
  ObjectType (CreateObject m) = CD_IO_OBJECT_TYPE_GENERIC →
  let rw := Z.land (DesiredAccess (CreateObject m)) (Z.lor GENERIC_READ GENERIC_WRITE) in
  (rw = GENERIC_READ →
     resolveObjectType (CreateObject m) = CD_IO_OBJECT_TYPE_CURRENT_INPUT
     ∧ ConsoleCreateObject env m w =
       ConsoleCreateObject env (SetObjectType CD_IO_OBJECT_TYPE_CURRENT_INPUT m) w
     ∧ events_since w (ConsoleCreateObject env m w).2 !! 1%nat =
       Some (EvAllocateIoHandle Input (DesiredAccess (CreateObject m))
               (ShareMode (CreateObject m)) (AllocateInputStatus env)))
  ∧ (rw = GENERIC_WRITE →
     resolveObjectType (CreateObject m) = CD_IO_OBJECT_TYPE_CURRENT_OUTPUT
     ∧ ConsoleCreateObject env m w =
       ConsoleCreateObject env (SetObjectType CD_IO_OBJECT_TYPE_CURRENT_OUTPUT m) w
     ∧ events_since w (ConsoleCreateObject env m w).2 !! 1%nat =
       Some (EvAllocateIoHandle Output (DesiredAccess (CreateObject m))
               (ShareMode (CreateObject m)) (AllocateOutputStatus env)))
  ∧ (rw ≠ GENERIC_READ → rw ≠ GENERIC_WRITE →
     let '(c, m', w') := ConsoleCreateObject env m w in
     c = ReplyInline
     ∧ ReplyStatus m' = STATUS_INVALID_PARAMETER
     ∧ NT_SUCCESS (ReplyStatus m') = false
     ∧ HandleHeap w' = HandleHeap w
     ∧ events_since w w' = [EvLockConsole; EvUnlockConsole]).
Proof.
  intros Hgen rw. subst rw.
  split; [|split].
  - intros Hr.
    assert (resolveObjectType (CreateObject m) = CD_IO_OBJECT_TYPE_CURRENT_INPUT) as Hres.
    { unfold resolveObjectType. rewrite Hgen, Hr. reflexivity. }
    split; [done|]. split.
    + unfold ConsoleCreateObject. rewrite Hres. reflexivity.
    + unfold ConsoleCreateObject. rewrite Hres.
      unfold allocateByType, AllocateIoHandle, events_since. cbn.
      destruct (NT_SUCCESS (AllocateInputStatus env)) eqn:Hs; cbn; rewrite Hs; cbn;
        [destruct (SUCCEEDED (CompleteIo env)); cbn|];
        unfold delete_handle; try destruct (new_address _ =? 0); cbn;
        rewrite <- ?app_assoc, drop_app_length; reflexivity.
  - intros Hr.
    assert (resolveObjectType (CreateObject m) = CD_IO_OBJECT_TYPE_CURRENT_OUTPUT) as Hres.
    { unfold resolveObjectType. rewrite Hgen, Hr. reflexivity. }
    split; [done|]. split.
    + unfold ConsoleCreateObject. rewrite Hres. reflexivity.
    + unfold ConsoleCreateObject. rewrite Hres.
      unfold allocateByType, AllocateIoHandle, events_since. cbn.
      destruct (NT_SUCCESS (AllocateOutputStatus env)) eqn:Hs; cbn; rewrite Hs; cbn;
        [destruct (SUCCEEDED (CompleteIo env)); cbn|];
        unfold delete_handle; try destruct (new_address _ =? 0); cbn;
        rewrite <- ?app_assoc, drop_app_length; reflexivity.
  - intros Hnr Hnw.
    assert (resolveObjectType (CreateObject m) = CD_IO_OBJECT_TYPE_GENERIC) as Hres.
    { unfold resolveObjectType. rewrite Hgen.
      destruct (Z.eqb_spec
        (Z.land (DesiredAccess (CreateObject m)) (Z.lor GENERIC_READ GENERIC_WRITE))
        GENERIC_READ); [done|].
      destruct (Z.eqb_spec
        (Z.land (DesiredAccess (CreateObject m)) (Z.lor GENERIC_READ GENERIC_WRITE))
        GENERIC_WRITE); done. }
    unfold ConsoleCreateObject. rewrite Hres. cbn.
    repeat split. unfold events_since. cbn.
    by rewrite <- app_assoc, drop_app_length.
Qed.

(** ** The handoff decision *)

Lemma guard_snd c blocked rest : (guard c blocked rest).2 = negb blocked && rest.2.
Proof. by destruct blocked. Qed.

Lemma guard_fst c blocked rest :
  (guard c blocked rest).1 = if blocked then [c] else c :: rest.1.
Proof. by destruct blocked. Qed.

Lemma shouldAttemptHandoff_answer env g gciFlags cac :
  (_shouldAttemptHandoff env g gciFlags cac).2 =
  TIL_FEATURE_ATTEMPTHANDOFF_ENABLED env
  && forallb (λ c, negb (blocking c env g gciFlags cac)) check_order.
Proof.
  unfold _shouldAttemptHandoff.
  destruct (TIL_FEATURE_ATTEMPTHANDOFF_ENABLED env); [|done]. cbn [negb].
  rewrite !guard_snd. cbn [negb andb forallb check_order blocking snd].
  by rewrite !andb_assoc.
Qed.

Lemma check_order_complete c : c ∈ check_order.
Proof. destruct c; unfold check_order; set_solver. Qed.

Lemma handoff_decisions_connection d init evs :
  forallb (connection_alphabet d init) evs = true → handoff_decisions evs = [].
Proof.
  induction evs as [|e evs IH]; [done|]. simpl. intros [He Hr]%andb_true_iff.
  unfold handoff_decisions in *. simpl.
  destruct e; try (by apply IH).
  unfold connection_alphabet in He. simpl in He. by rewrite andb_false_r in He.
Qed.

Lemma no_handoff_events_bringup init evs :
  forallb (connection_alphabet false init) evs = true →
  existsb is_handoff_event evs = false.
Proof.
  induction evs as [|e evs IH]; [done|]. simpl. intros [He Hr]%andb_true_iff.
  rewrite (IH Hr), orb_false_r.
  unfold connection_alphabet in He. simpl in He. by destruct e.
Qed.

(** C7.  Whatever the other conditions are, one blocking condition that
    holds makes [_shouldAttemptHandoff] answer false; the conditions are
    tested in a fixed order and none is tested after the first that
    blocks; and a connection request evaluates the decision at most once
    (exactly once when its descriptor is accepted) and shows no trace of a
    handoff attempt when the answer is false. *)
Theorem handoff_decision_blocked_by_any_condition env g gciFlags cac :
  (∀ c, blocking c env g gciFlags cac = true →
        (_shouldAttemptHandoff env g gciFlags cac).2 = false)
  ∧ (TIL_FEATURE_ATTEMPTHANDOFF_ENABLED env = false →
     (_shouldAttemptHandoff env g gciFlags cac).2 = false)
  ∧ (TIL_FEATURE_ATTEMPTHANDOFF_ENABLED env = true →
     (_shouldAttemptHandoff env g gciFlags cac).1 =
     until_first_blocked (λ c, blocking c env g gciFlags cac) check_order)
  ∧ (∀ m w,
       g = globals w → gciFlags = Flags w →
       cac = (ConsoleInitializeConnectInfo env).2 →
       let w' := (ConsoleHandleConnectionRequest env m w).2 in
       handoff_decisions (events_since w w') =
         (if NT_SUCCESS (ConsoleInitializeConnectInfo env).1
          then [(_shouldAttemptHandoff env g gciFlags cac).2] else [])
       ∧ ((_shouldAttemptHandoff env g gciFlags cac).2 = false →
          existsb is_handoff_event (events_since w w') = false)).
Proof.
  split; [|split; [|split]].
  - intros c Hc. rewrite shouldAttemptHandoff_answer.
    apply andb_false_iff. right.
    apply not_true_is_false. intros Hall.
    rewrite forallb_forall in Hall.
    specialize (Hall c (proj1 (list_elem_of_In _ _) (check_order_complete c))).
    by rewrite Hc in Hall.
  - intros Hoff. rewrite shouldAttemptHandoff_answer. by rewrite Hoff.
  - intros Hon. unfold _shouldAttemptHandoff. rewrite Hon. cbn [negb].
    rewrite !guard_fst. cbn [until_first_blocked check_order blocking fst].
    repeat match goal with |- context [if ?b then _ else _] => destruct b end;
      reflexivity.
  - intros m w -> -> ->.
    destruct (connection_effect env m w) as (evs & Ht & Ha & L & S).
    cbn zeta. rewrite (events_since_app _ _ _ Ht).
    unfold handoff_decisions at 1. rewrite !omap_app.
    fold (handoff_decisions evs).
    rewrite (handoff_decisions_connection _ _ _ Ha). split.
    + destruct (NT_SUCCESS (ConsoleInitializeConnectInfo env).1); reflexivity.
    + intros Hd. rewrite Hd, andb_false_r in Ha.
      rewrite !existsb_app, (no_handoff_events_bringup _ _ Ha).
      by destruct (NT_SUCCESS (ConsoleInitializeConnectInfo env).1).
Qed.

(** ** Addresses and heaps *)

Lemma new_address_fresh {A} (heap : gmap Z A) :
  heap !! new_address heap = None ∧ new_address heap ≠ 0.
Proof.
  unfold new_address.
  pose proof (is_fresh ({[0]} ∪ dom heap)) as H.
  apply not_elem_of_union in H as [H0 Hd].
  split; [by apply not_elem_of_dom | set_solver].
Qed.

Lemma new_address_eqb {A} (heap : gmap Z A) : (new_address heap =? 0) = false.
Proof. apply Z.eqb_neq, new_address_fresh. Qed.

Ltac wsimpl :=
  cbn [trace lockDepth Flags globals vtIoMode ProcessHandleList CommandHistories
       HandleHeap log with_lockDepth with_Flags with_globals
       with_ProcessHandleList with_CommandHistories with_HandleHeap
       LockConsole UnlockConsole update_process fst snd negb andb orb
       ReplyStatus ReplyInformation CompleteWriteSize Descriptor CreateObject
       objectHandle processHandle SetReplyStatus SetReplyInformation
       SetCompleteWriteSize SetObjectType
       pInputHandle pOutputHandle fRootProcess dwProcessId dwThreadId
       ulProcessGroupId set_fRootProcess set_pInputHandle set_pOutputHandle
       destroy_unique release_unique default from_option] in *.

(** ** CreateObject: who owns the new handle *)

Lemma allocateByType_spec env ci w :
  match allocateByType env ci w with
  | (Status, Some h, w1) =>
      NT_SUCCESS Status = true ∧ h = new_address (HandleHeap w)
      ∧ ∃ e d, w1 = with_HandleHeap (<[h := (HostOwned, d)]> (HandleHeap w)) (log e w)
               ∧ match e with
                 | EvAllocateIoHandle _ _ _ _ | EvCreateScreenBuffer _ => True
                 | _ => False
                 end
  | (Status, None, w1) =>
      NT_SUCCESS Status = false ∧ HandleHeap w1 = HandleHeap w
  end.
Proof.
  unfold allocateByType, AllocateIoHandle, CreateScreenBuffer.
  destruct (ObjectType ci =? CD_IO_OBJECT_TYPE_CURRENT_INPUT).
  { destruct (NT_SUCCESS (AllocateInputStatus env)) eqn:H; cbn [fst snd].
    - repeat split; [done|]. eexists (EvAllocateIoHandle _ _ _ _), _. by split.
    - done. }
  destruct (ObjectType ci =? CD_IO_OBJECT_TYPE_CURRENT_OUTPUT).
  { destruct (NT_SUCCESS (AllocateOutputStatus env)) eqn:H; cbn [fst snd].
    - repeat split; [done|]. eexists (EvAllocateIoHandle _ _ _ _), _. by split.
    - done. }
  destruct (ObjectType ci =? CD_IO_OBJECT_TYPE_NEW_OUTPUT).
  { destruct (NT_SUCCESS (ConsoleCreateScreenBuffer env)) eqn:H; cbn [fst snd].
    - repeat split; [done|]. eexists (EvCreateScreenBuffer _), _. by split.
    - done. }
  done.
Qed.

(** C8.  When [ConsoleCreateObject] has allocated a handle, the object
    ends up owned by the driver exactly when the completion was
    delivered; when the delivery fails the routine destroys the object on
    its way out and the heap is what it was before the request. *)
Theorem created_handle_ownership env m w h :
  (allocateByType env
     (CreateObject (SetObjectType (resolveObjectType (CreateObject m)) m))
     (LockConsole w)).1.2 = Some h →
  let w' := (ConsoleCreateObject env m w).2 in
  HandleHeap w !! h = None
  ∧ (SUCCEEDED (CompleteIo env) = true →
     ∃ d, HandleHeap w' = <[h := (DriverOwned, d)]> (HandleHeap w)
          ∧ existsb (λ e, match e with EvDeleteHandle _ => true | _ => false end)
              (events_since w w') = false)
  ∧ (SUCCEEDED (CompleteIo env) = false →
     HandleHeap w' = HandleHeap w
     ∧ HandleHeap w' !! h = None
     ∧ last (events_since w w') = Some (EvDeleteHandle h)).
Proof.
  unfold ConsoleCreateObject.
  set (m1 := SetObjectType _ m).
  pose proof (allocateByType_spec env (CreateObject m1) (LockConsole w)) as Hs.
  destruct (allocateByType env (CreateObject m1) (LockConsole w)) as [[Status h'] w1].
  cbn [fst snd]. intros ->.
  destruct Hs as (Hok & -> & e & d & -> & He). rewrite Hok. wsimpl.
  destruct (new_address_fresh (HandleHeap w)) as [Hfresh Hnz].
  split; [done|]. split; intros Hc; rewrite Hc; wsimpl.
  - exists d. split; [by rewrite alter_insert_eq|].
    unfold events_since. wsimpl.
    rewrite <- !app_assoc, drop_app_length. by destruct e.
  - unfold delete_handle. rewrite new_address_eqb. wsimpl.
    rewrite delete_insert_eq, delete_id by done.
    repeat split; [done|].
    unfold events_since. wsimpl.
    rewrite <- !app_assoc, drop_app_length.
    rewrite !app_assoc. apply last_snoc.
Qed.

(** ** Rollback of a process record *)

Lemma state_of_ext w1 w2 :
  globals w1 = globals w2 → Flags w1 = Flags w2 → vtIoMode w1 = vtIoMode w2 →
  ProcessHandleList w1 = ProcessHandleList w2 →
  CommandHistories w1 = CommandHistories w2 → HandleHeap w1 = HandleHeap w2 →
  lockDepth w1 = lockDepth w2 → state_of w1 = state_of w2.
Proof. unfold state_of. by intros -> -> -> -> -> -> ->. Qed.

Lemma destroy_unique_fields h w :
  let w' := destroy_unique h w in
  globals w' = globals w ∧ Flags w' = Flags w ∧ vtIoMode w' = vtIoMode w
  ∧ ProcessHandleList w' = ProcessHandleList w
  ∧ CommandHistories w' = CommandHistories w
  ∧ HandleHeap w' = heap_without h (HandleHeap w)
  ∧ lockDepth w' = lockDepth w
  ∧ trace w' = trace w ++ match h with
                          | Some a => if a =? 0 then [] else [EvDeleteHandle a]
                          | None => []
                          end.
Proof.
  destruct h as [a|]; simpl; [|by rewrite app_nil_r].
  unfold delete_handle. destruct (a =? 0); simpl; by rewrite ?app_nil_r.
Qed.

(** The record at [p] leaves the list with its handles; exactly one
    [FreeProcessData] is logged, followed by the handles' destruction. *)
Lemma FreeProcessData_fields p w :
  let w' := FreeProcessData p w in
  globals w' = globals w ∧ Flags w' = Flags w ∧ vtIoMode w' = vtIoMode w
  ∧ ProcessHandleList w' = delete p (ProcessHandleList w)
  ∧ CommandHistories w' = CommandHistories w
  ∧ HandleHeap w' =
      match ProcessHandleList w !! p with
      | Some r => heap_without (pOutputHandle r)
                    (heap_without (pInputHandle r) (HandleHeap w))
      | None => HandleHeap w
      end
  ∧ lockDepth w' = lockDepth w
  ∧ ∃ dels, trace w' = trace w ++ EvFreeProcessData p :: dels
            ∧ forallb (λ e, match e with EvDeleteHandle _ => true | _ => false end) dels
              = true.
Proof.
  unfold FreeProcessData. cbv zeta. wsimpl.
  destruct (ProcessHandleList w !! p) as [r|] eqn:Hp.
  - set (w1 := log (EvFreeProcessData p) w).
    destruct (destroy_unique_fields (pInputHandle r) w1)
      as (G1 & F1 & V1 & P1 & C1 & H1 & L1 & T1).
    set (w2 := destroy_unique (pInputHandle r) w1) in *.
    destruct (destroy_unique_fields (pOutputHandle r) w2)
      as (G2 & F2 & V2 & P2 & C2 & H2 & L2 & T2).
    set (w3 := destroy_unique (pOutputHandle r) w2) in *.
    wsimpl. rewrite G2, G1, F2, F1, V2, V1, P2, P1, C2, C1, H2, H1, L2, L1.
    subst w1. wsimpl. repeat split; try done.
    eexists. rewrite T2, T1. wsimpl. rewrite <- !app_assoc.
    split; [reflexivity|].
    destruct (pInputHandle r) as [a|], (pOutputHandle r) as [b|]; simpl;
      repeat match goal with |- context [?x =? 0] => destruct (x =? 0) end; done.
  - wsimpl. rewrite delete_id by done. repeat split; try done.
    by exists [].
Qed.



(** ** The command-history step *)

Lemma forallb_negb_existsb (P : Event → bool) evs :
  forallb (λ e, negb (P e)) evs = true → existsb P evs = false.
Proof.
  induction evs as [|e evs IH]; [done|]. simpl. intros [He Hr]%andb_true_iff.
  rewrite (IH Hr). by destruct (P e).
Qed.

Lemma createHandles_first_event env p m w :
  ∃ rest,
    trace (createHandles env p m w).2 =
    trace w ++ EvAllocateIoHandle Input (Z.lor GENERIC_READ GENERIC_WRITE)
                 (Z.lor FILE_SHARE_READ FILE_SHARE_WRITE) (AllocateInputStatus env)
               :: rest.
Proof.
  unfold createHandles.
  set (RW := Z.lor GENERIC_READ GENERIC_WRITE).
  set (SH := Z.lor FILE_SHARE_READ FILE_SHARE_WRITE).
  assert (trace (AllocateIoHandle Input RW SH (AllocateInputStatus env) w).2
          = trace w ++ [EvAllocateIoHandle Input RW SH (AllocateInputStatus env)]) as Ht.
  { unfold AllocateIoHandle. by destruct (NT_SUCCESS _). }
  destruct (AllocateIoHandle Input RW SH (AllocateInputStatus env) w) as [h1 w1].
  cbn [snd] in Ht.
  assert (∀ w', extends_by (λ _, true) (update_process p (set_pInputHandle h1) w1) w' →
    ∃ rest, trace w' = trace w ++ EvAllocateIoHandle Input RW SH (AllocateInputStatus env)
                         :: rest) as K.
  { intros w' (evs & Hw' & _). exists evs. rewrite Hw'. wsimpl.
    by rewrite Ht, <- app_assoc. }
  destruct (negb (NT_SUCCESS (AllocateInputStatus env))).
  { apply K. by apply quiet_leave. }
  set (w2 := update_process p (set_pInputHandle h1) w1) in *.
  pose proof (quiet_AllocateIoHandle (λ _, true) Output RW SH
                (AllocateOutputStatus env) w2 eq_refl) as H2.
  destruct (AllocateIoHandle Output RW SH (AllocateOutputStatus env) w2) as [h2 w3].
  cbn [snd] in H2. apply K.
  eapply extends_by_trans; [apply H2|].
  eapply extends_by_trans; [apply (quiet_update_process (λ _, true) p (set_pOutputHandle h2))|].
  destruct (negb (NT_SUCCESS (AllocateOutputStatus env))).
  - by apply quiet_leave.
  - eapply extends_by_mono; [|apply quiet_completeConnection]. done.
Qed.

(** ** The first connection of a session *)

(** C4.  A connection request whose descriptor is accepted, arriving on a
    session that is not initialized, with handoff not attempted and every
    collaborator succeeding, is completed with [STATUS_SUCCESS]; it leaves
    the session initialized, adds exactly one process record, marked
    root, and creates exactly two handle objects, the record's input and
    output handles, both opened for reading and writing and shared for
    reading and writing. *)
Theorem first_connection_initializes_session env m w st cac :
  ConsoleInitializeConnectInfo env = (st, cac) →
  NT_SUCCESS st = true →
  (_shouldAttemptHandoff env (globals w) (Flags w) cac).2 = false →
  initialized w = false →
  NT_SUCCESS (AllocProcessDataStatus env) = true →
  NT_SUCCESS (ConsoleAllocateConsole env) = true →
  s_Allocate env ≠ HistoryThrows →
  NT_SUCCESS (AllocateInputStatus env) = true →
  NT_SUCCESS (AllocateOutputStatus env) = true →
  FAILED (CompleteIo env) = false →
  let p := new_address (ProcessHandleList w) in
  let input := (HostOwned, mkHandle Input (Z.lor GENERIC_READ GENERIC_WRITE)
                             (Z.lor FILE_SHARE_READ FILE_SHARE_WRITE)) in
  let output := (HostOwned, mkHandle Output (Z.lor GENERIC_READ GENERIC_WRITE)
                              (Z.lor FILE_SHARE_READ FILE_SHARE_WRITE)) in
  let hi := new_address (HandleHeap w) in
  let ho := new_address (<[hi := input]> (HandleHeap w)) in
  let '(c, m', w') := ConsoleHandleConnectionRequest env m w in
  c = ReplyDone
  ∧ ReplyStatus m' = STATUS_SUCCESS
  ∧ initialized w' = true
  ∧ ProcessHandleList w' =
      <[p := mkProcess (to_DWORD (Process (Descriptor m)))
               (to_DWORD (Object (Descriptor m))) (ProcessGroupId cac)
               true (Some hi) (Some ho)]> (ProcessHandleList w)
  ∧ size (ProcessHandleList w') = S (size (ProcessHandleList w))
  ∧ HandleHeap w' = <[ho := output]> (<[hi := input]> (HandleHeap w))
  ∧ size (HandleHeap w') = S (S (size (HandleHeap w)))
  ∧ lockDepth w' = lockDepth w.
Proof.
  intros Hci Hst Hd Hinit Hpd Hcac Hhist Hin Hout Hio p input output hi ho.
  unfold ConsoleHandleConnectionRequest. rewrite Hci. wsimpl.
  rewrite Hst, Hd. wsimpl.
  unfold localBringUp, AllocProcessData. rewrite Hpd. wsimpl.
  fold p.
  set (w4 := if LocateAccessibilityNotifier env then _ else _).
  assert (Flags w4 = Flags w ∧ HandleHeap w4 = HandleHeap w
          ∧ lockDepth w4 = lockDepth w + 1 ∧ vtIoMode w4 = vtIoMode w
          ∧ ProcessHandleList w4 =
              <[p := mkProcess (to_DWORD (Process (Descriptor m)))
                       (to_DWORD (Object (Descriptor m))) (ProcessGroupId cac)
                       (WI_IsFlagClear (Flags w) CONSOLE_INITIALIZED) None None]>
                (ProcessHandleList w)) as (F4 & H4 & L4 & V4 & P4).
  { subst w4. destruct (LocateAccessibilityNotifier env), (ConsoleApp cac);
      unfold update_process; wsimpl; rewrite alter_insert_eq; done. }
  clearbody w4.
  assert (WI_IsFlagClear (Flags w) CONSOLE_INITIALIZED = true) as Hclear.
  { rewrite WI_IsFlagClear_negb. unfold initialized in Hinit. by rewrite Hinit. }
  unfold initializeSession. rewrite F4, Hclear, Hcac. wsimpl.
  unfold associateHistory, HistoryAllocate, createHandles, AllocateIoHandle,
    completeConnection, leave, cleanup.
  rewrite Hin, Hout, Hio.
  destruct (new_address_fresh (ProcessHandleList w)) as [Hp _].
  destruct (new_address_fresh (HandleHeap w)) as [Hhi _].
  destruct (new_address_fresh (<[hi := input]> (HandleHeap w))) as [Hho _].
  fold p in Hp. fold hi in Hhi. fold ho in Hho.
  destruct (s_Allocate env); [| |done]; unfold initialized, update_process; wsimpl;
    rewrite ?H4, ?P4, ?L4, ?F4, ?Hclear; fold input; fold hi; fold output; fold ho;
    rewrite !alter_insert_eq;
    cbn [set_pInputHandle set_pOutputHandle dwProcessId dwThreadId
         ulProcessGroupId fRootProcess pInputHandle pOutputHandle];
    (repeat split;
     first [ done
           | apply WI_SetFlag_IsFlagSet; discriminate
           | by rewrite map_size_insert_None
           | by rewrite !map_size_insert_None
           | lia ]).
Qed.

(** ** Failure of the handoff attempt *)

Ltac resource_absent :=
  repeat (apply not_elem_of_cons; split; [discriminate|]); apply not_elem_of_nil.

Ltac resources_nodup :=
  repeat (apply NoDup_cons; split; [resource_absent|]); apply NoDup_nil_2.

(** A failure at any step up to and including the [EstablishHandoff] call
    is caught; the world the local bring-up starts from is the world the
    attempt started from, log apart, and every resource the attempt
    acquired has been released, once. *)
Lemma handoff_failure_before_transfer_restores s env m w :
  fails_at s env →
  ∃ w', attemptHandoff env m w = HandoffFellThrough w'
        ∧ state_of w' = state_of w
        ∧ NoDup (released (events_since w w'))
        ∧ released (events_since w w') ≡ₚ acquired (events_since w w').
Proof.
  unfold attemptHandoff, caught, unwind.
  destruct s; simpl; intros Hfail; destruct_and?;
    repeat match goal with E : _ = _ |- _ => rewrite E; clear E end;
    simpl; (eexists; split; [reflexivity|]); (split; [reflexivity|]);
    unfold events_since; simpl; rewrite <- ?app_assoc, drop_app_length; simpl;
    (split; [resources_nodup|]);
    solve_Permutation.
Qed.

(** A failure after the handler has accepted, when the relay thread does
    not start, is caught as well, but by then [Globals.hInputEvent] has
    been reset: the local bring-up starts without the input event. *)
Lemma handoff_failure_after_transfer_resets_input_event env m w :
  fails_after_transfer env →
  ∃ w', attemptHandoff env m w = HandoffFellThrough w'
        ∧ hInputEvent (globals w') = None
        ∧ NoDup (released (events_since w w'))
        ∧ (is_Some (hInputEvent (globals w)) → state_of w' ≠ state_of w).
Proof.
  unfold attemptHandoff, caught, unwind, reset_hInputEvent, fails_after_transfer.
  intros Hfail; destruct_and?.
  repeat match goal with E : _ = _ |- _ => rewrite E; clear E end.
  cbv zeta. simpl. eexists. split; [reflexivity|]. simpl. split; [done|].
  split.
  - unfold events_since.
    destruct (bool_decide (is_Some (hInputEvent (globals w)))); simpl;
      rewrite <- ?app_assoc, drop_app_length; simpl; resources_nodup.
  - intros [ev Hev] Heq. apply (f_equal (λ x, hInputEvent (globals x))) in Heq.
    revert Heq. destruct (bool_decide (is_Some (hInputEvent (globals w)))); simpl;
      rewrite Hev; discriminate.
Qed.

(** ** From the request to the reply *)

(** On a session that is not initialized, with handoff not attempted and
    every step before the reply succeeding, the connection routine
    arrives at lines 487-504 with the session initialized, the new record
    in the process list holding its two handles, and the lock held. *)
Lemma connection_reaches_reply env m w st cac :
  ConsoleInitializeConnectInfo env = (st, cac) →
  NT_SUCCESS st = true →
  (_shouldAttemptHandoff env (globals w) (Flags w) cac).2 = false →
  initialized w = false →
  NT_SUCCESS (AllocProcessDataStatus env) = true →
  NT_SUCCESS (ConsoleAllocateConsole env) = true →
  s_Allocate env ≠ HistoryThrows →
  NT_SUCCESS (AllocateInputStatus env) = true →
  NT_SUCCESS (AllocateOutputStatus env) = true →
  let p := new_address (ProcessHandleList w) in
  let input := (HostOwned, mkHandle Input (Z.lor GENERIC_READ GENERIC_WRITE)
                             (Z.lor FILE_SHARE_READ FILE_SHARE_WRITE)) in
  let output := (HostOwned, mkHandle Output (Z.lor GENERIC_READ GENERIC_WRITE)
                              (Z.lor FILE_SHARE_READ FILE_SHARE_WRITE)) in
  let hi := new_address (HandleHeap w) in
  let ho := new_address (<[hi := input]> (HandleHeap w)) in
  ∃ w5,
    ConsoleHandleConnectionRequest env m w =
      completeConnection env p (AllocateOutputStatus env) m w5
    ∧ Flags w5 = WI_SetFlag (Flags w) CONSOLE_INITIALIZED
    ∧ ProcessHandleList w5 =
        <[p := mkProcess (to_DWORD (Process (Descriptor m)))
                 (to_DWORD (Object (Descriptor m))) (ProcessGroupId cac)
                 true (Some hi) (Some ho)]> (ProcessHandleList w)
    ∧ HandleHeap w5 = <[ho := output]> (<[hi := input]> (HandleHeap w))
    ∧ delete p (CommandHistories w5) = delete p (CommandHistories w)
    ∧ lockDepth w5 = lockDepth w + 1.
Proof.
  intros Hci Hst Hd Hinit Hpd Hcac Hhist Hin Hout p input output hi ho.
  unfold ConsoleHandleConnectionRequest. rewrite Hci. wsimpl.
  rewrite Hst, Hd. wsimpl.
  unfold localBringUp, AllocProcessData. rewrite Hpd. wsimpl.
  fold p.
  set (w4 := if LocateAccessibilityNotifier env then _ else _).
  assert (Flags w4 = Flags w ∧ HandleHeap w4 = HandleHeap w
          ∧ lockDepth w4 = lockDepth w + 1 ∧ CommandHistories w4 = CommandHistories w
          ∧ ProcessHandleList w4 =
              <[p := mkProcess (to_DWORD (Process (Descriptor m)))
                       (to_DWORD (Object (Descriptor m))) (ProcessGroupId cac)
                       (WI_IsFlagClear (Flags w) CONSOLE_INITIALIZED) None None]>
                (ProcessHandleList w)) as (F4 & H4 & L4 & C4 & P4).
  { subst w4. destruct (LocateAccessibilityNotifier env), (ConsoleApp cac);
      unfold update_process; wsimpl; rewrite alter_insert_eq; done. }
  clearbody w4.
  assert (WI_IsFlagClear (Flags w) CONSOLE_INITIALIZED = true) as Hclear.
  { rewrite WI_IsFlagClear_negb. unfold initialized in Hinit. by rewrite Hinit. }
  unfold initializeSession. rewrite F4, Hclear, Hcac. wsimpl.
  unfold associateHistory, HistoryAllocate, createHandles, AllocateIoHandle.
  rewrite Hin, Hout.
  destruct (s_Allocate env); [| |done]; wsimpl;
    (eexists; split; [reflexivity|]); unfold update_process; wsimpl;
    rewrite ?H4, ?P4, ?L4, ?F4, ?C4, ?Hclear; fold input; fold hi; fold output;
    fold ho; rewrite !alter_insert_eq;
    cbn [set_pInputHandle set_pOutputHandle dwProcessId dwThreadId
         ulProcessGroupId fRootProcess pInputHandle pOutputHandle];
    (repeat split; first [ done | by rewrite delete_insert_eq ]).
Qed.

(** The rollback seen from the request: under the conditions above, a
    rejected completion leaves the process list and the handle heap as
    they were before the request and no history slot for the record,
    while the session stays initialized. *)
Lemma failed_delivery_undoes_connection env m w st cac :
  ConsoleInitializeConnectInfo env = (st, cac) →
  NT_SUCCESS st = true →
  (_shouldAttemptHandoff env (globals w) (Flags w) cac).2 = false →
  initialized w = false →
  NT_SUCCESS (AllocProcessDataStatus env) = true →
  NT_SUCCESS (ConsoleAllocateConsole env) = true →
  s_Allocate env ≠ HistoryThrows →
  NT_SUCCESS (AllocateInputStatus env) = true →
  NT_SUCCESS (AllocateOutputStatus env) = true →
  FAILED (CompleteIo env) = true →
  let '(c, m', w') := ConsoleHandleConnectionRequest env m w in
  c = ReplyDone
  ∧ initialized w' = true
  ∧ ProcessHandleList w' = ProcessHandleList w
  ∧ CommandHistories w' =
      delete (new_address (ProcessHandleList w)) (CommandHistories w)
  ∧ HandleHeap w' = HandleHeap w
  ∧ lockDepth w' = lockDepth w.
Proof.
  intros Hci Hst Hd Hinit Hpd Hcac Hhist Hin Hout Hio.
  destruct (connection_reaches_reply env m w st cac Hci Hst Hd Hinit Hpd Hcac
              Hhist Hin Hout) as (w5 & -> & F5 & P5 & H5 & C5 & L5).
  set (p := new_address (ProcessHandleList w)) in *.
  set (input := (HostOwned, mkHandle Input (Z.lor GENERIC_READ GENERIC_WRITE)
                              (Z.lor FILE_SHARE_READ FILE_SHARE_WRITE))) in *.
  set (hi := new_address (HandleHeap w)) in *.
  set (ho := new_address (<[hi := input]> (HandleHeap w))) in *.
  destruct (new_address_fresh (ProcessHandleList w)) as [Hp _].
  destruct (new_address_fresh (HandleHeap w)) as [Hhi Hhi0].
  destruct (new_address_fresh (<[hi := input]> (HandleHeap w))) as [Hho Hho0].
  fold p in Hp. fold hi in Hhi, Hhi0. fold ho in Hho, Hho0.
  assert (hi ≠ ho) as Hne.
  { intros E. rewrite <- E, lookup_insert_eq in Hho. discriminate. }
  assert (HandleHeap w !! ho = None) as Hho'.
  { by rewrite lookup_insert_ne in Hho. }
  unfold completeConnection, leave, cleanup. rewrite Hio, Hout. cbn [negb].
  set (w6 := s_Free p (log (EvCompleteIo (CompleteIo env)) w5)).
  destruct (FreeProcessData_fields p w6) as (G & F & V & P & C & H & L & _).
  assert (ProcessHandleList w6 = ProcessHandleList w5
          ∧ HandleHeap w6 = HandleHeap w5
          ∧ CommandHistories w6 = delete p (CommandHistories w5)
          ∧ Flags w6 = Flags w5 ∧ lockDepth w6 = lockDepth w5)
    as (P6 & H6 & C6 & F6 & L6) by done.
  clearbody w6.
  rewrite P6, H6, P5, H5, lookup_insert_eq in H.
  cbn [pInputHandle pOutputHandle heap_without] in H.
  rewrite (proj2 (Z.eqb_neq _ _) Hhi0), (proj2 (Z.eqb_neq _ _) Hho0) in H.
  rewrite (delete_insert_ne _ hi ho) in H by done.
  rewrite !delete_insert_eq, (delete_id _ hi), (delete_id _ ho) in H by done.
  rewrite P6, P5, delete_insert_eq, delete_id in P by done.
  unfold initialized. wsimpl. rewrite F, P, C, H, L, F6, F5, C6, C5, L6, L5.
  repeat split; first [ done | apply WI_SetFlag_IsFlagSet; discriminate | lia ].
Qed.

(** ** Examples *)

(** The handler refuses the handoff: the attempt is undone and the
    request is served locally, with the input event still in place. *)
Example handler_refusal_falls_back :
  fails_at StepEstablishHandoff handlerRefusesEnv
  ∧ (∃ w1, attemptHandoff handlerRefusesEnv connectMsg decisionWorld
           = HandoffFellThrough w1
           ∧ state_of w1 = state_of decisionWorld)
  ∧ state_of (ConsoleHandleConnectionRequest handlerRefusesEnv connectMsg freshWorld).2
    = state_of (ConsoleHandleConnectionRequest localEnv connectMsg freshWorld).2.
Proof.
  assert (fails_at StepEstablishHandoff handlerRefusesEnv) as Hf
    by (repeat split; reflexivity).
  split; [exact Hf|]. split.
  - destruct (handoff_failure_before_transfer_restores StepEstablishHandoff
                handlerRefusesEnv connectMsg decisionWorld Hf) as (w1 & H1 & H2 & _).
    by exists w1.
  - vm_compute. reflexivity.
Qed.

(** Two clients connect one after the other: the session is initialized
    once, by the first. *)
Example two_connections_initialize_once :
  initializations
    [(ConnectionRequest, localEnv, connectMsg);
     (ConnectionRequest, localEnv, connectMsg)] freshWorld = 1%nat
  ∧ initializer_runs
      (trace (serve [(ConnectionRequest, localEnv, connectMsg);
                     (ConnectionRequest, localEnv, connectMsg)] freshWorld))
    = [STATUS_SUCCESS].
Proof. split; vm_compute; reflexivity. Qed.

(** Beyond the steps of the handoff protocol proper: the handler accepts
    the first connection of the fresh session and the relay thread then
    fails to start.  This failure is swallowed as well and the local
    bring-up completes the request, but by then the input event has been
    given away: the session goes on without it. *)
Example relay_failure_after_acceptance :
  fails_after_transfer relayFailsEnv
  ∧ (_shouldAttemptHandoff relayFailsEnv (globals freshWorld) (Flags freshWorld)
       cmdCac).2 = true
  ∧ hInputEvent (globals decisionWorld) = Some 0x1A4
  ∧ (∃ w1, attemptHandoff relayFailsEnv connectMsg decisionWorld = HandoffFellThrough w1
           ∧ hInputEvent (globals w1) = None
           ∧ state_of w1 ≠ state_of decisionWorld
           ∧ NoDup (released (events_since decisionWorld w1)))
  ∧ (let '(c, m', w') :=
       ConsoleHandleConnectionRequest relayFailsEnv connectMsg freshWorld in
     c = ReplyDone ∧ ReplyStatus m' = STATUS_SUCCESS
     ∧ hInputEvent (globals w') = None)
  ∧ hInputEvent
      (globals (ConsoleHandleConnectionRequest localEnv connectMsg freshWorld).2)
    = Some 0x1A4.
Proof.
  assert (fails_after_transfer relayFailsEnv) as Hf by (repeat split; reflexivity).
  split; [exact Hf|]. split; [reflexivity|]. split; [reflexivity|]. split.
  - destruct (handoff_failure_after_transfer_resets_input_event relayFailsEnv
                connectMsg decisionWorld Hf) as (w1 & H1 & H2 & H3 & H4).
    exists w1. repeat split; try done. apply H4. by eexists.
  - split; [vm_compute; done | vm_compute; reflexivity].
Qed.

(** Closing the null token replies success and leaves the session as it
    was; closing a token that was never handed out is undefined. *)
Example close_of_null_and_unknown_tokens :
  ConsoleCloseObject (closeMsg 0) connectedWorld
  = (ReplyInline, SetReplyStatus STATUS_SUCCESS (closeMsg 0),
     UnlockConsole (LockConsole connectedWorld))
  ∧ (ConsoleCloseObject (closeMsg 0xDEAD) connectedWorld).1.1 = Undefined.
Proof. split; reflexivity. Qed.

(** The disconnect of the connected client, which is the last one: the
    teardown empties the process list, the history and the handle heap
    and decides to close the session, all under its own lock. *)
Example disconnect_of_connected_client :
  let w' := (ConsoleClientDisconnectRoutine localEnv (disconnectMsg connectedProcess)
               connectedWorld).2 in
  ProcessHandleList w' = ∅ ∧ CommandHistories w' = ∅ ∧ HandleHeap w' = ∅
  ∧ events_since connectedWorld w' =
      [EvLogApiCall FreeConsole; EvNotifyConsoleEndApplication 100;
       EvTraceAttachDetach connectedProcess false; EvLockConsole;
       EvRemoveConsole connectedProcess S_OK; EvCloseSession; EvUnlockConsole].
Proof. split; [|split; [|split]]; vm_compute; reflexivity. Qed.

(** A connection for which no history slot is free completes like any
    other. *)
Example connection_without_history_slot :
  let res := ConsoleHandleConnectionRequest historyNoSlotEnv connectMsg freshWorld in
  res.1.1 = ReplyDone ∧ ReplyStatus res.1.2 = STATUS_SUCCESS
  ∧ size (HandleHeap res.2) = 2%nat ∧ CommandHistories res.2 = ∅.
Proof. split; [|split; [|split]]; vm_compute; reflexivity. Qed.

(** ** The statements at concrete inputs *)

(** C4 on the spec's example: process 100, thread 7, "cmd.exe", on the
    fresh session with handoff compiled out. *)
Lemma first_connection_initializes_session_witness :
  initialized freshWorld = false
  ∧ (let '(c, m', w') := ConsoleHandleConnectionRequest localEnv connectMsg freshWorld in
     c = ReplyDone
     ∧ ReplyStatus m' = STATUS_SUCCESS
     ∧ initialized w' = true
     ∧ ProcessHandleList w' =
         <[new_address (ProcessHandleList freshWorld) :=
             mkProcess 100 7 100 true
               (Some (new_address (HandleHeap freshWorld)))
               (Some (new_address
                        (<[new_address (HandleHeap freshWorld) :=
                             (HostOwned,
                              mkHandle Input (Z.lor GENERIC_READ GENERIC_WRITE)
                                (Z.lor FILE_SHARE_READ FILE_SHARE_WRITE))]>
                           (HandleHeap freshWorld))))]>
           (ProcessHandleList freshWorld)
     ∧ size (ProcessHandleList w') = S (size (ProcessHandleList freshWorld))
     ∧ HandleHeap w' =
         <[new_address
             (<[new_address (HandleHeap freshWorld) :=
                  (HostOwned,
                   mkHandle Input (Z.lor GENERIC_READ GENERIC_WRITE)
                     (Z.lor FILE_SHARE_READ FILE_SHARE_WRITE))]>
                (HandleHeap freshWorld)) :=
             (HostOwned,
              mkHandle Output (Z.lor GENERIC_READ GENERIC_WRITE)
                (Z.lor FILE_SHARE_READ FILE_SHARE_WRITE))]>
           (<[new_address (HandleHeap freshWorld) :=
                (HostOwned,
                 mkHandle Input (Z.lor GENERIC_READ GENERIC_WRITE)
                   (Z.lor FILE_SHARE_READ FILE_SHARE_WRITE))]>
              (HandleHeap freshWorld))
     ∧ size (HandleHeap w') = S (S (size (HandleHeap freshWorld)))
     ∧ lockDepth w' = lockDepth freshWorld).
Proof.
  split; [reflexivity|].
  apply (first_connection_initializes_session localEnv connectMsg freshWorld
           STATUS_SUCCESS cmdCac);
    first [reflexivity | discriminate].
Defined.

(** C6 on a generic request for read access. *)
Lemma generic_create_resolution_witness :
  ObjectType (CreateObject (genericCreate GENERIC_READ)) = CD_IO_OBJECT_TYPE_GENERIC
  ∧ resolveObjectType (CreateObject (genericCreate GENERIC_READ))
    = CD_IO_OBJECT_TYPE_CURRENT_INPUT.
Proof.
  split; [reflexivity|].
  apply (proj1 (generic_create_resolution localEnv (genericCreate GENERIC_READ)
                  freshWorld eq_refl)).
  reflexivity.
Defined.

(** C7 on a headless server: the decision is false although every other
    condition would let the handoff go ahead. *)
Lemma handoff_decision_blocked_witness :
  blocking ChkHeadless relayFailsEnv
    (mkGlobals (mkArgs false false true) (Some 0x2EACA947) false (Some 0x1A4))
    0 cmdCac = true
  ∧ (_shouldAttemptHandoff relayFailsEnv
       (mkGlobals (mkArgs false false true) (Some 0x2EACA947) false (Some 0x1A4))
       0 cmdCac).2 = false.
Proof.
  split; [reflexivity|].
  apply (proj1 (handoff_decision_blocked_by_any_condition relayFailsEnv
                  (mkGlobals (mkArgs false false true) (Some 0x2EACA947) false
                     (Some 0x1A4))
                  0 cmdCac) ChkHeadless).
  reflexivity.
Defined.

(** C8 on a read request whose completion the driver rejects. *)
Lemma created_handle_ownership_witness :
  SUCCEEDED (CompleteIo deliveryFailsEnv) = false
  ∧ HandleHeap
      (ConsoleCreateObject deliveryFailsEnv (genericCreate GENERIC_READ) freshWorld).2
    = HandleHeap freshWorld.
Proof.
  split; [reflexivity|].
  apply (created_handle_ownership deliveryFailsEnv (genericCreate GENERIC_READ)
           freshWorld (new_address (HandleHeap freshWorld)) eq_refl).
  reflexivity.
Defined.


(** * Further properties *)

(** ** The interactive-session probe *)

(** X1.  [_isInteractiveUserSession] answers false in exactly two
    situations: the process is known to run in session 0, or its window
    station exists, its flags can be read and the visible flag is clear.
    Whenever a lookup fails the session is taken to be interactive. *)
Theorem interactive_session_characterized os :
  _isInteractiveUserSession os = false ↔
    (ProcessIdToSessionId os = true ∧ sessionId os = 0)
    ∨ (GetProcessWindowStation os ≠ 0
       ∧ GetUserObjectInformationW os = true
       ∧ Z.land (dwFlags os) WSF_VISIBLE = 0).
Proof.
  unfold _isInteractiveUserSession, WI_IsFlagSet.
  destruct (ProcessIdToSessionId os); cbn [andb];
    destruct (Z.eqb_spec (sessionId os) 0);
    destruct (Z.eqb_spec (GetProcessWindowStation os) 0); cbn [negb];
    destruct (GetUserObjectInformationW os);
    destruct (Z.eqb_spec (Z.land (dwFlags os) WSF_VISIBLE) 0); cbn [negb];
    split; intros H; try done; try (by left); try (by right);
    destruct H as [[? ?]|(? & ? & ?)]; done.
Qed.

(** ** The handoff decision, accepted *)

(** X2.  [_shouldAttemptHandoff] answers true exactly when handoff is
    compiled in and none of the ten conditions blocks, and it has then
    evaluated all ten, in order. *)
Theorem handoff_attempted_exactly_when_unblocked env g gciFlags cac :
  ((_shouldAttemptHandoff env g gciFlags cac).2 = true ↔
     TIL_FEATURE_ATTEMPTHANDOFF_ENABLED env = true
     ∧ ∀ c, blocking c env g gciFlags cac = false)
  ∧ ((_shouldAttemptHandoff env g gciFlags cac).2 = true →
     (_shouldAttemptHandoff env g gciFlags cac).1 = check_order).
Proof.
  assert ((_shouldAttemptHandoff env g gciFlags cac).2 = true ↔
          TIL_FEATURE_ATTEMPTHANDOFF_ENABLED env = true
          ∧ ∀ c, blocking c env g gciFlags cac = false) as Hiff.
  { rewrite shouldAttemptHandoff_answer, andb_true_iff, forallb_forall.
    split; intros [Hon Hall]; (split; [done|]).
    - intros c. apply negb_true_iff, Hall, list_elem_of_In, check_order_complete.
    - intros c _. by rewrite Hall. }
  split; [exact Hiff|].
  intros [Hon Hall]%Hiff.
  unfold _shouldAttemptHandoff. rewrite Hon. cbn [negb].
  rewrite !guard_fst.
  pose proof (Hall ChkInteractiveSession) as H1.
  pose proof (Hall ChkForceNoHandoff) as H2.
  pose proof (Hall ChkCreateServerHandle) as H3.
  pose proof (Hall ChkConsoleInitialized) as H4.
  pose proof (Hall ChkConsoleApp) as H5.
  pose proof (Hall ChkHeadless) as H6.
  pose proof (Hall ChkHandoffClsid) as H7.
  pose proof (Hall ChkHandoffTarget) as H8.
  pose proof (Hall ChkDeservesVisibleWindow) as H9.
  pose proof (Hall ChkShowWindow) as H10.
  cbn [blocking] in *.
  rewrite H1, H2, H3, H4, H5, H6, H7, H8, H9, H10. reflexivity.
Qed.

(** X3.  The [ShowWindow] value of the connecting process matters only
    through the hide-or-minimize test, and only when its startup flags
    carry [STARTF_USESHOWWINDOW]: without the flag every value gives the
    same decision, and with it any two values that are both, or neither,
    among the five hide and minimize commands give the same decision. *)
Theorem show_window_hint_needs_flag env g gciFlags cac sw :
  (WI_IsFlagSet (StartupFlags cac) STARTF_USESHOWWINDOW = false →
     _shouldAttemptHandoff env g gciFlags (set_ShowWindow sw cac)
     = _shouldAttemptHandoff env g gciFlags cac)
  ∧ (hides_or_minimizes sw = hides_or_minimizes (ShowWindow cac) →
     _shouldAttemptHandoff env g gciFlags (set_ShowWindow sw cac)
     = _shouldAttemptHandoff env g gciFlags cac)
  ∧ (sw ∉ [SW_HIDE; SW_SHOWMINIMIZED; SW_MINIMIZE; SW_SHOWMINNOACTIVE;
           SW_FORCEMINIMIZE] →
     blocking ChkShowWindow env g gciFlags (set_ShowWindow sw cac) = false).
Proof.
  unfold _shouldAttemptHandoff. cbn [set_ShowWindow ConsoleApp StartupFlags ShowWindow].
  split; [|split].
  - intros ->. reflexivity.
  - intros ->. reflexivity.
  - intros Hsw. cbn [blocking set_ShowWindow StartupFlags ShowWindow].
    apply andb_false_iff. right. unfold hides_or_minimizes.
    rewrite !not_elem_of_cons in Hsw. destruct Hsw as (? & ? & ? & ? & ? & _).
    repeat (apply orb_false_iff; split); by apply Z.eqb_neq.
Qed.

(** ** CreateObject: rejection, failure and success *)

Lemma resolveObjectType_explicit ci :
  ObjectType ci ≠ CD_IO_OBJECT_TYPE_GENERIC → resolveObjectType ci = ObjectType ci.
Proof.
  intros H. unfold resolveObjectType.
  by destruct (Z.eqb_spec (ObjectType ci) CD_IO_OBJECT_TYPE_GENERIC).
Qed.

(** X4.  A create request whose object type is none of the four known
    ones is answered [STATUS_INVALID_PARAMETER] inline; the routine has
    taken and released the lock and done nothing else. *)
Theorem unknown_object_type_rejected env m w :
  ObjectType (CreateObject m) ≠ CD_IO_OBJECT_TYPE_CURRENT_INPUT →
  ObjectType (CreateObject m) ≠ CD_IO_OBJECT_TYPE_CURRENT_OUTPUT →
  ObjectType (CreateObject m) ≠ CD_IO_OBJECT_TYPE_NEW_OUTPUT →
  ObjectType (CreateObject m) ≠ CD_IO_OBJECT_TYPE_GENERIC →
  let '(c, m', w') := ConsoleCreateObject env m w in
  c = ReplyInline
  ∧ ReplyStatus m' = STATUS_INVALID_PARAMETER
  ∧ ObjectType (CreateObject m') = ObjectType (CreateObject m)
  ∧ events_since w w' = [EvLockConsole; EvUnlockConsole]
  ∧ state_of w' = state_of w.
Proof.
  intros Hi Ho Hn Hg. unfold ConsoleCreateObject, allocateByType.
  rewrite (resolveObjectType_explicit _ Hg).
  cbn [CreateObject SetObjectType ObjectType].
  destruct (Z.eqb_spec (ObjectType (CreateObject m)) CD_IO_OBJECT_TYPE_CURRENT_INPUT);
    [done|].
  destruct (Z.eqb_spec (ObjectType (CreateObject m)) CD_IO_OBJECT_TYPE_CURRENT_OUTPUT);
    [done|].
  destruct (Z.eqb_spec (ObjectType (CreateObject m)) CD_IO_OBJECT_TYPE_NEW_OUTPUT);
    [done|].
  cbn. split; [done|]. split; [done|]. split; [done|]. split.
  - unfold events_since. cbn. by rewrite <- app_assoc, drop_app_length.
  - apply state_of_ext; cbn; try done. lia.
Qed.

(** The events of the allocation step: none for an unknown type, one call
    of the allocator otherwise. *)
Lemma allocateByType_events env ci w :
  let '(Status, handle, w1) := allocateByType env ci w in
  lockDepth w1 = lockDepth w
  ∧ ((trace w1 = trace w ∧ handle = None)
     ∨ ∃ e, trace w1 = trace w ++ [e]
            ∧ match e with
              | EvAllocateIoHandle _ _ _ s | EvCreateScreenBuffer s => s = Status
              | _ => False
              end).
Proof.
  unfold allocateByType, AllocateIoHandle, CreateScreenBuffer.
  destruct (ObjectType ci =? CD_IO_OBJECT_TYPE_CURRENT_INPUT).
  { destruct (NT_SUCCESS (AllocateInputStatus env)); cbn;
      (split; [done|]); right; by eexists (EvAllocateIoHandle _ _ _ _). }
  destruct (ObjectType ci =? CD_IO_OBJECT_TYPE_CURRENT_OUTPUT).
  { destruct (NT_SUCCESS (AllocateOutputStatus env)); cbn;
      (split; [done|]); right; by eexists (EvAllocateIoHandle _ _ _ _). }
  destruct (ObjectType ci =? CD_IO_OBJECT_TYPE_NEW_OUTPUT).
  { destruct (NT_SUCCESS (ConsoleCreateScreenBuffer env)); cbn;
      (split; [done|]); right; by eexists (EvCreateScreenBuffer _). }
  split; [done|]. by left.
Qed.

(** X5.  When the allocation of the handle fails, [ConsoleCreateObject]
    replies inline with the allocator's status; no handle exists
    afterwards that did not exist before, nothing is published to the
    driver and no completion is attempted. *)
Theorem create_allocation_failure_propagated env m w :
  let ci := CreateObject (SetObjectType (resolveObjectType (CreateObject m)) m) in
  NT_SUCCESS (allocateByType env ci (LockConsole w)).1.1 = false →
  let '(c, m', w') := ConsoleCreateObject env m w in
  c = ReplyInline
  ∧ ReplyStatus m' = (allocateByType env ci (LockConsole w)).1.1
  ∧ HandleHeap w' = HandleHeap w
  ∧ lockDepth w' = lockDepth w
  ∧ existsb is_put_handle (events_since w w') = false
  ∧ existsb is_delivery (events_since w w') = false.
Proof.
  intros ci. unfold ConsoleCreateObject. fold ci.
  pose proof (allocateByType_spec env ci (LockConsole w)) as Hs.
  pose proof (allocateByType_events env ci (LockConsole w)) as He.
  destruct (allocateByType env ci (LockConsole w)) as [[Status h] w1].
  cbn [fst snd]. intros Hfail. rewrite Hfail. cbn [negb].
  destruct h as [h|]; [destruct Hs as (Hok & _); congruence|].
  destruct Hs as (_ & Hheap). destruct He as (Hl & He).
  cbn. split; [done|]. split; [done|]. split; [done|].
  split; [cbn in Hl; lia|].
  assert (∃ evs, trace w1 = trace w ++ EvLockConsole :: evs
                 ∧ existsb is_put_handle evs = false
                 ∧ existsb is_delivery evs = false) as (evs & Ht & Hp & Hd).
  { destruct He as [(Ht & _)|(e & Ht & Hk)].
    - exists []. by rewrite Ht.
    - exists [e]. rewrite Ht. cbn. rewrite <- app_assoc.
      split; [done|]. by destruct e. }
  unfold events_since. cbn. rewrite Ht, <- app_assoc, drop_app_length. cbn.
  rewrite !existsb_app, Hp, Hd. done.
Qed.

(** X6.  When the allocation succeeds, [ConsoleCreateObject] completes
    the request through the driver with [STATUS_SUCCESS] and the address
    of the new handle as reply information; a request resolved to the
    current input, respectively output, yields a handle of that kind with
    the access and share mode of the request.  The handle is published to
    the driver before the completion is attempted, and once delivered it
    is the one new object of the heap, owned by the driver. *)
Theorem create_success_publishes_handle env m w kind status :
  (resolveObjectType (CreateObject m), kind, status)
    ∈ [(CD_IO_OBJECT_TYPE_CURRENT_INPUT, Input, AllocateInputStatus env);
       (CD_IO_OBJECT_TYPE_CURRENT_OUTPUT, Output, AllocateOutputStatus env)] →
  NT_SUCCESS status = true →
  let ci := CreateObject m in
  let h := new_address (HandleHeap w) in
  let '(c, m', w') := ConsoleCreateObject env m w in
  c = ReplyDone
  ∧ ReplyStatus m' = STATUS_SUCCESS
  ∧ ReplyInformation m' = h
  ∧ HandleHeap w !! h = None
  ∧ (SUCCEEDED (CompleteIo env) = true →
     HandleHeap w' =
       <[h := (DriverOwned, mkHandle kind (DesiredAccess ci) (ShareMode ci))]>
         (HandleHeap w)
     ∧ size (HandleHeap w') = S (size (HandleHeap w))
     ∧ events_since w w' =
         [EvLockConsole;
          EvAllocateIoHandle kind (DesiredAccess ci) (ShareMode ci) status;
          EvPutHandle h; EvCompleteIo (CompleteIo env); EvUnlockConsole]).
Proof.
  intros Hcase Hok ci h.
  assert ((resolveObjectType ci = CD_IO_OBJECT_TYPE_CURRENT_INPUT
           ∧ kind = Input ∧ status = AllocateInputStatus env)
          ∨ (resolveObjectType ci = CD_IO_OBJECT_TYPE_CURRENT_OUTPUT
             ∧ kind = Output ∧ status = AllocateOutputStatus env)) as Hc.
  { apply elem_of_cons in Hcase as [Heq|Hcase]; [left; by injection Heq|].
    apply elem_of_cons in Hcase as [Heq|Hcase]; [right; by injection Heq|].
    by apply elem_of_nil in Hcase. }
  clear Hcase.
  destruct (new_address_fresh (HandleHeap w)) as [Hfresh Hnz]. fold h in Hfresh, Hnz.
  unfold ConsoleCreateObject, allocateByType, AllocateIoHandle. fold ci.
  destruct Hc as [(-> & -> & ->)|(-> & -> & ->)];
    cbn; rewrite Hok; cbn; rewrite Hok; cbn; fold ci; fold h;
    (destruct (SUCCEEDED (CompleteIo env)); cbn;
     (split; [done|]); (split; [done|]); (split; [done|]); (split; [done|]);
     intros Hdel; [|done];
     rewrite alter_insert_eq; split; [done|];
     split; [by rewrite map_size_insert_None|];
     unfold events_since; cbn; by rewrite <- !app_assoc, drop_app_length).
Qed.

(** X7.  A handle created and delivered by [ConsoleCreateObject] and then
    closed by [ConsoleCloseObject] under the token the reply carried is
    gone: the heap is what it was before the two requests, and the lock
    is free again. *)
Theorem create_then_close_restores_heap env m w h mc :
  (allocateByType env
     (CreateObject (SetObjectType (resolveObjectType (CreateObject m)) m))
     (LockConsole w)).1.2 = Some h →
  SUCCEEDED (CompleteIo env) = true →
  objectHandle mc = ReplyInformation (ConsoleCreateObject env m w).1.2 →
  let w1 := (ConsoleCreateObject env m w).2 in
  let '(c, mc', w2) := ConsoleCloseObject mc w1 in
  is_Some (HandleHeap w1 !! h)
  ∧ ReplyStatus mc' = STATUS_SUCCESS
  ∧ HandleHeap w2 = HandleHeap w
  ∧ lockDepth w2 = lockDepth w.
Proof.
  unfold ConsoleCreateObject.
  set (m1 := SetObjectType _ m).
  pose proof (allocateByType_spec env (CreateObject m1) (LockConsole w)) as Hs.
  destruct (allocateByType env (CreateObject m1) (LockConsole w)) as [[Status h'] w1].
  cbn [fst snd]. intros -> Hdel.
  destruct Hs as (Hok & -> & e & d & -> & He). rewrite Hok, Hdel. cbn.
  destruct (new_address_fresh (HandleHeap w)) as [Hfresh Hnz].
  intros Htok. unfold ConsoleCloseObject, delete_pointer, delete_handle.
  rewrite Htok, (proj2 (Z.eqb_neq _ _) Hnz). cbn.
  rewrite alter_insert_eq, lookup_insert_eq.
  rewrite bool_decide_eq_true_2 by (by eexists). cbn.
  rewrite delete_insert_eq, delete_id by done.
  repeat split; [by eexists | lia].
Qed.

(** ** The lock is held from the first shared access to the last *)

Lemma under_lock_lock_free held evs :
  0 < held → forallb lock_free evs = true → under_lock held evs = true.
Proof.
  intros Hh. induction evs as [|e evs IH]; [done|]. cbn [forallb under_lock].
  intros (He & Hr)%andb_true_iff. unfold lock_free in He.
  apply negb_true_iff, orb_false_iff in He as [-> ->].
  rewrite IH by done. rewrite (proj2 (Z.ltb_lt _ _) Hh). by rewrite orb_true_r.
Qed.

Lemma under_lock_app held evs rest :
  0 < held → forallb lock_free evs = true →
  under_lock held (evs ++ rest) = under_lock held rest.
Proof.
  intros Hh. induction evs as [|e evs IH]; [done|]. cbn [forallb under_lock app].
  intros (He & Hr)%andb_true_iff. unfold lock_free in He.
  apply negb_true_iff, orb_false_iff in He as [-> ->].
  rewrite IH by done. rewrite (proj2 (Z.ltb_lt _ _) Hh). by rewrite orb_true_r.
Qed.

Lemma count_lock_free (P : Event → bool) evs :
  (∀ e, P e = true → lock_free e = false) →
  forallb lock_free evs = true → length (filter (λ e, P e = true) evs) = 0%nat.
Proof.
  intros HP. induction evs as [|e evs IH]; [done|]. cbn [forallb].
  intros (He & Hr)%andb_true_iff. rewrite filter_cons.
  destruct (decide (P e = true)) as [Hp|Hp]; [|by apply IH].
  apply HP in Hp. congruence.
Qed.

Lemma unlocks_last_then A d w w1 w2 :
  quiet A d w w1 → unlocks_last A w1 w2 → unlocks_last A w w2.
Proof.
  intros ((e1 & H1 & A1) & _) (e2 & H2 & A2).
  exists (e1 ++ e2). rewrite H2, H1, <- !app_assoc. split; [done|].
  by rewrite forallb_app, A1, A2.
Qed.

Lemma unlocks_last_mono (A B : Event → bool) w w' :
  (∀ e, A e = true → B e = true) → unlocks_last A w w' → unlocks_last B w w'.
Proof.
  intros HAB (evs & Ht & Ha). exists evs. split; [done|].
  by eapply forallb_mono.
Qed.

Lemma after_start_lock_free e : after_start e = true → lock_free e = true.
Proof. by intros [? _]%andb_true_iff. Qed.

Lemma unlocks_last_UnlockConsole A w : unlocks_last A w (UnlockConsole w).
Proof. by exists []. Qed.

Lemma unlocks_last_leave c Status ProcessData m w :
  unlocks_last after_start w (leave c Status ProcessData m w).2.
Proof.
  unfold leave, cleanup.
  destruct (negb (NT_SUCCESS Status)); [destruct ProcessData as [p|]|]; simpl;
    try apply unlocks_last_UnlockConsole.
  eapply unlocks_last_then; [|apply unlocks_last_UnlockConsole].
  eapply quiet_then; [apply quiet_s_Free | apply quiet_FreeProcessData]; alphabet.
Qed.

Lemma unlocks_last_completeConnection env p Status m w :
  unlocks_last after_start w (completeConnection env p Status m w).2.
Proof.
  unfold completeConnection.
  eapply unlocks_last_then; [|apply unlocks_last_leave].
  eapply quiet_then; [|apply quiet_log; alphabet].
  eapply quiet_then; [apply (quiet_log _ (EvCompleteIo (CompleteIo env))); alphabet|].
  destruct (FAILED (CompleteIo env)); [|apply quiet_refl].
  eapply quiet_then; [apply quiet_s_Free | apply quiet_FreeProcessData]; alphabet.
Qed.

Lemma unlocks_last_createHandles env p m w :
  unlocks_last after_start w (createHandles env p m w).2.
Proof.
  unfold createHandles.
  pose proof (quiet_AllocateIoHandle after_start Input
    (Z.lor GENERIC_READ GENERIC_WRITE) (Z.lor FILE_SHARE_READ FILE_SHARE_WRITE)
    (AllocateInputStatus env) w eq_refl) as H1.
  destruct (AllocateIoHandle Input _ _ _ w) as [h1 w1]. simpl in H1.
  eapply unlocks_last_then; [exact H1|].
  eapply unlocks_last_then; [apply (quiet_update_process _ p (set_pInputHandle h1))|].
  destruct (negb (NT_SUCCESS (AllocateInputStatus env))); [apply unlocks_last_leave|].
  set (w2 := update_process _ _ w1).
  pose proof (quiet_AllocateIoHandle after_start Output
    (Z.lor GENERIC_READ GENERIC_WRITE) (Z.lor FILE_SHARE_READ FILE_SHARE_WRITE)
    (AllocateOutputStatus env) w2 eq_refl) as H2.
  destruct (AllocateIoHandle Output _ _ _ w2) as [h2 w3]. simpl in H2.
  eapply unlocks_last_then; [exact H2|].
  eapply unlocks_last_then; [apply (quiet_update_process _ p (set_pOutputHandle h2))|].
  destruct (negb (NT_SUCCESS (AllocateOutputStatus env))); [apply unlocks_last_leave|].
  apply unlocks_last_completeConnection.
Qed.

Lemma unlocks_last_associateHistory env Cac p Status m w :
  unlocks_last after_start w (associateHistory env Cac p Status m w).2.
Proof.
  unfold associateHistory.
  destruct (s_Allocate env).
  - cbv zeta. eapply unlocks_last_then; [|apply unlocks_last_createHandles].
    eapply quiet_then; [apply quiet_HistoryAllocate | apply quiet_log]; alphabet.
  - cbv zeta. eapply unlocks_last_then; [|apply unlocks_last_createHandles].
    eapply quiet_then; [apply quiet_HistoryAllocate | apply quiet_log]; alphabet.
  - eapply unlocks_last_then; [apply (quiet_log _ (EvHistoryAllocate p)); alphabet|].
    eapply unlocks_last_then; [apply (quiet_log _ EvLogCaughtException); alphabet|].
    apply unlocks_last_leave.
Qed.

Lemma unlocks_last_initializeSession env Cac p Status m w :
  unlocks_last after_start w (initializeSession env Cac p Status m w).2.
Proof.
  unfold initializeSession.
  destruct (WI_IsFlagClear (Flags w) CONSOLE_INITIALIZED);
    [|apply unlocks_last_associateHistory].
  cbv zeta.
  eapply unlocks_last_then;
    [apply (quiet_log _ (EvConsoleAllocateConsole (ConsoleAllocateConsole env)));
     alphabet|].
  destruct (negb (NT_SUCCESS (ConsoleAllocateConsole env)));
    [apply unlocks_last_leave|].
  destruct (unlocks_last_associateHistory env Cac p (ConsoleAllocateConsole env) m
    (log EvSetInitialized
       (with_Flags (WI_SetFlag
          (Flags (log (EvConsoleAllocateConsole (ConsoleAllocateConsole env)) w))
          CONSOLE_INITIALIZED)
          (log (EvConsoleAllocateConsole (ConsoleAllocateConsole env)) w))))
    as (evs & Ht & Ha).
  exists (EvSetInitialized :: evs). rewrite Ht. cbn. rewrite <- !app_assoc.
  by rewrite Ha.
Qed.

Lemma unlocks_last_localBringUp env Cac pid tid m w :
  unlocks_last lock_free w (localBringUp env Cac pid tid m w).2.
Proof.
  unfold localBringUp.
  pose proof (quiet_AllocProcessData lock_free pid tid
    (ProcessGroupId Cac) (AllocProcessDataStatus env) w eq_refl) as H1.
  destruct (AllocProcessData _ _ _ _ w) as [[p|] w1]; simpl in H1.
  - set (w2 := update_process p _ w1).
    set (w3 := if ConsoleApp Cac then _ else w2).
    set (w4 := if LocateAccessibilityNotifier env then _ else w3).
    eapply unlocks_last_then;
      [|eapply unlocks_last_mono;
        [apply after_start_lock_free | apply unlocks_last_initializeSession]].
    eapply quiet_then; [exact H1|].
    eapply quiet_then; [apply (quiet_update_process _ p)|]. fold w2.
    eapply (quiet_then _ _ _ w3).
    + subst w3. destruct (ConsoleApp Cac); [apply quiet_log; alphabet | apply quiet_refl].
    + subst w4. destruct (LocateAccessibilityNotifier env);
        [apply quiet_log; alphabet | apply quiet_refl].
  - eapply unlocks_last_then; [exact H1|].
    eapply unlocks_last_mono; [apply after_start_lock_free | apply unlocks_last_leave].
Qed.

(** The local bring-up always answers the request: inline, or through
    the driver. *)
Lemma leave_completion c Status ProcessData m w :
  (leave c Status ProcessData m w).1.1 = c.
Proof. unfold leave. by destruct (cleanup _ _ _ _). Qed.

Lemma createHandles_completion env p m w :
  (createHandles env p m w).1.1 ≠ ProcessExited.
Proof.
  unfold createHandles, completeConnection.
  destruct (AllocateIoHandle Input _ _ _ w) as [h1 w1].
  destruct (negb (NT_SUCCESS (AllocateInputStatus env)));
    [by rewrite leave_completion|].
  destruct (AllocateIoHandle Output _ _ _ _) as [h2 w2].
  destruct (negb (NT_SUCCESS (AllocateOutputStatus env)));
    by rewrite leave_completion.
Qed.

Lemma associateHistory_completion env Cac p Status m w :
  (associateHistory env Cac p Status m w).1.1 ≠ ProcessExited.
Proof.
  unfold associateHistory.
  destruct (s_Allocate env); cbv zeta;
    first [apply createHandles_completion | by rewrite leave_completion].
Qed.

Lemma localBringUp_completion env Cac pid tid m w :
  (localBringUp env Cac pid tid m w).1.1 ≠ ProcessExited.
Proof.
  unfold localBringUp, initializeSession.
  destruct (AllocProcessData _ _ _ _ w) as [[p|] w1];
    [|by rewrite leave_completion].
  cbv zeta.
  destruct (WI_IsFlagClear _ _); [|apply associateHistory_completion].
  destruct (negb (NT_SUCCESS (ConsoleAllocateConsole env)));
    [by rewrite leave_completion | apply associateHistory_completion].
Qed.

(** The handoff attempt neither takes nor gives back the lock while it can
    still fail; when it has succeeded it unlocks once, waits for the
    client and exits. *)
Lemma attemptHandoff_lock env m w :
  match attemptHandoff env m w with
  | HandoffFellThrough w' => extends_by lock_free w w'
  | HandoffExited w' =>
      ∃ evs, trace w' = trace w ++ evs
               ++ [EvUnlockConsole; EvWaitForSingleObject; EvExitProcess]
             ∧ forallb lock_free evs = true
  end.
Proof.
  unfold attemptHandoff, caught, unwind, reset_hInputEvent, extends_by. cbv zeta.
  destruct (FAILED (CoInitializeEx env)); [|
  destruct (FAILED (CoCreateInstance env)); [|
  destruct (FAILED (GetServerHandle env)); [|
  destruct (CreatePipe env); [
  destruct (DuplicateHandle env); [
  destruct (FAILED (EstablishHandoff env)); [|
  destruct (FAILED (HostSignalThreadStart env))]|]|]]]];
  simpl; try destruct (bool_decide (is_Some (hInputEvent (globals w))));
  simpl; rewrite <- ?app_assoc; simpl;
  lazymatch goal with
  | |- ∃ evs, trace w ++ ?l = trace w ++ evs ++ [_; _; _] ∧ _ =>
      exists (take (length l - 3) l); split; reflexivity
  | |- _ => eexists; split; reflexivity
  end.
Qed.

(** The shape of a connection request's events: the call is logged, the
    lock is taken, and the one unlock comes last, but for the wait and
    the exit after a successful handoff. *)
Lemma connection_lock_structure env m w :
  let '(c, _, w') := ConsoleHandleConnectionRequest env m w in
  ∃ mid, forallb lock_free mid = true
    ∧ events_since w w'
      = [EvLogApiCall AttachConsole; EvLockConsole] ++ mid
        ++ EvUnlockConsole
        :: match c with
           | ProcessExited => [EvWaitForSingleObject; EvExitProcess]
           | _ => []
           end.
Proof.
  assert (∀ (c : Completion) w' mid,
    forallb lock_free mid = true →
    trace w' = trace w ++ [EvLogApiCall AttachConsole; EvLockConsole] ++ mid
                 ++ EvUnlockConsole
                 :: match c with
                    | ProcessExited => [EvWaitForSingleObject; EvExitProcess]
                    | _ => []
                    end →
    ∃ mid, forallb lock_free mid = true
      ∧ events_since w w'
        = [EvLogApiCall AttachConsole; EvLockConsole] ++ mid
          ++ EvUnlockConsole
          :: match c with
             | ProcessExited => [EvWaitForSingleObject; EvExitProcess]
             | _ => []
             end) as K.
  { intros c w' mid Hmid Ht. exists mid. split; [done|].
    by apply events_since_app. }
  unfold ConsoleHandleConnectionRequest.
  destruct (ConsoleInitializeConnectInfo env) as [st Cac]. cbv zeta.
  set (w2 := log (EvInitializeConnectInfo st) _).
  assert (trace w2 = trace w ++ [EvLogApiCall AttachConsole; EvLockConsole]
                       ++ [EvInitializeConnectInfo st]) as Ht2
    by (subst w2; simpl; by rewrite <- !app_assoc).
  destruct (negb (NT_SUCCESS st)).
  { destruct (unlocks_last_leave ReplyInline st None m w2) as (evs & Ht & Ha').
    pose proof (forallb_mono _ _ evs after_start_lock_free Ha') as Ha.
    destruct (leave ReplyInline st None m w2) as [[c m'] w'] eqn:Hl.
    assert (c = ReplyInline) as -> by (unfold leave in Hl; destruct (cleanup _ _ _ _); congruence).
    cbn [snd] in Ht.
    apply (K ReplyInline w' (EvInitializeConnectInfo st :: evs)); [done|].
    rewrite Ht, Ht2, <- !app_assoc. done. }
  set (d := (_shouldAttemptHandoff env (globals w2) (Flags w2) Cac).2).
  set (w3 := log (EvShouldAttemptHandoff d) w2).
  assert (trace w3 = trace w ++ [EvLogApiCall AttachConsole; EvLockConsole]
                       ++ [EvInitializeConnectInfo st; EvShouldAttemptHandoff d]) as Ht3
    by (subst w3; unfold log at 1; cbn [trace]; rewrite Ht2, <- !app_assoc; done).
  assert (∀ w4 evs4, trace w4 = trace w3 ++ evs4 → forallb lock_free evs4 = true →
    let '(c, _, w') := localBringUp env Cac (to_DWORD (Process (Descriptor m)))
                         (to_DWORD (Object (Descriptor m))) m w4 in
    ∃ mid, forallb lock_free mid = true
      ∧ events_since w w'
        = [EvLogApiCall AttachConsole; EvLockConsole] ++ mid
          ++ EvUnlockConsole
          :: match c with
             | ProcessExited => [EvWaitForSingleObject; EvExitProcess]
             | _ => []
             end) as L.
  { intros w4 evs4 Ht4 Ha4.
    pose proof (unlocks_last_localBringUp env Cac (to_DWORD (Process (Descriptor m)))
                  (to_DWORD (Object (Descriptor m))) m w4) as (evs & Ht & Ha).
    pose proof (localBringUp_completion env Cac (to_DWORD (Process (Descriptor m)))
                  (to_DWORD (Object (Descriptor m))) m w4) as Hc.
    destruct (localBringUp _ _ _ _ _ w4) as [[c m'] w'].
    cbn [fst snd] in Ht, Hc.
    assert (match c with ProcessExited => [EvWaitForSingleObject; EvExitProcess]
                       | _ => [] end = []) as Hnil by (by destruct c).
    pose proof (K c w' ([EvInitializeConnectInfo st; EvShouldAttemptHandoff d]
                          ++ evs4 ++ evs)) as K'.
    rewrite Hnil in *. apply K'.
    - by rewrite !forallb_app, Ha4, Ha.
    - rewrite Ht, Ht4, Ht3, <- !app_assoc. done. }
  destruct d.
  - pose proof (attemptHandoff_lock env m w3) as Hh.
    destruct (attemptHandoff env m w3) as [w4|w4].
    + destruct Hh as (evs4 & Ht4 & Ha4). by apply (L w4 evs4).
    + destruct Hh as (evs4 & Ht4 & Ha4).
      apply (K ProcessExited w4
               ([EvInitializeConnectInfo st; EvShouldAttemptHandoff true] ++ evs4));
        [by rewrite forallb_app, Ha4|].
      rewrite Ht4, Ht3, <- !app_assoc. done.
  - apply (L w3 []); [by rewrite app_nil_r | done].
Qed.

(** X16.  A connection request logs the call, takes the lock, and gives
    it back exactly once, as the last thing it does; only after a
    successful handoff does anything follow the unlock, namely the wait
    for the client and the exit.  Everything between neither locks nor
    unlocks, so every access to shared state happens under the lock. *)
Theorem connection_holds_lock_throughout env m w :
  let '(c, _, w') := ConsoleHandleConnectionRequest env m w in
  let evs := events_since w w' in
  (∃ mid, forallb lock_free mid = true
     ∧ evs = [EvLogApiCall AttachConsole; EvLockConsole] ++ mid
             ++ EvUnlockConsole
             :: match c with
                | ProcessExited => [EvWaitForSingleObject; EvExitProcess]
                | _ => []
                end)
  ∧ under_lock 0 evs = true
  ∧ length (filter (λ e, is_lock e = true) evs) = 1%nat
  ∧ length (filter (λ e, is_unlock e = true) evs) = 1%nat.
Proof.
  pose proof (connection_lock_structure env m w) as H.
  destruct (ConsoleHandleConnectionRequest env m w) as [[c m'] w'].
  destruct H as (mid & Hmid & Hev). cbv zeta. rewrite Hev.
  split; [by exists mid|]. split; [|split].
  - cbn [app under_lock touches_shared_state is_lock is_unlock negb orb andb].
    rewrite under_lock_app by (done || lia). by destruct c.
  - cbn [app]. rewrite !filter_cons. cbn [is_lock].
    destruct (decide (false = true)) as [|_]; [done|].
    destruct (decide (true = true)) as [_|]; [|done].
    rewrite filter_app, length_cons, length_app.
    rewrite (count_lock_free is_lock mid) by (done || by intros []).
    by destruct c.
  - cbn [app]. rewrite !filter_cons. cbn [is_unlock].
    destruct (decide (false = true)) as [|_]; [done|].
    rewrite filter_app, length_app.
    rewrite (count_lock_free is_unlock mid) by (done || by intros []).
    by destruct c.
Qed.

(** The shape of a create request's events: the lock first, one unlock,
    and after it nothing but the destruction of a handle whose delivery
    failed. *)
Lemma create_object_lock_structure env m w :
  let alloc :=
    allocateByType env
      (CreateObject (SetObjectType (resolveObjectType (CreateObject m)) m))
      (LockConsole w) in
  let late :=
    match alloc.1.2 with
    | Some h => if SUCCEEDED (CompleteIo env) then [] else [EvDeleteHandle h]
    | None => []
    end in
  ∃ mid, forallb lock_free mid = true
    ∧ events_since w (ConsoleCreateObject env m w).2
      = EvLockConsole :: mid ++ EvUnlockConsole :: late.
Proof.
  cbv zeta. unfold ConsoleCreateObject.
  set (m1 := SetObjectType _ m).
  pose proof (allocateByType_spec env (CreateObject m1) (LockConsole w)) as Hs.
  pose proof (allocateByType_events env (CreateObject m1) (LockConsole w)) as He.
  destruct (allocateByType env (CreateObject m1) (LockConsole w)) as [[Status h] w1].
  cbn [fst snd].
  assert (∀ w' mid late, forallb lock_free mid = true →
    trace w' = trace w ++ EvLockConsole :: mid ++ EvUnlockConsole :: late →
    ∃ mid, forallb lock_free mid = true
      ∧ events_since w w' = EvLockConsole :: mid ++ EvUnlockConsole :: late) as K.
  { intros w' mid late Hmid Ht. exists mid. split; [done|].
    by apply events_since_app. }
  destruct h as [h|].
  - destruct Hs as (Hok & -> & e & d & -> & Hk). rewrite Hok. cbn [negb].
    destruct (new_address_fresh (HandleHeap w)) as [Hfresh Hnz].
    destruct (SUCCEEDED (CompleteIo env)); cbn [snd].
    + apply (K _ [e; EvPutHandle (new_address (HandleHeap w));
                  EvCompleteIo (CompleteIo env)]);
        [by destruct e | by cbn; rewrite <- !app_assoc].
    + apply (K _ [e; EvPutHandle (new_address (HandleHeap w));
                  EvCompleteIo (CompleteIo env)]); [by destruct e|].
      cbn. unfold delete_handle. rewrite new_address_eqb. cbn.
      by rewrite <- !app_assoc.
  - destruct Hs as (Hfail & _). rewrite Hfail. cbn [negb snd].
    destruct He as (_ & [(Ht & _)|(e & Ht & Hk)]).
    + apply (K _ []); [done|].
      cbn in Ht |- *. by rewrite Ht, <- !app_assoc.
    + apply (K _ [e]); [by destruct e|].
      cbn in Ht |- *. by rewrite Ht, <- !app_assoc.
Qed.

(** X8.  [ConsoleCreateObject] takes the lock first and gives it back
    once; everything between neither locks nor unlocks.  When the
    delivery of the reply fails, the new handle is destroyed after the
    unlock, as the routine returns: that is the one access to shared
    state outside the lock, and on every other path all accesses are
    under it. *)
Theorem create_object_lock_coverage env m w :
  let alloc :=
    allocateByType env
      (CreateObject (SetObjectType (resolveObjectType (CreateObject m)) m))
      (LockConsole w) in
  let evs := events_since w (ConsoleCreateObject env m w).2 in
  let late :=
    match alloc.1.2 with
    | Some h => if SUCCEEDED (CompleteIo env) then [] else [EvDeleteHandle h]
    | None => []
    end in
  (∃ mid, forallb lock_free mid = true
     ∧ evs = EvLockConsole :: mid ++ EvUnlockConsole :: late)
  ∧ under_lock 0 evs = match late with [] => true | _ => false end.
Proof.
  cbv zeta.
  destruct (create_object_lock_structure env m w) as (mid & Hmid & Hev).
  cbv zeta in Hev. rewrite Hev. split; [by exists mid|].
  cbn [under_lock touches_shared_state is_lock is_unlock negb orb andb].
  rewrite under_lock_app by (done || lia).
  destruct (allocateByType _ _ _).1.2 as [h|]; [|done].
  by destruct (SUCCEEDED (CompleteIo env)).
Qed.

(** ** Inline replies of the connection routine *)

Lemma leave_without_record c Status m w :
  let '(c', m', w') := leave c Status None m w in
  c' = c
  ∧ m' = (if NT_SUCCESS Status then m else SetReplyStatus Status m)
  ∧ w' = UnlockConsole w.
Proof. unfold leave, cleanup. by destruct (NT_SUCCESS Status). Qed.

Lemma leave_rolls_back c Status p m w :
  NT_SUCCESS Status = false →
  let '(c', m', w') := leave c Status (Some p) m w in
  c' = c ∧ m' = SetReplyStatus Status m
  ∧ ProcessHandleList w' = delete p (ProcessHandleList w)
  ∧ CommandHistories w' = delete p (CommandHistories w)
  ∧ HandleHeap w' =
      match ProcessHandleList w !! p with
      | Some r => heap_without (pOutputHandle r)
                    (heap_without (pInputHandle r) (HandleHeap w))
      | None => HandleHeap w
      end.
Proof.
  intros Hf. unfold leave, cleanup. rewrite Hf. cbn [negb].
  destruct (FreeProcessData_fields p (s_Free p w)) as (_ & _ & _ & P & C & H & _).
  cbn [UnlockConsole log with_lockDepth ProcessHandleList CommandHistories HandleHeap].
  rewrite P, C, H. done.
Qed.

Lemma rolled_back_leave p Status m w r :
  NT_SUCCESS Status = false →
  ProcessHandleList w !! p = Some r →
  pInputHandle r = None → pOutputHandle r = None →
  rolled_back p w (leave ReplyInline Status (Some p) m w).
Proof.
  intros Hf Hp Hi Ho _.
  pose proof (leave_rolls_back ReplyInline Status p m w Hf) as H.
  destruct (leave ReplyInline Status (Some p) m w) as [[c m'] w'].
  destruct H as (-> & -> & P & C & H). cbn [fst snd].
  rewrite Hp, Hi, Ho in H. done.
Qed.

Lemma rolled_back_createHandles env p m w r :
  ProcessHandleList w !! p = Some r →
  pInputHandle r = None → pOutputHandle r = None →
  rolled_back p w (createHandles env p m w).
Proof.
  intros Hp Hi Ho. unfold createHandles, AllocateIoHandle.
  destruct (NT_SUCCESS (AllocateInputStatus env)) eqn:Hin; cbn [negb].
  - destruct (new_address_fresh (HandleHeap w)) as [Hfresh Hnz].
    set (hi := new_address (HandleHeap w)) in *.
    destruct (NT_SUCCESS (AllocateOutputStatus env)) eqn:Hout; cbn [negb].
    + intros Hc. unfold completeConnection in Hc. by rewrite leave_completion in Hc.
    + intros _.
      match goal with |- context [leave ReplyInline ?s (Some p) m ?w1] =>
        pose proof (leave_rolls_back ReplyInline s p m w1 Hout) as H;
        destruct (leave ReplyInline s (Some p) m w1) as [[c m'] w']
      end.
      destruct H as (-> & -> & P & C & H). cbn [fst snd].
      unfold update_process in *. wsimpl.
      rewrite lookup_alter_eq, lookup_alter_eq, Hp in H. cbn in H.
      fold hi in H.
      rewrite (proj2 (Z.eqb_neq _ _) Hnz), delete_insert_eq, delete_id in H by done.
      rewrite !delete_alter_eq in P. done.
  - intros _.
    match goal with |- context [leave ReplyInline ?s (Some p) m ?w1] =>
      pose proof (leave_rolls_back ReplyInline s p m w1 Hin) as H;
      destruct (leave ReplyInline s (Some p) m w1) as [[c m'] w']
    end.
    destruct H as (-> & -> & P & C & H). cbn [fst snd].
    unfold update_process in *. wsimpl.
    rewrite lookup_alter_eq, Hp in H. cbn in H. rewrite Ho in H. cbn in H.
    rewrite delete_alter_eq in P. done.
Qed.

Lemma rolled_back_associateHistory env Cac p Status m w r :
  s_Allocate env ≠ HistoryThrows →
  ProcessHandleList w !! p = Some r →
  pInputHandle r = None → pOutputHandle r = None →
  rolled_back p w (associateHistory env Cac p Status m w).
Proof.
  intros Hh Hp Hi Ho. unfold associateHistory, HistoryAllocate.
  destruct (s_Allocate env); [| |done]; cbv zeta; intros Hc;
    match goal with |- context [createHandles env p m ?w1] =>
      destruct (rolled_back_createHandles env p m w1 r Hp Hi Ho Hc)
        as (S & P & C & H)
    end;
    rewrite P, C, H; wsimpl; by rewrite ?delete_insert_eq.
Qed.

Lemma rolled_back_initializeSession env Cac p Status m w r :
  s_Allocate env ≠ HistoryThrows →
  ProcessHandleList w !! p = Some r →
  pInputHandle r = None → pOutputHandle r = None →
  rolled_back p w (initializeSession env Cac p Status m w).
Proof.
  intros Hh Hp Hi Ho. unfold initializeSession.
  destruct (WI_IsFlagClear (Flags w) CONSOLE_INITIALIZED);
    [|by eapply rolled_back_associateHistory].
  cbv zeta.
  destruct (NT_SUCCESS (ConsoleAllocateConsole env)) eqn:Hcac; cbn [negb].
  - intros Hc.
    match goal with |- context [associateHistory env Cac p ?s m ?w1] =>
      destruct (rolled_back_associateHistory env Cac p s m w1 r Hh Hp Hi Ho Hc)
        as (S & P & C & H)
    end.
    by rewrite P, C, H.
  - intros Hc.
    match goal with |- context [leave ReplyInline ?s (Some p) m ?w1] =>
      destruct (rolled_back_leave p s m w1 r Hcac Hp Hi Ho Hc) as (S & P & C & H)
    end.
    by rewrite P, C, H.
Qed.

(** The handoff attempt works on its own resources and on [Globals]: the
    process list, the history slots and the handles are not its concern. *)
Lemma attemptHandoff_objects env m w :
  let w' := match attemptHandoff env m w with
            | HandoffFellThrough w' | HandoffExited w' => w'
            end in
  ProcessHandleList w' = ProcessHandleList w
  ∧ CommandHistories w' = CommandHistories w
  ∧ HandleHeap w' = HandleHeap w
  ∧ vtIoMode w' = vtIoMode w.
Proof.
  unfold attemptHandoff, caught, unwind, reset_hInputEvent. cbv zeta.
  destruct (FAILED (CoInitializeEx env)); [|
  destruct (FAILED (CoCreateInstance env)); [|
  destruct (FAILED (GetServerHandle env)); [|
  destruct (CreatePipe env); [
  destruct (DuplicateHandle env); [
  destruct (FAILED (EstablishHandoff env)); [|
  destruct (FAILED (HostSignalThreadStart env))]|]|]]]];
  simpl; try destruct (bool_decide (is_Some (hInputEvent (globals w))));
  done.
Qed.

Lemma localBringUp_inline env Cac pid tid m w :
  s_Allocate env ≠ HistoryThrows →
  let '(c, m', w') := localBringUp env Cac pid tid m w in
  c = ReplyInline →
  NT_SUCCESS (ReplyStatus m') = false
  ∧ ProcessHandleList w' = ProcessHandleList w
  ∧ HandleHeap w' = HandleHeap w
  ∧ (∀ q, is_Some (ProcessHandleList w !! q) →
          CommandHistories w' !! q = CommandHistories w !! q).
Proof.
  intros Hh. unfold localBringUp, AllocProcessData.
  destruct (NT_SUCCESS (AllocProcessDataStatus env)) eqn:Hpd.
  - destruct (new_address_fresh (ProcessHandleList w)) as [Hfresh Hnz].
    cbv zeta. wsimpl. set (p := new_address (ProcessHandleList w)) in *.
    match goal with |- context [initializeSession env Cac p ?s m ?w1] =>
      pose proof (rolled_back_initializeSession env Cac p s m w1
        (mkProcess pid tid (ProcessGroupId Cac)
           (WI_IsFlagClear (Flags w) CONSOLE_INITIALIZED) None None) Hh) as H;
      destruct (initializeSession env Cac p s m w1) as [[c m'] w']
    end.
    intros Hc. destruct H as (S & P & C & H); try done.
    { destruct (LocateAccessibilityNotifier env), (ConsoleApp Cac);
        unfold update_process; wsimpl; by rewrite lookup_alter_eq, lookup_insert_eq. }
    cbn [fst snd] in *. split; [done|].
    assert (ProcessHandleList w' = ProcessHandleList w
            ∧ CommandHistories w' = delete p (CommandHistories w)
            ∧ HandleHeap w' = HandleHeap w) as (-> & -> & ->).
    { rewrite P, C, H.
      destruct (LocateAccessibilityNotifier env), (ConsoleApp Cac);
        unfold update_process; wsimpl;
        by rewrite delete_alter_eq, delete_insert_eq, delete_id. }
    repeat split. intros q [r Hq]. apply lookup_delete_ne. congruence.
  - pose proof (leave_without_record ReplyInline (AllocProcessDataStatus env) m
                  (log (EvAllocProcessData (AllocProcessDataStatus env)) w)) as H.
    cbv zeta.
    destruct (leave _ _ None m _) as [[c m'] w'].
    destruct H as (-> & -> & ->). rewrite Hpd. done.
Qed.

(** X9.  Unless the command-history allocation throws, a connection
    request that is handed back for an inline reply carries a failing
    status and has left nothing behind: the process list and the handle
    heap are what they were before the request, the history slots of the
    processes already connected are untouched, and the lock is free. *)
Theorem failed_connection_leaves_no_record env m w :
  s_Allocate env ≠ HistoryThrows →
  let '(c, m', w') := ConsoleHandleConnectionRequest env m w in
  c = ReplyInline →
  NT_SUCCESS (ReplyStatus m') = false
  ∧ ProcessHandleList w' = ProcessHandleList w
  ∧ HandleHeap w' = HandleHeap w
  ∧ (∀ q, is_Some (ProcessHandleList w !! q) →
          CommandHistories w' !! q = CommandHistories w !! q).
Proof.
  intros Hh. unfold ConsoleHandleConnectionRequest.
  destruct (ConsoleInitializeConnectInfo env) as [st Cac]. cbv zeta.
  set (w2 := log (EvInitializeConnectInfo st) _).
  assert (ProcessHandleList w2 = ProcessHandleList w
          ∧ CommandHistories w2 = CommandHistories w
          ∧ HandleHeap w2 = HandleHeap w) as (P2 & C2 & H2) by done.
  destruct (NT_SUCCESS st) eqn:Hst; cbn [negb].
  2: { pose proof (leave_without_record ReplyInline st m w2) as H.
       destruct (leave ReplyInline st None m w2) as [[c m'] w'].
       destruct H as (-> & -> & ->). rewrite Hst. intros _. wsimpl.
       by rewrite P2, C2, H2. }
  set (d := (_shouldAttemptHandoff env (globals w2) (Flags w2) Cac).2).
  set (w3 := log (EvShouldAttemptHandoff d) w2).
  assert (∀ w4, ProcessHandleList w4 = ProcessHandleList w →
                CommandHistories w4 = CommandHistories w →
                HandleHeap w4 = HandleHeap w →
    let '(c, m', w') := localBringUp env Cac (to_DWORD (Process (Descriptor m)))
                          (to_DWORD (Object (Descriptor m))) m w4 in
    c = ReplyInline →
    NT_SUCCESS (ReplyStatus m') = false
    ∧ ProcessHandleList w' = ProcessHandleList w
    ∧ HandleHeap w' = HandleHeap w
    ∧ (∀ q, is_Some (ProcessHandleList w !! q) →
            CommandHistories w' !! q = CommandHistories w !! q)) as L.
  { intros w4 P4 C4 H4.
    pose proof (localBringUp_inline env Cac (to_DWORD (Process (Descriptor m)))
                  (to_DWORD (Object (Descriptor m))) m w4 Hh) as H.
    destruct (localBringUp _ _ _ _ _ w4) as [[c m'] w'].
    intros Hc. destruct (H Hc) as (S & P & Hp & C).
    rewrite P, Hp, P4, H4. repeat split; try done.
    intros q Hq. rewrite C, C4; by rewrite ?P4. }
  destruct d.
  - pose proof (attemptHandoff_objects env m w3) as Ho.
    destruct (attemptHandoff env m w3) as [w4|w4]; [|done].
    destruct Ho as (P & C & H & _). apply L; [by rewrite P | by rewrite C | by rewrite H].
  - by apply L.
Qed.

(** ** The connection routine: rejected, joining, and cut short *)

(** X10.  A connection request whose descriptor
    [ConsoleInitializeConnectInfo] rejects ends there: the message goes
    back for an inline reply with that status, the handoff decision is
    not evaluated, no process record is asked for, and the session is as
    it was. *)
Theorem rejected_descriptor_ends_request env m w :
  NT_SUCCESS (ConsoleInitializeConnectInfo env).1 = false →
  let st := (ConsoleInitializeConnectInfo env).1 in
  let '(c, m', w') := ConsoleHandleConnectionRequest env m w in
  c = ReplyInline
  ∧ m' = SetReplyStatus st m
  ∧ events_since w w' = [EvLogApiCall AttachConsole; EvLockConsole;
                         EvInitializeConnectInfo st; EvUnlockConsole]
  ∧ state_of w' = state_of w.
Proof.
  unfold ConsoleHandleConnectionRequest.
  destruct (ConsoleInitializeConnectInfo env) as [st Cac]. cbn [fst].
  intros Hst. cbv zeta. rewrite Hst. cbn [negb].
  pose proof (leave_without_record ReplyInline st m
    (log (EvInitializeConnectInfo st)
       (LockConsole (log (EvLogApiCall AttachConsole) w)))) as H.
  destruct (leave ReplyInline st None m _) as [[c m'] w'].
  destruct H as (-> & -> & ->). rewrite Hst.
  split; [done|]. split; [done|]. split.
  - unfold events_since. cbn. by rewrite <- !app_assoc, drop_app_length.
  - apply state_of_ext; cbn; try done. lia.
Qed.

Lemma initialized_blocks_handoff env g gciFlags cac :
  WI_IsFlagSet gciFlags CONSOLE_INITIALIZED = true →
  (_shouldAttemptHandoff env g gciFlags cac).2 = false.
Proof.
  intros H. rewrite shouldAttemptHandoff_answer.
  cbn [forallb check_order blocking]. rewrite H. cbn [negb].
  by rewrite !andb_false_r.
Qed.

(** X11.  On a session that is already initialized a connection is
    always served locally: handoff is not attempted and the session
    initializer does not run, whatever their collaborators would answer.
    When the remaining steps succeed, the request completes with
    [STATUS_SUCCESS], and the one new process record is not the root
    process and holds the two new handles. *)
Theorem later_connection_joins_session env m w st cac :
  ConsoleInitializeConnectInfo env = (st, cac) →
  NT_SUCCESS st = true →
  initialized w = true →
  NT_SUCCESS (AllocProcessDataStatus env) = true →
  s_Allocate env ≠ HistoryThrows →
  NT_SUCCESS (AllocateInputStatus env) = true →
  NT_SUCCESS (AllocateOutputStatus env) = true →
  FAILED (CompleteIo env) = false →
  let p := new_address (ProcessHandleList w) in
  let input := (HostOwned, mkHandle Input (Z.lor GENERIC_READ GENERIC_WRITE)
                             (Z.lor FILE_SHARE_READ FILE_SHARE_WRITE)) in
  let output := (HostOwned, mkHandle Output (Z.lor GENERIC_READ GENERIC_WRITE)
                              (Z.lor FILE_SHARE_READ FILE_SHARE_WRITE)) in
  let hi := new_address (HandleHeap w) in
  let ho := new_address (<[hi := input]> (HandleHeap w)) in
  let '(c, m', w') := ConsoleHandleConnectionRequest env m w in
  c = ReplyDone
  ∧ ReplyStatus m' = STATUS_SUCCESS
  ∧ ReplyInformation m' = sizeof_CD_CONNECTION_INFORMATION
  ∧ Flags w' = Flags w
  ∧ globals w' = globals w
  ∧ ProcessHandleList w' =
      <[p := mkProcess (to_DWORD (Process (Descriptor m)))
               (to_DWORD (Object (Descriptor m))) (ProcessGroupId cac)
               false (Some hi) (Some ho)]> (ProcessHandleList w)
  ∧ HandleHeap w' = <[ho := output]> (<[hi := input]> (HandleHeap w))
  ∧ handoff_decisions (events_since w w') = [false]
  ∧ existsb is_handoff_event (events_since w w') = false
  ∧ initializer_runs (events_since w w') = [].
Proof.
  intros Hci Hst Hinit Hpd Hhist Hin Hout Hio p input output hi ho.
  unfold ConsoleHandleConnectionRequest. rewrite Hci. wsimpl.
  rewrite Hst, (initialized_blocks_handoff env _ _ cac Hinit). wsimpl.
  unfold localBringUp, AllocProcessData. rewrite Hpd. wsimpl.
  fold p.
  set (w4 := if LocateAccessibilityNotifier env then _ else _).
  assert (WI_IsFlagClear (Flags w) CONSOLE_INITIALIZED = false) as Hclear.
  { rewrite WI_IsFlagClear_negb. unfold initialized in Hinit. by rewrite Hinit. }
  assert (Flags w4 = Flags w ∧ HandleHeap w4 = HandleHeap w
          ∧ globals w4 = globals w
          ∧ ProcessHandleList w4 =
              <[p := mkProcess (to_DWORD (Process (Descriptor m)))
                       (to_DWORD (Object (Descriptor m))) (ProcessGroupId cac)
                       false None None]>
                (ProcessHandleList w)
          ∧ ∃ evs4, trace w4 = trace w ++ [EvLogApiCall AttachConsole; EvLockConsole;
                                 EvInitializeConnectInfo st;
                                 EvShouldAttemptHandoff false] ++ evs4
               ∧ existsb is_handoff_event evs4 = false
               ∧ initializer_runs evs4 = [] ∧ handoff_decisions evs4 = [])
    as (F4 & H4 & G4 & P4 & evs4 & T4 & E4 & I4 & D4).
  { subst w4. rewrite Hclear.
    destruct (LocateAccessibilityNotifier env), (ConsoleApp cac);
      unfold update_process; wsimpl; rewrite alter_insert_eq;
      (split; [done|]); (split; [done|]); (split; [done|]); (split; [done|]);
      rewrite <- !app_assoc; eexists; (split; [cbn; reflexivity|done]). }
  clearbody w4.
  unfold initializeSession. rewrite F4, Hclear. wsimpl.
  unfold associateHistory, HistoryAllocate, createHandles, AllocateIoHandle,
    completeConnection, leave, cleanup.
  rewrite Hin, Hout, Hio.
  assert (∀ w' tail, trace w' = trace w4 ++ tail →
            existsb is_handoff_event tail = false → initializer_runs tail = [] →
            handoff_decisions tail = [] →
            handoff_decisions (events_since w w') = [false]
            ∧ existsb is_handoff_event (events_since w w') = false
            ∧ initializer_runs (events_since w w') = []) as K.
  { intros w' tail Ht He Hi Hd. unfold events_since.
    rewrite Ht, T4, <- !app_assoc, drop_app_length.
    unfold handoff_decisions, initializer_runs in *.
    rewrite !omap_app, !existsb_app, I4, D4, Hi, Hd, E4, He. done. }
  destruct (s_Allocate env); [| |done]; unfold update_process; wsimpl;
    rewrite ?H4, ?P4, ?F4, ?G4; fold input; fold hi; fold output; fold ho;
    rewrite !alter_insert_eq;
    cbn [set_pInputHandle set_pOutputHandle dwProcessId dwThreadId
         ulProcessGroupId fRootProcess pInputHandle pOutputHandle];
    (split; [done|]); (split; [done|]); (split; [done|]); (split; [done|]);
    (split; [done|]); (split; [done|]); (split; [done|]);
    (eapply K; [wsimpl; rewrite <- ?app_assoc; cbn [app]; reflexivity | done | done | done]).
Qed.

Lemma localBringUp_history_throws env Cac pid tid m w :
  NT_SUCCESS (AllocProcessDataStatus env) = true →
  initialized w = true ∨ NT_SUCCESS (ConsoleAllocateConsole env) = true →
  s_Allocate env = HistoryThrows →
  let p := new_address (ProcessHandleList w) in
  let '(c, m', w') := localBringUp env Cac pid tid m w in
  c = ReplyInline ∧ m' = m
  ∧ ProcessHandleList w' =
      <[p := mkProcess pid tid (ProcessGroupId Cac) (negb (initialized w))
               None None]> (ProcessHandleList w)
  ∧ CommandHistories w' = CommandHistories w
  ∧ HandleHeap w' = HandleHeap w
  ∧ lockDepth w' = lockDepth w - 1.
Proof.
  intros Hpd Hinit Hh p.
  unfold localBringUp, AllocProcessData. rewrite Hpd. wsimpl. fold p.
  set (w4 := if LocateAccessibilityNotifier env then _ else _).
  assert (Flags w4 = Flags w ∧ HandleHeap w4 = HandleHeap w
          ∧ CommandHistories w4 = CommandHistories w
          ∧ lockDepth w4 = lockDepth w
          ∧ ProcessHandleList w4 =
              <[p := mkProcess pid tid (ProcessGroupId Cac)
                       (negb (initialized w)) None None]>
                (ProcessHandleList w)) as (F4 & H4 & C4 & L4 & P4).
  { subst w4. rewrite WI_IsFlagClear_negb. fold (initialized w).
    destruct (LocateAccessibilityNotifier env), (ConsoleApp Cac);
      unfold update_process; wsimpl; rewrite alter_insert_eq; done. }
  clearbody w4.
  unfold initializeSession, associateHistory, leave, cleanup.
  rewrite F4, WI_IsFlagClear_negb, Hh, Hpd. fold (initialized w).
  destruct (initialized w); cbn [negb]; wsimpl.
  - by rewrite P4, C4, H4, L4.
  - destruct Hinit as [|Hcac]; [done|]. rewrite Hcac. wsimpl.
    by rewrite P4, C4, H4, L4.
Qed.

(** X18.  When the command-history allocation throws, the request ends
    with the status variable still holding success, so the scope guard
    neither sets a reply status nor frees anything: the message goes back
    for an inline reply exactly as it came in, and the process record
    created for the client stays in the list, without handles and without
    a history slot. *)
Theorem history_exception_keeps_record env m w st cac :
  ConsoleInitializeConnectInfo env = (st, cac) →
  NT_SUCCESS st = true →
  NT_SUCCESS (AllocProcessDataStatus env) = true →
  initialized w = true ∨ NT_SUCCESS (ConsoleAllocateConsole env) = true →
  s_Allocate env = HistoryThrows →
  let p := new_address (ProcessHandleList w) in
  let '(c, m', w') := ConsoleHandleConnectionRequest env m w in
  c ≠ ProcessExited →
  c = ReplyInline ∧ m' = m
  ∧ ProcessHandleList w' =
      <[p := mkProcess (to_DWORD (Process (Descriptor m)))
               (to_DWORD (Object (Descriptor m))) (ProcessGroupId cac)
               (negb (initialized w)) None None]> (ProcessHandleList w)
  ∧ ProcessHandleList w !! p = None
  ∧ CommandHistories w' = CommandHistories w
  ∧ HandleHeap w' = HandleHeap w
  ∧ lockDepth w' = lockDepth w.
Proof.
  intros Hci Hst Hpd Hinit Hh p.
  unfold ConsoleHandleConnectionRequest. rewrite Hci. cbv zeta.
  rewrite Hst. cbn [negb].
  set (w2 := log (EvInitializeConnectInfo st) _).
  set (d := (_shouldAttemptHandoff env (globals w2) (Flags w2) cac).2).
  set (w3 := log (EvShouldAttemptHandoff d) w2).
  assert (∀ w4, ProcessHandleList w4 = ProcessHandleList w →
                CommandHistories w4 = CommandHistories w →
                HandleHeap w4 = HandleHeap w → Flags w4 = Flags w →
                lockDepth w4 = lockDepth w + 1 →
    let '(c, m', w') := localBringUp env cac (to_DWORD (Process (Descriptor m)))
                          (to_DWORD (Object (Descriptor m))) m w4 in
    c = ReplyInline ∧ m' = m
    ∧ ProcessHandleList w' =
        <[p := mkProcess (to_DWORD (Process (Descriptor m)))
                 (to_DWORD (Object (Descriptor m))) (ProcessGroupId cac)
                 (negb (initialized w)) None None]> (ProcessHandleList w)
    ∧ ProcessHandleList w !! p = None
    ∧ CommandHistories w' = CommandHistories w
    ∧ HandleHeap w' = HandleHeap w
    ∧ lockDepth w' = lockDepth w) as L.
  { intros w4 P4 C4 H4 F4 L4.
    assert (initialized w4 = initialized w) as Hi4
      by (unfold initialized; by rewrite F4).
    pose proof (localBringUp_history_throws env cac
                  (to_DWORD (Process (Descriptor m)))
                  (to_DWORD (Object (Descriptor m))) m w4 Hpd) as H.
    rewrite Hi4, P4, C4, H4, L4 in H. specialize (H Hinit Hh).
    destruct (localBringUp _ _ _ _ _ w4) as [[c m'] w'].
    destruct H as (-> & -> & P & C & H & Lk).
    destruct (new_address_fresh (ProcessHandleList w)) as [Hfresh _].
    repeat split; try done. lia. }
  destruct d.
  - pose proof (attemptHandoff_objects env m w3) as Ho.
    pose proof (attemptHandoff_effect env m w3) as He.
    destruct (attemptHandoff env m w3) as [w4|w4]; [|done].
    destruct Ho as (P & C & H & _). destruct He as (_ & Lk & F).
    assert (ProcessHandleList w4 = ProcessHandleList w) as P4 by (by rewrite P).
    assert (CommandHistories w4 = CommandHistories w) as C4 by (by rewrite C).
    assert (HandleHeap w4 = HandleHeap w) as H4 by (by rewrite H).
    assert (Flags w4 = Flags w) as F4 by (by rewrite F).
    assert (lockDepth w4 = lockDepth w + 1) as L4 by (by rewrite Lk).
    pose proof (L w4 P4 C4 H4 F4 L4) as K.
    destruct (localBringUp _ _ _ _ _ w4) as [[c m'] w']. by intros _.
  - pose proof (L w3 eq_refl eq_refl eq_refl eq_refl eq_refl) as K.
    destruct (localBringUp _ _ _ _ _ w3) as [[c m'] w']. by intros _.
Qed.

(** ** The handoff attempt on every path *)

Ltac handoff_paths env w :=
  unfold attemptHandoff, caught, unwind, reset_hInputEvent; cbv zeta;
  destruct (FAILED (CoInitializeEx env)); [|
  destruct (FAILED (CoCreateInstance env)); [|
  destruct (FAILED (GetServerHandle env)); [|
  destruct (CreatePipe env); [
  destruct (DuplicateHandle env); [
  destruct (FAILED (EstablishHandoff env)); [|
  destruct (FAILED (HostSignalThreadStart env))]|]|]]]];
  simpl; try destruct (bool_decide (is_Some (hInputEvent (globals w)))) eqn:?;
  simpl.




(** X14.  The attempt calls the handler at most once, with the portable
    copy of the request's descriptor, and only when every earlier step
    has succeeded; [Globals] is written only after the handler has
    accepted, and then only to drop the input event; the relay thread is
    started only then as well. *)
Theorem handler_called_once_when_reached env m w :
  let w' := handoff_world (attemptHandoff env m w) in
  let evs := events_since w w' in
  handoff_calls evs =
    (if reaches_handler env
     then [(portableAttachMsg (Descriptor m), EstablishHandoff env)] else [])
  ∧ globals w' =
      (if reaches_handler env && negb (FAILED (EstablishHandoff env))
       then without_input_event (globals w) else globals w)
  ∧ existsb (λ e, match e with EvHostSignalThreadStart _ => true | _ => false end)
      evs
    = reaches_handler env && negb (FAILED (EstablishHandoff env))
  ∧ Flags w' = Flags w.
Proof.
  unfold reaches_handler, handoff_world, without_input_event. handoff_paths env w.
  all: unfold events_since; simpl; rewrite <- ?app_assoc, drop_app_length; done.
Qed.

(** X12.  When every step of the attempt succeeds the process hands the
    session over and exits: it releases the two handles meant for the
    handler and the input event, keeps the COM apartment, the interface,
    its pipe end and the client process handle, unlocks the console
    before it waits for the client, and touches neither the process list
    nor the handles nor the history slots. *)
Theorem successful_handoff_exits env m w :
  handoff_succeeds env = true →
  ∃ w', attemptHandoff env m w = HandoffExited w'
    ∧ events_since w w' =
        [EvAcquire ResComInit; EvAcquire ResHandoffInterface;
         EvAcquire ResSignalPipeOurSide; EvAcquire ResSignalPipeTheirSide;
         EvAcquire ResOurProcess;
         EvEstablishHandoff (portableAttachMsg (Descriptor m)) (EstablishHandoff env);
         EvAcquire ResClientProcess;
         EvRelease ResSignalPipeTheirSide; EvRelease ResOurProcess]
        ++ (if bool_decide (is_Some (hInputEvent (globals w)))
            then [EvRelease ResInputEvent] else [])
        ++ [EvHostSignalThreadStart (HostSignalThreadStart env);
            EvTraceHandoffSucceeded; EvUnlockConsole; EvWaitForSingleObject;
            EvExitProcess]
    ∧ globals w' = without_input_event (globals w)
    ∧ lockDepth w' = lockDepth w - 1
    ∧ ProcessHandleList w' = ProcessHandleList w
    ∧ CommandHistories w' = CommandHistories w
    ∧ HandleHeap w' = HandleHeap w.
Proof.
  unfold handoff_succeeds, reaches_handler, without_input_event.
  handoff_paths env w; intros Hs; try discriminate.
  all: eexists; (split; [reflexivity|]); unfold events_since; simpl;
    rewrite <- ?app_assoc, drop_app_length; done.
Qed.



(** ** The disconnect routine *)

(** X17.  For a connected client [ConsoleClientDisconnectRoutine] replies
    [STATUS_SUCCESS] inline whether [RemoveConsole] reports success or
    failure; a failure is logged and nothing else.  Before that call the
    routine logs the API call, notifies the end of the application, when
    a notifier is located, with the process id read from the record, and
    traces the detach, all without changing the session; whatever
    happens to the session happens in the one call of [RemoveConsole],
    which is given the record's address and the session as it was. *)
Theorem disconnect_replies_success env m w r :
  ProcessHandleList w !! processHandle m = Some r →
  let p := processHandle m in
  let hr := RemoveConsoleResult env in
  let '(c, m', w') := ConsoleClientDisconnectRoutine env m w in
  c = ReplyInline
  ∧ m' = SetReplyStatus STATUS_SUCCESS m
  ∧ ∃ w1,
      events_since w w1 =
        EvLogApiCall FreeConsole
        :: (if LocateAccessibilityNotifier env
            then [EvNotifyConsoleEndApplication (dwProcessId r)] else [])
        ++ [EvTraceAttachDetach p false]
      ∧ state_of w1 = state_of w
      ∧ w' = LOG_IF_FAILED hr (RemoveConsole p hr w1)
      ∧ events_since (RemoveConsole p hr w1) w'
        = (if FAILED hr then [EvLogFailure hr] else []).
Proof.
  intros Hp. cbv zeta.
  assert ((ConsoleClientDisconnectRoutine env m w).1.1 ≠ Undefined) as Hd.
  { intros (_ & Hn & _)%ConsoleClientDisconnectRoutine_undefined. congruence. }
  destruct (ConsoleClientDisconnectRoutine_defined env m w Hd)
    as (own & w1 & Hown & Ht1 & Hs1 & _ & ->).
  split; [done|]. split; [done|]. exists w1.
  rewrite Hp in Hown. cbn [from_option] in Hown. subst own.
  split; [by apply events_since_app|]. split; [done|]. split; [done|].
  apply events_since_app.
  by destruct (LOG_IF_FAILED_frame (RemoveConsoleResult env)
                 (RemoveConsole (processHandle m) (RemoveConsoleResult env) w1))
    as (-> & _).
Qed.

(** ** The start notifications *)

(** X19.  The local bring-up sends the start notifications right after
    the process record is allocated and before anything else happens to
    the session: one to the console control when the client is a console
    application, one to the accessibility notifier when there is one,
    both with the 32-bit process id of the request.  They are sent once,
    however the request ends afterwards, and not at all when the record
    cannot be allocated. *)
Theorem start_notifications_follow_allocation env Cac pid tid m w :
  let w' := (localBringUp env Cac pid tid m w).2 in
  let notes :=
    (if ConsoleApp Cac then [EvNotifyConsoleApplication pid] else [])
    ++ (if LocateAccessibilityNotifier env
        then [EvNotifyConsoleStartApplication pid] else []) in
  if NT_SUCCESS (AllocProcessDataStatus env) then
    ∃ rest, events_since w w'
            = EvAllocProcessData (AllocProcessDataStatus env) :: notes ++ rest
            ∧ existsb is_start_notification rest = false
  else
    events_since w w'
    = [EvAllocProcessData (AllocProcessDataStatus env); EvUnlockConsole].
Proof.
  cbv zeta. unfold localBringUp, AllocProcessData.
  destruct (NT_SUCCESS (AllocProcessDataStatus env)) eqn:Hpd.
  - cbv zeta. wsimpl. set (p := new_address (ProcessHandleList w)).
    match goal with |- context [initializeSession env Cac p ?s m ?w4] =>
      destruct (unlocks_last_initializeSession env Cac p s m w4) as (evs & Ht & Ha);
      assert (∃ notes', trace w4 = trace w
                ++ EvAllocProcessData (AllocProcessDataStatus env) :: notes'
              ∧ notes' = (if ConsoleApp Cac then [EvNotifyConsoleApplication pid]
                          else [])
                         ++ (if LocateAccessibilityNotifier env
                             then [EvNotifyConsoleStartApplication pid] else []))
        as (notes' & Ht4 & ->)
    end.
    { eexists. split; [|reflexivity].
      destruct (LocateAccessibilityNotifier env), (ConsoleApp Cac);
        unfold update_process; wsimpl; by rewrite <- ?app_assoc. }
    exists (evs ++ [EvUnlockConsole]). split.
    + apply events_since_app. rewrite Ht, Ht4, <- !app_assoc. cbn [app].
      by rewrite <- !app_assoc.
    + rewrite existsb_app. cbn. rewrite orb_false_r.
      apply forallb_negb_existsb. eapply forallb_mono; [|exact Ha].
      by intros e [_ ?]%andb_true_iff.
  - pose proof (leave_without_record ReplyInline (AllocProcessDataStatus env) m
                  (log (EvAllocProcessData (AllocProcessDataStatus env)) w)) as H.
    cbv zeta. destruct (leave _ _ None m _) as [[c m'] w'].
    destruct H as (_ & _ & ->). apply events_since_app. wsimpl.
    by rewrite <- !app_assoc.
Qed.

(** * The lock discipline of the entry points *)





(** * CloseObject and the token it is given *)

(** C10, as amended.  [ConsoleCloseObject] looks at nothing but the
    address in the request and passes it to [delete] as it is.  For the
    null token and for a token that names a live handle, whoever owns it,
    the routine replies [STATUS_SUCCESS] inline and the handle is gone;
    for any other token the [delete] is undefined behaviour: the routine
    has taken the lock, and neither a reply status nor a return is
    promised. *)
Theorem close_object_deletes_unchecked m w :
  let h := objectHandle m in
  let '(c, m', w') := ConsoleCloseObject m w in
  (h = 0 →
   c = ReplyInline ∧ m' = SetReplyStatus STATUS_SUCCESS m
   ∧ events_since w w' = [EvLockConsole; EvUnlockConsole]
   ∧ HandleHeap w' = HandleHeap w)
  ∧ (h ≠ 0 → is_Some (HandleHeap w !! h) →
     c = ReplyInline ∧ m' = SetReplyStatus STATUS_SUCCESS m
     ∧ events_since w w' = [EvLockConsole; EvDeleteHandle h; EvUnlockConsole]
     ∧ HandleHeap w' = delete h (HandleHeap w))
  ∧ (h ≠ 0 → HandleHeap w !! h = None →
     c = Undefined ∧ m' = m ∧ events_since w w' = [EvLockConsole]).
Proof.
  cbv zeta. unfold ConsoleCloseObject, delete_pointer, delete_handle.
  destruct (Z.eqb_spec (objectHandle m) 0) as [Hz|Hnz].
  { split; [|split]; [|done|done]. intros _.
    repeat split. unfold events_since. cbn.
    by rewrite <- !app_assoc, drop_app_length. }
  cbn [HandleHeap LockConsole log with_lockDepth].
  destruct (bool_decide (is_Some (HandleHeap w !! objectHandle m))) eqn:Hl.
  - apply bool_decide_eq_true in Hl.
    split; [done|]. split.
    + intros _ _. repeat split. unfold events_since. cbn.
      by rewrite <- !app_assoc, drop_app_length.
    + intros _ Hn. rewrite Hn in Hl. by destruct Hl.
  - apply bool_decide_eq_false in Hl.
    split; [done|]. split; [done|].
    intros _ _. repeat split. unfold events_since. cbn.
    by rewrite drop_app_length.
Qed.

(** C10, as stated, fails for a token that was never handed out: the
    close of such a token on the connected session is not answered with
    success; it is undefined. *)
Lemma close_of_never_produced_token :
  ¬ (let '(c, m', _) := ConsoleCloseObject (closeMsg 0xDEAD) connectedWorld in
     c = ReplyInline ∧ ReplyStatus m' = STATUS_SUCCESS).
Proof. vm_compute. intros [H _]. discriminate. Qed.

(** * The command-history step *)

Lemma two_inserts_live {A} (heap : gmap Z A) k1 v1 k2 v2 :
  is_Some (<[k2:=v2]> (<[k1:=v1]> heap) !! k1)
  ∧ is_Some (<[k2:=v2]> (<[k1:=v1]> heap) !! k2).
Proof.
  split; [|rewrite lookup_insert_eq; by eexists].
  apply lookup_insert_is_Some. destruct (decide (k2 = k1)); [by left|right].
  split; [done|]. rewrite lookup_insert_eq. by eexists.
Qed.

(** C3, as amended.  At the command-history step a failure of the
    allocation is fatal exactly when it is thrown.  An allocation that
    returns, be it without a slot, is not examined: the request goes on
    with the focus and the primary input handle, and when the handle
    allocations and the delivery succeed it completes with a success
    reply and both primary handles, the history unchanged if there was no
    slot.  An exception is logged and ends the request at once: the
    routine returns the message for an inline reply, and it neither
    allocates a primary handle nor hands a completion to the driver. *)
Theorem history_failure_fatal_only_when_thrown env Cac p Status m w :
  (s_Allocate env = HistoryThrows →
     let '(c, m', w') := associateHistory env Cac p Status m w in
     c = ReplyInline
     ∧ (∃ rest, events_since w w'
                = EvHistoryAllocate p :: EvLogCaughtException :: rest)
     ∧ existsb is_handle_allocation (events_since w w') = false
     ∧ existsb is_delivery (events_since w w') = false)
  ∧ (s_Allocate env ≠ HistoryThrows →
     ∃ rest, events_since w (associateHistory env Cac p Status m w).2
             = EvHistoryAllocate p
               :: EvModifyConsoleProcessFocus
                    (vtIoMode w || WI_IsFlagSet (Flags w) CONSOLE_HAS_FOCUS)
               :: EvAllocateIoHandle Input (Z.lor GENERIC_READ GENERIC_WRITE)
                    (Z.lor FILE_SHARE_READ FILE_SHARE_WRITE) (AllocateInputStatus env)
               :: rest)
  ∧ (s_Allocate env ≠ HistoryThrows →
     is_Some (ProcessHandleList w !! p) →
     NT_SUCCESS (AllocateInputStatus env) = true →
     NT_SUCCESS (AllocateOutputStatus env) = true →
     FAILED (CompleteIo env) = false →
     let res := associateHistory env Cac p Status m w in
     res.1.1 = ReplyDone
     ∧ completed_with_handles res p
     ∧ (s_Allocate env = HistoryNoSlot →
        CommandHistories res.2 = CommandHistories w)).
Proof.
  split; [|split]; unfold associateHistory.
  - intros ->. cbn zeta.
    set (A := λ e, negb (is_handle_allocation e || is_delivery e)).
    set (w1 := log EvLogCaughtException (log (EvHistoryAllocate p) w)).
    destruct (quiet_leave A ReplyInline Status (Some p) m w1)
      as ((evs & Ht & Ha) & _); try done.
    unfold leave in *. destruct (cleanup Status (Some p) m w1) as [m' w'].
    cbn [snd] in Ht.
    assert (events_since w w' = EvHistoryAllocate p :: EvLogCaughtException :: evs)
      as Hev.
    { apply events_since_app. rewrite Ht. subst w1. simpl. by rewrite <- !app_assoc. }
    rewrite Hev. split; [done|]. split; [by exists evs|].
    assert (existsb (λ e, is_handle_allocation e || is_delivery e) evs = false) as Hn
      by (by apply forallb_negb_existsb).
    simpl. split.
    + apply not_true_is_false. intros (e & He & Hp)%existsb_exists.
      assert (existsb (λ e, is_handle_allocation e || is_delivery e) evs = true).
      { apply existsb_exists. exists e. by rewrite Hp. }
      congruence.
    + apply not_true_is_false. intros (e & He & Hp)%existsb_exists.
      assert (existsb (λ e, is_handle_allocation e || is_delivery e) evs = true).
      { apply existsb_exists. exists e. rewrite Hp. by rewrite orb_true_r. }
      congruence.
  - intros Hne.
    assert (∀ slot,
      ∃ rest,
        trace (createHandles env p m
                 (log (EvModifyConsoleProcessFocus
                         (vtIoMode w || WI_IsFlagSet (Flags w) CONSOLE_HAS_FOCUS))
                    (HistoryAllocate
                       (take (Z.to_nat (AppNameLength Cac / sizeof_wchar_t))
                          (AppName Cac)) p slot w))).2
        = trace w ++ EvHistoryAllocate p
            :: EvModifyConsoleProcessFocus
                 (vtIoMode w || WI_IsFlagSet (Flags w) CONSOLE_HAS_FOCUS)
            :: EvAllocateIoHandle Input (Z.lor GENERIC_READ GENERIC_WRITE)
                 (Z.lor FILE_SHARE_READ FILE_SHARE_WRITE) (AllocateInputStatus env)
            :: rest) as K.
    { intros slot.
      match goal with |- context [createHandles env p m ?w0] =>
        destruct (createHandles_first_event env p m w0) as (rest & Ht) end.
      exists rest. rewrite Ht. unfold HistoryAllocate. destruct slot; simpl;
        by rewrite <- !app_assoc. }
    destruct (s_Allocate env); [| |done].
    + destruct (K true) as (rest & Ht). exists rest.
      apply events_since_app. exact Ht.
    + destruct (K false) as (rest & Ht). exists rest.
      apply events_since_app. exact Ht.
  - intros Hne [r Hp] Hin Hout Hio.
    unfold HistoryAllocate, createHandles, AllocateIoHandle, completeConnection,
      leave, cleanup, completed_with_handles.
    rewrite Hin, Hout, Hio.
    destruct (s_Allocate env); [| |done]; unfold update_process; wsimpl;
      (split; [done|]); (split; [|done]); (split; [done|]);
      rewrite !lookup_alter_eq, Hp; cbn [fmap option_fmap option_map];
      eexists _, _, _; (split; [reflexivity|]);
      (split; [reflexivity|]); (split; [reflexivity|]);
      apply two_inserts_live.
Qed.

(** C3, as stated, fails: when the command-history allocation throws for
    the first client of a fresh session, the request ends with no primary
    handle in existence, let alone held by the client's record. *)
Lemma history_exception_allocates_no_handles :
  ¬ ∃ p, completed_with_handles
           (ConsoleHandleConnectionRequest historyThrowsEnv connectMsg freshWorld) p.
Proof.
  intros (p & _ & r & hi & ho & _ & _ & _ & [d Hd] & _).
  assert (HandleHeap
            (ConsoleHandleConnectionRequest historyThrowsEnv connectMsg freshWorld).2
          = ∅) as Hheap by (vm_compute; reflexivity).
  rewrite Hheap, lookup_empty in Hd. discriminate.
Qed.


(** * The session flag *)

(** On a session that is not initialized the initializer is the first
    thing [initializeSession] runs. *)
Lemma initializeSession_runs env Cac p Status m w :
  initialized w = false →
  ∃ rest, trace (initializeSession env Cac p Status m w).2
          = trace w ++ EvConsoleAllocateConsole (ConsoleAllocateConsole env) :: rest.
Proof.
  intros Hi. unfold initializeSession. rewrite WI_IsFlagClear_negb.
  unfold initialized in Hi. rewrite Hi. cbn [negb]. cbv zeta.
  destruct (negb (NT_SUCCESS (ConsoleAllocateConsole env))).
  - match goal with |- context [leave ReplyInline ?s ?pd m ?w1] =>
      destruct (quiet_leave (bringup_alphabet true) ReplyInline s pd m w1)
        as ((evs & Ht & _) & _); alphabet end.
    exists evs. rewrite Ht. cbn. by rewrite <- !app_assoc.
  - match goal with |- context [associateHistory env Cac p ?s m ?w1] =>
      destruct (quiet_associateHistory env Cac p s m w1) as ((evs & Ht & _) & _)
    end.
    exists (EvSetInitialized :: evs). rewrite Ht. cbn. by rewrite <- !app_assoc.
Qed.

Lemma localBringUp_runs_initializer env Cac pid tid m w :
  initialized w = false →
  NT_SUCCESS (AllocProcessDataStatus env) = true →
  ∃ pre rest, trace (localBringUp env Cac pid tid m w).2
              = trace w ++ pre
                ++ EvConsoleAllocateConsole (ConsoleAllocateConsole env) :: rest.
Proof.
  intros Hi Hpd. unfold localBringUp, AllocProcessData. rewrite Hpd. cbv zeta.
  set (p := new_address _).
  set (w4 := if LocateAccessibilityNotifier env then _ else _).
  assert (Flags w4 = Flags w
          ∧ ∃ pre, trace w4 = trace w ++ pre) as (F4 & pre & T4).
  { subst w4. destruct (LocateAccessibilityNotifier env), (ConsoleApp Cac);
      (split; [done|]); eexists; cbn; rewrite <- ?app_assoc; reflexivity. }
  assert (initialized w4 = false) as Hi4 by (unfold initialized; by rewrite F4).
  destruct (initializeSession_runs env Cac p (AllocProcessDataStatus env) m w4 Hi4)
    as (rest & Ht).
  exists pre, rest. by rewrite Ht, T4, <- app_assoc.
Qed.

(** A connection request that is accepted, gets its process record and
    is not handed off runs the initializer of a session that is not
    initialized. *)
Lemma connection_runs_initializer env m w :
  initialized w = false →
  NT_SUCCESS (ConsoleInitializeConnectInfo env).1 = true →
  NT_SUCCESS (AllocProcessDataStatus env) = true →
  (ConsoleHandleConnectionRequest env m w).1.1 ≠ ProcessExited →
  ∃ pre rest, events_since w (ConsoleHandleConnectionRequest env m w).2
              = pre ++ EvConsoleAllocateConsole (ConsoleAllocateConsole env) :: rest.
Proof.
  intros Hi Hst Hpd. unfold ConsoleHandleConnectionRequest.
  destruct (ConsoleInitializeConnectInfo env) as [st Cac]. cbn [fst] in Hst.
  cbv zeta. rewrite Hst. cbn [negb].
  set (w2 := log (EvInitializeConnectInfo st) _).
  set (d := (_shouldAttemptHandoff env (globals w2) (Flags w2) Cac).2).
  set (w3 := log (EvShouldAttemptHandoff d) w2).
  assert (∀ w4, Flags w4 = Flags w → (∃ evs, trace w4 = trace w ++ evs) →
    ∃ pre rest,
      events_since w (localBringUp env Cac (to_DWORD (Process (Descriptor m)))
                        (to_DWORD (Object (Descriptor m))) m w4).2
      = pre ++ EvConsoleAllocateConsole (ConsoleAllocateConsole env) :: rest) as L.
  { intros w4 F4 (evs & T4).
    assert (initialized w4 = false) as Hi4 by (unfold initialized; by rewrite F4).
    destruct (localBringUp_runs_initializer env Cac
                (to_DWORD (Process (Descriptor m)))
                (to_DWORD (Object (Descriptor m))) m w4 Hi4 Hpd)
      as (pre & rest & Ht).
    exists (evs ++ pre), rest. apply events_since_app.
    by rewrite Ht, T4, <- !app_assoc. }
  assert (∃ evs, trace w3 = trace w ++ evs) as T3.
  { eexists. subst w3 w2. cbn. rewrite <- !app_assoc. reflexivity. }
  destruct d.
  - pose proof (attemptHandoff_effect env m w3) as He.
    destruct (attemptHandoff env m w3) as [w4|w4]; [|done].
    intros _. destruct He as ((evs4 & T4 & _) & _ & F4).
    apply L; [by rewrite F4|].
    destruct T3 as (evs3 & T3). exists (evs3 ++ evs4).
    by rewrite T4, T3, <- app_assoc.
  - intros _. by apply L.
Qed.

(** A run that starts on a session that is not initialized and ends on
    an initialized one has made the transition. *)
Lemma initializations_lower reqs : ∀ w,
  initialized w = false → initialized (serve reqs w) = true →
  (1 ≤ initializations reqs w)%nat.
Proof.
  induction reqs as [|[[r env] m] rest IH]; intros w Hw Hs; simpl in *.
  { congruence. }
  destruct (dispatch r env m w) as [[c m'] w'].
  rewrite Hw. cbn [negb andb].
  destruct (initialized w') eqn:Hw'; [lia|].
  destruct c; try congruence; specialize (IH w' Hw' Hs); lia.
Qed.

(** C5.  A connection request on a session that is not initialized, once
    its descriptor is accepted and its process record allocated, runs
    the session initializer, once, and leaves the session initialized
    exactly when the initializer succeeds (unless the session was handed
    off and the process exits).  Over any run of requests the session
    goes from not initialized to initialized at most once, and exactly
    once when the run ends on an initialized session; the request on
    which it does is a connection request whose initializer ran, once,
    and succeeded; once the session is initialized every request leaves
    it initialized and none runs the session initializer. *)
Theorem session_initialized_once :
  (∀ env m w,
     initialized w = false →
     NT_SUCCESS (ConsoleInitializeConnectInfo env).1 = true →
     NT_SUCCESS (AllocProcessDataStatus env) = true →
     let '(c, _, w') := dispatch ConnectionRequest env m w in
     c ≠ ProcessExited →
     initializer_runs (events_since w w') = [ConsoleAllocateConsole env]
     ∧ initialized w' = NT_SUCCESS (ConsoleAllocateConsole env))
  ∧ (∀ reqs w, initialized w = false → initialized (serve reqs w) = true →
       initializations reqs w = 1%nat)
  ∧ (∀ reqs w, (initializations reqs w ≤ 1)%nat)
  ∧ (∀ reqs w, initialized w = true →
       initializations reqs w = 0%nat ∧ initialized (serve reqs w) = true)
  ∧ (∀ r env m w,
       let w' := (dispatch r env m w).2 in
       initialized w = false → initialized w' = true →
       r = ConnectionRequest
       ∧ NT_SUCCESS (ConsoleAllocateConsole env) = true
       ∧ initializer_runs (events_since w w') = [ConsoleAllocateConsole env])
  ∧ (∀ r env m w,
       let w' := (dispatch r env m w).2 in
       initialized w = false →
       initializer_runs (events_since w w') = [ConsoleAllocateConsole env] →
       NT_SUCCESS (ConsoleAllocateConsole env) = true →
       initialized w' = true)
  ∧ (∀ r env m w,
       let w' := (dispatch r env m w).2 in
       initialized w = true →
       initialized w' = true ∧ initializer_runs (events_since w w') = []).
Proof.
  split; [|split; [|split; [|split; [|split; [|split]]]]].
  - intros env m w Hn Hst Hpd.
    pose proof (connection_runs_initializer env m w Hn Hst Hpd) as Hran.
    destruct (dispatch_session_step ConnectionRequest env m w) as (S & _).
    cbn [dispatch] in *.
    destruct (ConsoleHandleConnectionRequest env m w) as [[c m'] w'].
    cbn [fst snd] in *. intros Hc.
    destruct (Hran Hc) as (pre & rest & Hev).
    destruct S as [(Hruns & _)|(_ & Hruns & HF)].
    + rewrite Hev, initializer_runs_app in Hruns.
      apply app_eq_nil in Hruns as (_ & Hruns). discriminate.
    + split; [done|]. unfold initialized in *. rewrite HF.
      destruct (NT_SUCCESS (ConsoleAllocateConsole env)); [|done].
      apply WI_SetFlag_IsFlagSet. discriminate.
  - intros reqs w Hn Hs.
    pose proof (initializations_bound reqs w) as Hb. rewrite Hn in Hb.
    pose proof (initializations_lower reqs w Hn Hs). lia.
  - intros reqs w. pose proof (initializations_bound reqs w).
    destruct (initialized w); lia.
  - intros reqs w Hi. split; [|by apply serve_keeps_initialized].
    pose proof (initializations_bound reqs w). rewrite Hi in *. lia.
  - intros r env m w w' Hn Hi. subst w'.
    destruct (dispatch_session_step r env m w) as (S & Hother).
    assert (Flags (dispatch r env m w).2 ≠ Flags w) as Hchg.
    { intros HF. unfold initialized in *. rewrite HF in Hi. congruence. }
    destruct S as [(_ & HF)|(_ & Hruns & HF)]; [done|].
    destruct (NT_SUCCESS (ConsoleAllocateConsole env)); [|done].
    repeat split; [|done].
    destruct r; try done; destruct Hother as (_ & HF'); done.
  - intros r env m w w' Hn Hruns Hok. subst w'.
    destruct (dispatch_session_step r env m w) as ([(Hr & _)|(_ & _ & HF)] & _).
    + rewrite Hr in Hruns. discriminate.
    + unfold initialized. rewrite HF, Hok.
      apply WI_SetFlag_IsFlagSet. discriminate.
  - intros r env m w w' Hi. subst w'.
    split; [by apply dispatch_keeps_initialized|].
    destruct (dispatch_session_step r env m w) as ([(Hr & _)|(Hn & _)] & _);
      [done | congruence].
Qed.

(** * Failure of the handoff attempt *)

(** The local bring-up on a session that is not initialized, with every
    collaborator succeeding: the reply and every field of the state it
    ends in. *)
Lemma localBringUp_completes env Cac pid tid m w :
  initialized w = false →
  NT_SUCCESS (AllocProcessDataStatus env) = true →
  NT_SUCCESS (ConsoleAllocateConsole env) = true →
  s_Allocate env ≠ HistoryThrows →
  NT_SUCCESS (AllocateInputStatus env) = true →
  NT_SUCCESS (AllocateOutputStatus env) = true →
  FAILED (CompleteIo env) = false →
  let p := new_address (ProcessHandleList w) in
  let input := (HostOwned, mkHandle Input (Z.lor GENERIC_READ GENERIC_WRITE)
                             (Z.lor FILE_SHARE_READ FILE_SHARE_WRITE)) in
  let output := (HostOwned, mkHandle Output (Z.lor GENERIC_READ GENERIC_WRITE)
                              (Z.lor FILE_SHARE_READ FILE_SHARE_WRITE)) in
  let hi := new_address (HandleHeap w) in
  let ho := new_address (<[hi := input]> (HandleHeap w)) in
  let '(c, m', w') := localBringUp env Cac pid tid m w in
  c = ReplyDone
  ∧ m' = SetCompleteWriteSize sizeof_CD_CONNECTION_INFORMATION
           (SetReplyInformation sizeof_CD_CONNECTION_INFORMATION
              (SetReplyStatus STATUS_SUCCESS m))
  ∧ globals w' = globals w
  ∧ Flags w' = WI_SetFlag (Flags w) CONSOLE_INITIALIZED
  ∧ vtIoMode w' = vtIoMode w
  ∧ ProcessHandleList w' =
      <[p := mkProcess pid tid (ProcessGroupId Cac) true (Some hi) (Some ho)]>
        (ProcessHandleList w)
  ∧ CommandHistories w' =
      match s_Allocate env with
      | HistorySlot =>
          <[p := take (Z.to_nat (AppNameLength Cac / sizeof_wchar_t)) (AppName Cac)]>
            (CommandHistories w)
      | _ => CommandHistories w
      end
  ∧ HandleHeap w' = <[ho := output]> (<[hi := input]> (HandleHeap w))
  ∧ lockDepth w' = lockDepth w - 1.
Proof.
  intros Hinit Hpd Hcac Hhist Hin Hout Hio p input output hi ho.
  unfold localBringUp, AllocProcessData. rewrite Hpd. wsimpl.
  fold p.
  set (w4 := if LocateAccessibilityNotifier env then _ else _).
  assert (WI_IsFlagClear (Flags w) CONSOLE_INITIALIZED = true) as Hclear.
  { rewrite WI_IsFlagClear_negb. unfold initialized in Hinit. by rewrite Hinit. }
  assert (Flags w4 = Flags w ∧ HandleHeap w4 = HandleHeap w
          ∧ lockDepth w4 = lockDepth w ∧ CommandHistories w4 = CommandHistories w
          ∧ globals w4 = globals w ∧ vtIoMode w4 = vtIoMode w
          ∧ ProcessHandleList w4 =
              <[p := mkProcess pid tid (ProcessGroupId Cac) true None None]>
                (ProcessHandleList w)) as (F4 & H4 & L4 & C4 & G4 & V4 & P4).
  { subst w4. rewrite Hclear.
    destruct (LocateAccessibilityNotifier env), (ConsoleApp Cac);
      unfold update_process; wsimpl; rewrite alter_insert_eq; done. }
  clearbody w4.
  unfold initializeSession. rewrite F4, Hclear, Hcac. wsimpl.
  unfold associateHistory, HistoryAllocate, createHandles, AllocateIoHandle,
    completeConnection, leave, cleanup.
  rewrite Hin, Hout, Hio.
  destruct (s_Allocate env); [| |done]; unfold update_process; wsimpl;
    rewrite ?H4, ?P4, ?L4, ?F4, ?C4, ?G4, ?V4; fold input; fold hi; fold output;
    fold ho; rewrite !alter_insert_eq;
    cbn [set_pInputHandle set_pOutputHandle dwProcessId dwThreadId
         ulProcessGroupId fRootProcess pInputHandle pOutputHandle];
    repeat split.
Qed.

(** A positive handoff decision is taken on a session that is not
    initialized. *)
Lemma handoff_decision_needs_fresh_session env g gciFlags cac :
  (_shouldAttemptHandoff env g gciFlags cac).2 = true →
  WI_IsFlagSet gciFlags CONSOLE_INITIALIZED = false.
Proof.
  intros Hd. destruct (WI_IsFlagSet gciFlags CONSOLE_INITIALIZED) eqn:Hi; [|done].
  by rewrite (initialized_blocks_handoff env g gciFlags cac Hi) in Hd.
Qed.

(** C1.  When the handoff decision is positive and the attempt fails at
    any step up to and including the call of [EstablishHandoff], the
    failure is swallowed: the request goes on to the local bring-up, from
    a session state that is exactly the one the decision was taken in;
    every resource the attempt acquired has been released, none of them
    twice; and with every collaborator of the bring-up succeeding the
    request completes with a success reply, the session initialized and
    the client's record holding its two handles, ending in the same
    state and with the same reply as a bring-up started without any
    attempt. *)
Theorem failed_handoff_falls_back_to_local_bring_up s env m w st cac :
  ConsoleInitializeConnectInfo env = (st, cac) →
  NT_SUCCESS st = true →
  (_shouldAttemptHandoff env (globals w) (Flags w) cac).2 = true →
  fails_at s env →
  NT_SUCCESS (AllocProcessDataStatus env) = true →
  NT_SUCCESS (ConsoleAllocateConsole env) = true →
  s_Allocate env ≠ HistoryThrows →
  NT_SUCCESS (AllocateInputStatus env) = true →
  NT_SUCCESS (AllocateOutputStatus env) = true →
  FAILED (CompleteIo env) = false →
  let w0 := log (EvShouldAttemptHandoff true)
              (log (EvInitializeConnectInfo st)
                 (LockConsole (log (EvLogApiCall AttachConsole) w))) in
  let bringUp := localBringUp env cac (to_DWORD (Process (Descriptor m)))
                   (to_DWORD (Object (Descriptor m))) m in
  let res := ConsoleHandleConnectionRequest env m w in
  ∃ w1,
    attemptHandoff env m w0 = HandoffFellThrough w1
    ∧ res = bringUp w1
    ∧ state_of w1 = state_of w0
    ∧ NoDup (released (events_since w0 w1))
    ∧ released (events_since w0 w1) ≡ₚ acquired (events_since w0 w1)
    ∧ res.1 = (bringUp w0).1
    ∧ state_of res.2 = state_of (bringUp w0).2
    ∧ res.1.1 = ReplyDone
    ∧ completed_with_handles res (new_address (ProcessHandleList w))
    ∧ initialized res.2 = true
    ∧ lockDepth res.2 = lockDepth w.
Proof.
  intros Hci Hst Hd Hfail Hpd Hcac Hhist Hin Hout Hio w0 bringUp res.
  destruct (handoff_failure_before_transfer_restores s env m w0 Hfail)
    as (w1 & Hatt & Hstate & Hnodup & Hperm).
  exists w1.
  assert (res = bringUp w1) as Hres.
  { subst res bringUp. unfold ConsoleHandleConnectionRequest.
    rewrite Hci. cbv zeta. rewrite Hst. cbn [negb].
    cbn [globals Flags log LockConsole with_lockDepth]. rewrite Hd.
    fold w0. by rewrite Hatt. }
  assert (initialized w0 = false) as Hi0.
  { unfold initialized. subst w0. cbn [Flags log LockConsole with_lockDepth].
    by apply (handoff_decision_needs_fresh_session env (globals w) _ cac). }
  apply state_of_fields in Hstate as Hf.
  destruct Hf as (G1 & F1 & V1 & P1 & C1 & H1 & L1).
  assert (initialized w1 = false) as Hi1 by (unfold initialized; by rewrite F1).
  pose proof (localBringUp_completes env cac (to_DWORD (Process (Descriptor m)))
                (to_DWORD (Object (Descriptor m))) m w1
                Hi1 Hpd Hcac Hhist Hin Hout Hio) as K1.
  pose proof (localBringUp_completes env cac (to_DWORD (Process (Descriptor m)))
                (to_DWORD (Object (Descriptor m))) m w0
                Hi0 Hpd Hcac Hhist Hin Hout Hio) as K0.
  cbv zeta in K1, K0. fold bringUp in K1, K0. rewrite Hres.
  rewrite G1, F1, V1, P1, C1, H1, L1 in K1.
  destruct (bringUp w1) as [[c1 m1] x1], (bringUp w0) as [[c0 m0] x0].
  destruct K1 as (-> & -> & Kg1 & Kf1 & Kv1 & Kp1 & Kc1 & Kh1 & Kl1).
  destruct K0 as (-> & -> & Kg0 & Kf0 & Kv0 & Kp0 & Kc0 & Kh0 & Kl0).
  cbn [fst snd].
  split; [done|]. split; [done|]. split; [done|]. split; [done|].
  split; [done|]. split; [done|].
  split; [apply state_of_ext; congruence|].
  split; [done|].
  assert (ProcessHandleList w0 = ProcessHandleList w
          ∧ lockDepth w0 = lockDepth w + 1) as (Pw & Lw) by done.
  split; [|split].
  - split; [done|]. cbn [fst snd]. rewrite Kp1, Kh1, Pw.
    eexists _, _, _. rewrite lookup_insert_eq.
    split; [reflexivity|]. split; [reflexivity|]. split; [reflexivity|].
    apply two_inserts_live.
  - unfold initialized. rewrite Kf1. apply WI_SetFlag_IsFlagSet. discriminate.
  - lia.
Qed.

(** * The further properties at concrete inputs *)

(** X2 on the fresh session with the handoff compiled in: nothing blocks,
    and all ten conditions have been evaluated. *)
Lemma handoff_attempted_exactly_when_unblocked_witness :
  (_shouldAttemptHandoff handoffSucceedsEnv (globals freshWorld) (Flags freshWorld)
     cmdCac).2 = true
  ∧ (_shouldAttemptHandoff handoffSucceedsEnv (globals freshWorld)
       (Flags freshWorld) cmdCac).1 = check_order.
Proof.
  split; [reflexivity|].
  apply (proj2 (handoff_attempted_exactly_when_unblocked handoffSucceedsEnv
                  (globals freshWorld) (Flags freshWorld) cmdCac)).
  reflexivity.
Defined.

(** X3 on the descriptor of "cmd.exe", which does not set
    [STARTF_USESHOWWINDOW]: asking for a hidden window changes nothing. *)
Lemma show_window_hint_needs_flag_witness :
  WI_IsFlagSet (StartupFlags cmdCac) STARTF_USESHOWWINDOW = false
  ∧ _shouldAttemptHandoff handoffSucceedsEnv (globals freshWorld) (Flags freshWorld)
      (set_ShowWindow SW_HIDE cmdCac)
    = _shouldAttemptHandoff handoffSucceedsEnv (globals freshWorld)
        (Flags freshWorld) cmdCac.
Proof.
  split; [reflexivity|].
  apply (proj1 (show_window_hint_needs_flag handoffSucceedsEnv (globals freshWorld)
                  (Flags freshWorld) cmdCac SW_HIDE)).
  reflexivity.
Defined.

(** X4 on a request of object type 7. *)
Lemma unknown_object_type_rejected_witness :
  let '(c, m', w') := ConsoleCreateObject localEnv (createMsg 7 GENERIC_READ 0)
                        freshWorld in
  c = ReplyInline
  ∧ ReplyStatus m' = STATUS_INVALID_PARAMETER
  ∧ ObjectType (CreateObject m') = ObjectType (CreateObject (createMsg 7 GENERIC_READ 0))
  ∧ events_since freshWorld w' = [EvLockConsole; EvUnlockConsole]
  ∧ state_of w' = state_of freshWorld.
Proof.
  apply (unknown_object_type_rejected localEnv (createMsg 7 GENERIC_READ 0)
           freshWorld); discriminate.
Defined.

(** X5 on a request for the current input that meets a sharing
    violation. *)
Lemma create_allocation_failure_propagated_witness :
  NT_SUCCESS STATUS_SHARING_VIOLATION = false
  ∧ (let '(c, m', w') :=
       ConsoleCreateObject sharingViolationEnv
         (createMsg CD_IO_OBJECT_TYPE_CURRENT_INPUT GENERIC_READ 0) freshWorld in
     c = ReplyInline
     ∧ ReplyStatus m' = STATUS_SHARING_VIOLATION
     ∧ HandleHeap w' = HandleHeap freshWorld).
Proof.
  split; [reflexivity|].
  pose proof (create_allocation_failure_propagated sharingViolationEnv
                (createMsg CD_IO_OBJECT_TYPE_CURRENT_INPUT GENERIC_READ 0)
                freshWorld eq_refl) as H.
  destruct (ConsoleCreateObject sharingViolationEnv _ freshWorld) as [[c m'] w'].
  destruct H as (Hc & Hs & Hh & _). split; [exact Hc|]. split; [exact Hs|exact Hh].
Defined.

(** X6 on a generic request for read access, with every collaborator
    succeeding. *)
Lemma create_success_publishes_handle_witness :
  NT_SUCCESS (AllocateInputStatus localEnv) = true
  ∧ (let '(c, m', w') :=
       ConsoleCreateObject localEnv (genericCreate GENERIC_READ) freshWorld in
     c = ReplyDone
     ∧ ReplyStatus m' = STATUS_SUCCESS
     ∧ ReplyInformation m' = new_address (HandleHeap freshWorld)).
Proof.
  split; [reflexivity|].
  pose proof (create_success_publishes_handle localEnv (genericCreate GENERIC_READ)
                freshWorld Input (AllocateInputStatus localEnv)
                (list_elem_of_here _ _) eq_refl) as H.
  cbv zeta in H.
  destruct (ConsoleCreateObject localEnv _ freshWorld) as [[c m'] w'].
  destruct H as (Hc & Hs & Hi & _). split; [exact Hc|]. split; [exact Hs|exact Hi].
Defined.

(** X7 on the same request, closed under the token of its reply. *)
Lemma create_then_close_restores_heap_witness :
  SUCCEEDED (CompleteIo localEnv) = true
  ∧ HandleHeap
      (ConsoleCloseObject (closeMsg (new_address (HandleHeap freshWorld)))
         (ConsoleCreateObject localEnv (genericCreate GENERIC_READ) freshWorld).2).2
    = HandleHeap freshWorld.
Proof.
  split; [reflexivity|].
  pose proof (create_then_close_restores_heap localEnv (genericCreate GENERIC_READ)
                freshWorld (new_address (HandleHeap freshWorld))
                (closeMsg (new_address (HandleHeap freshWorld)))
                eq_refl eq_refl eq_refl) as H.
  cbv zeta in H.
  destruct (ConsoleCloseObject _ _) as [[c m'] w']. cbn [snd].
  destruct H as (_ & _ & Hh & _). exact Hh.
Defined.

(** X9 on the fresh session when the primary input handle meets a
    sharing violation. *)
Lemma failed_connection_leaves_no_record_witness :
  s_Allocate sharingViolationEnv ≠ HistoryThrows
  ∧ (ConsoleHandleConnectionRequest sharingViolationEnv connectMsg freshWorld).1.1
    = ReplyInline
  ∧ ProcessHandleList
      (ConsoleHandleConnectionRequest sharingViolationEnv connectMsg freshWorld).2
    = ProcessHandleList freshWorld
  ∧ HandleHeap
      (ConsoleHandleConnectionRequest sharingViolationEnv connectMsg freshWorld).2
    = HandleHeap freshWorld.
Proof.
  assert (s_Allocate sharingViolationEnv ≠ HistoryThrows) as Hh by discriminate.
  split; [exact Hh|].
  pose proof (failed_connection_leaves_no_record sharingViolationEnv connectMsg
                freshWorld Hh) as H.
  assert ((ConsoleHandleConnectionRequest sharingViolationEnv connectMsg
             freshWorld).1.1 = ReplyInline) as Hc by reflexivity.
  split; [exact Hc|].
  destruct (ConsoleHandleConnectionRequest sharingViolationEnv connectMsg freshWorld)
    as [[c m'] w'].
  destruct (H Hc) as (_ & Hp & Hheap & _). split; [exact Hp | exact Hheap].
Defined.

(** X10 on a descriptor that [ConsoleInitializeConnectInfo] rejects. *)
Lemma rejected_descriptor_ends_request_witness :
  NT_SUCCESS (ConsoleInitializeConnectInfo badDescriptorEnv).1 = false
  ∧ (let '(c, m', w') :=
       ConsoleHandleConnectionRequest badDescriptorEnv connectMsg freshWorld in
     c = ReplyInline
     ∧ m' = SetReplyStatus (ConsoleInitializeConnectInfo badDescriptorEnv).1 connectMsg
     ∧ events_since freshWorld w'
       = [EvLogApiCall AttachConsole; EvLockConsole;
          EvInitializeConnectInfo (ConsoleInitializeConnectInfo badDescriptorEnv).1;
          EvUnlockConsole]
     ∧ state_of w' = state_of freshWorld).
Proof.
  split; [reflexivity|].
  apply (rejected_descriptor_ends_request badDescriptorEnv connectMsg freshWorld).
  reflexivity.
Defined.

(** X11 on the connected session: a second client joins. *)
Lemma later_connection_joins_session_witness :
  initialized connectedWorld = true
  ∧ (ConsoleHandleConnectionRequest localEnv connectMsg connectedWorld).1.1 = ReplyDone
  ∧ Flags (ConsoleHandleConnectionRequest localEnv connectMsg connectedWorld).2
    = Flags connectedWorld.
Proof.
  split; [reflexivity|].
  pose proof (later_connection_joins_session localEnv connectMsg connectedWorld
                STATUS_SUCCESS cmdCac eq_refl eq_refl eq_refl eq_refl) as H.
  cbv zeta in H.
  destruct (ConsoleHandleConnectionRequest localEnv connectMsg connectedWorld)
    as [[c m'] w'].
  destruct H as (Hc & _ & _ & Hf & _);
    first [reflexivity | discriminate | idtac].
  split; [exact Hc | exact Hf].
Defined.

(** X12 on the fresh session with an accepting handler. *)
Lemma successful_handoff_exits_witness :
  handoff_succeeds handoffSucceedsEnv = true
  ∧ ∃ w', attemptHandoff handoffSucceedsEnv connectMsg decisionWorld = HandoffExited w'
          ∧ globals w' = without_input_event (globals decisionWorld)
          ∧ lockDepth w' = lockDepth decisionWorld - 1.
Proof.
  split; [reflexivity|].
  destruct (successful_handoff_exits handoffSucceedsEnv connectMsg decisionWorld
              eq_refl) as (w' & He & _ & Hg & Hl & _).
  exists w'. split; [exact He|]. split; [exact Hg | exact Hl].
Defined.


(** X18 on the fresh session when the history allocation throws. *)
Lemma history_exception_keeps_record_witness :
  s_Allocate historyThrowsEnv = HistoryThrows
  ∧ (let '(c, m', w') :=
       ConsoleHandleConnectionRequest historyThrowsEnv connectMsg freshWorld in
     c = ReplyInline ∧ m' = connectMsg
     ∧ is_Some (ProcessHandleList w' !! new_address (ProcessHandleList freshWorld))).
Proof.
  split; [reflexivity|].
  pose proof (history_exception_keeps_record historyThrowsEnv connectMsg freshWorld
                STATUS_SUCCESS cmdCac eq_refl eq_refl eq_refl
                (or_intror eq_refl) eq_refl) as H.
  cbv zeta in H.
  assert ((ConsoleHandleConnectionRequest historyThrowsEnv connectMsg
             freshWorld).1.1 ≠ ProcessExited) as Hc by discriminate.
  destruct (ConsoleHandleConnectionRequest historyThrowsEnv connectMsg freshWorld)
    as [[c m'] w'].
  destruct (H Hc) as (-> & -> & Hp & _). split; [reflexivity|]. split; [reflexivity|].
  rewrite Hp, lookup_insert_eq. by eexists.
Defined.

(** * The lock, the close, the history step, the session flag and the
    failed handoff at concrete inputs *)

(** C1 on the fresh session with a handler that refuses the handoff. *)
Lemma failed_handoff_falls_back_witness :
  fails_at StepEstablishHandoff handlerRefusesEnv
  ∧ (_shouldAttemptHandoff handlerRefusesEnv (globals freshWorld)
       (Flags freshWorld) cmdCac).2 = true
  ∧ ∃ w1,
      attemptHandoff handlerRefusesEnv connectMsg decisionWorld
      = HandoffFellThrough w1
      ∧ state_of w1 = state_of decisionWorld
      ∧ NoDup (released (events_since decisionWorld w1))
      ∧ (ConsoleHandleConnectionRequest handlerRefusesEnv connectMsg freshWorld).1.1
        = ReplyDone
      ∧ completed_with_handles
          (ConsoleHandleConnectionRequest handlerRefusesEnv connectMsg freshWorld)
          (new_address (ProcessHandleList freshWorld)).
Proof.
  assert (fails_at StepEstablishHandoff handlerRefusesEnv) as Hf
    by (repeat split; reflexivity).
  split; [exact Hf|]. split; [reflexivity|].
  destruct (failed_handoff_falls_back_to_local_bring_up StepEstablishHandoff
              handlerRefusesEnv connectMsg freshWorld STATUS_SUCCESS cmdCac
              eq_refl eq_refl eq_refl Hf eq_refl eq_refl)
    as (w1 & Ha & _ & Hs & Hn & _ & _ & _ & Hc & Hh & _);
    try first [reflexivity | discriminate].
  exists w1. split; [exact Ha|]. split; [exact Hs|]. split; [exact Hn|].
  split; [exact Hc | exact Hh].
Defined.


(** C3 on the connected session when no history slot is free: the
    request completes with both handles and the history is as it was. *)
Lemma history_failure_fatal_only_when_thrown_witness :
  s_Allocate historyNoSlotEnv ≠ HistoryThrows
  ∧ is_Some (ProcessHandleList connectedWorld !! connectedProcess)
  ∧ (let res := associateHistory historyNoSlotEnv cmdCac connectedProcess
                  STATUS_SUCCESS connectMsg connectedWorld in
     res.1.1 = ReplyDone
     ∧ completed_with_handles res connectedProcess
     ∧ CommandHistories res.2 = CommandHistories connectedWorld).
Proof.
  assert (s_Allocate historyNoSlotEnv ≠ HistoryThrows) as Hne by discriminate.
  assert (is_Some (ProcessHandleList connectedWorld !! connectedProcess)) as Hp
    by (vm_compute; by eexists).
  split; [exact Hne|]. split; [exact Hp|].
  destruct (proj2 (proj2 (history_failure_fatal_only_when_thrown historyNoSlotEnv
                            cmdCac connectedProcess STATUS_SUCCESS connectMsg
                            connectedWorld))
              Hne Hp eq_refl eq_refl eq_refl) as (Hc & Hh & Hs).
  split; [exact Hc|]. split; [exact Hh | exact (Hs eq_refl)].
Defined.

(** C5 on the fresh session: the first connection runs the initializer
    and leaves the session initialized. *)
Lemma session_initialized_once_witness :
  initialized freshWorld = false
  ∧ (let '(c, _, w') := dispatch ConnectionRequest localEnv connectMsg freshWorld in
     c ≠ ProcessExited →
     initializer_runs (events_since freshWorld w')
     = [ConsoleAllocateConsole localEnv]
     ∧ initialized w' = NT_SUCCESS (ConsoleAllocateConsole localEnv))
  ∧ (dispatch ConnectionRequest localEnv connectMsg freshWorld).1.1 = ReplyDone
  ∧ NT_SUCCESS (ConsoleAllocateConsole localEnv) = true.
Proof.
  split; [reflexivity|]. split; [|split; reflexivity].
  apply (proj1 session_initialized_once localEnv connectMsg freshWorld);
    reflexivity.
Defined.

(** C10 on a handle that a create request has just produced. *)
Lemma close_object_deletes_unchecked_witness :
  let w := (ConsoleCreateObject localEnv (genericCreate GENERIC_READ) freshWorld).2 in
  let h := new_address (HandleHeap freshWorld) in
  h ≠ 0 ∧ is_Some (HandleHeap w !! h)
  ∧ (ConsoleCloseObject (closeMsg h) w).1.1 = ReplyInline
  ∧ HandleHeap (ConsoleCloseObject (closeMsg h) w).2 = delete h (HandleHeap w).
Proof.
  cbv zeta.
  assert (new_address (HandleHeap freshWorld) ≠ 0) as Hnz by discriminate.
  assert (is_Some
            (HandleHeap
               (ConsoleCreateObject localEnv (genericCreate GENERIC_READ)
                  freshWorld).2 !! new_address (HandleHeap freshWorld))) as Hl
    by (vm_compute; by eexists).
  split; [exact Hnz|]. split; [exact Hl|].
  pose proof (close_object_deletes_unchecked
                (closeMsg (new_address (HandleHeap freshWorld)))
                (ConsoleCreateObject localEnv (genericCreate GENERIC_READ)
                   freshWorld).2) as H.
  cbv zeta in H.
  destruct (ConsoleCloseObject _ _) as [[c m'] w'].
  destruct H as (_ & H & _). destruct (H Hnz Hl) as (Hc & _ & _ & Hh).
  split; [exact Hc | exact Hh].
Defined.

(** X17 on the connected session with a teardown that reports failure:
    the reply is success all the same. *)
Lemma disconnect_replies_success_witness :
  ProcessHandleList connectedWorld !! connectedProcess
  = Some (mkProcess 100 7 100 true (Some 1) (Some 2))
  ∧ FAILED (RemoveConsoleResult teardownFailsEnv) = true
  ∧ (let '(c, m', w') :=
       ConsoleClientDisconnectRoutine teardownFailsEnv
         (disconnectMsg connectedProcess) connectedWorld in
     c = ReplyInline
     ∧ m' = SetReplyStatus STATUS_SUCCESS (disconnectMsg connectedProcess)).
Proof.
  assert (ProcessHandleList connectedWorld !! connectedProcess
          = Some (mkProcess 100 7 100 true (Some 1) (Some 2))) as Hp
    by (vm_compute; reflexivity).
  split; [exact Hp|]. split; [reflexivity|].
  pose proof (disconnect_replies_success teardownFailsEnv
                (disconnectMsg connectedProcess) connectedWorld _ Hp) as H.
  cbv zeta in H.
  destruct (ConsoleClientDisconnectRoutine teardownFailsEnv _ connectedWorld)
    as [[c m'] w'].
  destruct H as (Hc & Hm & _). split; [exact Hc | exact Hm].
Defined.
